(** * Chunking, symbol extraction and structured search

    A shallow embedding of the repository chunking and symbol-extraction
    pipeline ([src/utils/symbol_extractor.py], [src/utils/git_utils.py]),
    of the structured vector store ([src/utils/vector_utils.py]: storing,
    searching, the collections and the overview) and of the directory and
    content tools of the agents ([workflow/tools.py]), with the
    properties of the specification proved about the embedded functions.

    Conventions.
    - A Python [dict] is a [gmap]; a Python [list] is a [list].
    - A Python [str] is the [string] of the bytes of its UTF-8
      encoding.  [len] counts code points, not bytes; [strip] drops the
      whitespace of Unicode; searching, slicing at a found index and
      comparing are the same on the bytes as on the code points.
    - [lower], [upper] and [repr] depend on the Unicode character
      database of the interpreter: they are the parameters of the class
      [Py.Unicode], and every property holds for every instance.  The
      scenario instantiates them with their ASCII fragment.
    - A call that may raise returns [result]; [Raise e] carries [str(e)].
    - The third-party collaborators (tree-sitter parsers, [re.findall],
      the LangChain splitter, the wall clock, the embedding provider and
      the vector backend) are section variables. *)

From Stdlib Require Import PrimFloat Ascii String.
From stdpp Require Import base option list gmap strings pretty sorting.

Open Scope string_scope.

(** ** Exceptions *)

Inductive result (A : Type) : Type :=
| Ok (a : A)
| Raise (e : string).
Arguments Ok {A} a.
Arguments Raise {A} e.

#[global] Instance result_ret : MRet result := λ A a, Ok a.

#[global] Instance result_bind : MBind result := λ A B k r,
  match r with
  | Ok a => k a
  | Raise e => Raise e
  end.

(** [try: body except Exception as e: handler e] *)
Definition try_except {A} (body : result A) (handler : string → result A)
  : result A :=
  match body with
  | Ok a => Ok a
  | Raise e => handler e
  end.

(** [try: body finally: cleanup]: the cleanup runs on both exits, and an
    exception of the cleanup replaces the outcome of the body. *)
Definition try_finally {A} (body : result A) (cleanup : result unit)
  : result A :=
  match cleanup with
  | Ok _ => body
  | Raise e => Raise e
  end.

(** ** Python built-ins on strings *)

Module Py.

Definition dquote : string := String "034"%char "".
Definition squote : string := "'".
Definition backslash : string := String "092"%char "".

(** [needle in hay] *)
Fixpoint contains (needle hay : string) : bool :=
  String.prefix needle hay ||
  match hay with
  | EmptyString => false
  | String _ hay' => contains needle hay'
  end.

(** What the interpreter reads off the Unicode character database is
    not computed here: the case mappings and [repr], which escapes the
    characters that are not printable, are parameters. *)
Class Unicode : Type := mkUnicode {
  (** [s.lower()] *)
  lower : string → string;
  (** [s.upper()] *)
  upper : string → string;
  (** [repr(s)] of a [str] *)
  repr_str : string → string
}.

(** A continuation byte [10xxxxxx] of the encoding. *)
Definition continuation (c : ascii) : bool :=
  let n := Ascii.nat_of_ascii c in
  (128 <=? n)%nat && (n <? 192)%nat.

(** [len(s)]: the number of code points, which is the number of bytes
    that are not continuation bytes. *)
Fixpoint len (s : string) : nat :=
  match s with
  | EmptyString => 0
  | String c s' => if continuation c then len s' else S (len s')
  end.

(** [c.isspace()], by the encoding of [c] in one, two or three bytes:
    TAB, LF, VT, FF, CR, FS, GS, RS, US, SPACE; U+0085, U+00A0; U+1680,
    U+2000 to U+200A, U+2028, U+2029, U+202F, U+205F, U+3000. *)
Definition space1 (a : ascii) : bool :=
  let n := Ascii.nat_of_ascii a in
  ((9 <=? n)%nat && (n <=? 13)%nat) || ((28 <=? n)%nat && (n <=? 32)%nat).

Definition space2 (a b : ascii) : bool :=
  let y := Ascii.nat_of_ascii b in
  (Ascii.nat_of_ascii a =? 194)%nat && ((y =? 133)%nat || (y =? 160)%nat).

Definition space3 (a b c : ascii) : bool :=
  let x := Ascii.nat_of_ascii a in
  let y := Ascii.nat_of_ascii b in
  let z := Ascii.nat_of_ascii c in
  ((x =? 225)%nat && (y =? 154)%nat && (z =? 128)%nat)
  || ((x =? 226)%nat && (y =? 128)%nat
      && (((128 <=? z)%nat && (z <=? 138)%nat)
          || (z =? 168)%nat || (z =? 169)%nat || (z =? 175)%nat))
  || ((x =? 226)%nat && (y =? 129)%nat && (z =? 159)%nat)
  || ((x =? 227)%nat && (y =? 128)%nat && (z =? 128)%nat).

(** Dropping the leading whitespace; with [backwards] the text is read
    from its end, so the bytes of a character come last byte first. *)
Fixpoint lstrip_bytes (backwards : bool) (s : string) : string :=
  match s with
  | EmptyString => EmptyString
  | String a t =>
      if space1 a then lstrip_bytes backwards t
      else
        match t with
        | EmptyString => s
        | String b u =>
            if (if backwards then space2 b a else space2 a b)
            then lstrip_bytes backwards u
            else
              match u with
              | EmptyString => s
              | String c v =>
                  if (if backwards then space3 c b a else space3 a b c)
                  then lstrip_bytes backwards v
                  else s
              end
        end
  end.

Fixpoint reverse_onto (s acc : string) : string :=
  match s with
  | EmptyString => acc
  | String c s' => reverse_onto s' (String c acc)
  end.

Definition reverse (s : string) : string := reverse_onto s EmptyString.

Definition lstrip (s : string) : string := lstrip_bytes false s.

Definition rstrip (s : string) : string :=
  reverse (lstrip_bytes true (reverse s)).

(** [s.strip()] *)
Definition strip (s : string) : string := rstrip (lstrip s).

(** Truth value of a list: [bool(items)]. *)
Definition truthy {A} (items : list A) : bool :=
  match items with
  | [] => false
  | _ :: _ => true
  end.

(** [d[key]] *)
Definition getitem `{Countable K} {V} (d : gmap K V) (key : K) : result V :=
  match d !! key with
  | Some v => Ok v
  | None => Raise "KeyError"
  end.

(** [sep.join(parts)] *)
Fixpoint join (sep : string) (parts : list string) : string :=
  match parts with
  | [] => ""
  | [p] => p
  | p :: ps => p +:+ sep +:+ join sep ps
  end.

(** [str(v)] of a list of [str]. *)
Definition str_list {unicode : Unicode} (v : list string) : string :=
  "[" +:+ join ", " (repr_str <$> v) +:+ "]".

(** [p.rfind(c)] for an ASCII character [c]; [-1] when absent.  The
    position is an offset in bytes: it is used only to slice the same
    text, which gives the same pieces as slicing by characters. *)
Fixpoint rfind_from (c : ascii) (s : string) (i : Z) : Z :=
  match s with
  | EmptyString => (-1)%Z
  | String d s' =>
      let r := rfind_from c s' (i + 1)%Z in
      if (0 <=? r)%Z then r else if Ascii.eqb c d then i else (-1)%Z
  end.

Definition rfind (c : ascii) (s : string) : Z := rfind_from c s 0.

(** [p[i:j]] for [0 <= i <= j]. *)
Definition slice (s : string) (i j : Z) : string :=
  String.substring (Z.to_nat i) (Z.to_nat (j - i)) s.

(** The loop of [genericpath._splitext] that skips leading dots: is there
    a character other than ['.'] in [p[filenameIndex:dotIndex]]? *)
Fixpoint splitext_scan (p : string) (filenameIndex : Z) (steps : nat) : bool :=
  match steps with
  | O => false
  | S steps' =>
      if negb (String.eqb (slice p filenameIndex (filenameIndex + 1)) ".")
      then true
      else splitext_scan p (filenameIndex + 1)%Z steps'
  end.

(** [os.path.splitext(p)] ([posixpath]: [sep = '/'], no [altsep]). *)
Definition splitext (p : string) : string * string :=
  let sepIndex := rfind "/" p in
  let dotIndex := rfind "." p in
  if (sepIndex <? dotIndex)%Z
     && splitext_scan p (sepIndex + 1)%Z (Z.to_nat (dotIndex - (sepIndex + 1)))
  then (slice p 0 dotIndex, slice p dotIndex (Z.of_nat (String.length p)))
  else (p, "").

(** [os.path.basename(p)] ([posixpath]): [p[p.rfind('/') + 1:]]. *)
Definition basename (p : string) : string :=
  let i := (rfind "/" p + 1)%Z in
  slice p i (Z.of_nat (String.length p)).

(** [items[:stop]]: a negative [stop] counts from the end. *)
Definition slice_to {A} (items : list A) (stop : Z) : list A :=
  if (stop <? 0)%Z then take (Z.to_nat (Z.of_nat (length items) + stop)) items
  else take (Z.to_nat stop) items.

End Py.

(** ** [symbol_extractor.py] *)

Module SymbolExtractor.

(** A tree-sitter [Node]: its [type], its decoded [text], the field name
    it has in its parent (if any) and its [children]. *)
#[warnings="-register-all"]
Inductive Node : Type :=
| mkNode (type : string) (text : string) (field : option string)
    (children : list Node).

Definition node_type (n : Node) : string :=
  match n with mkNode t _ _ _ => t end.
Definition node_text (n : Node) : string :=
  match n with mkNode _ x _ _ => x end.
Definition node_field (n : Node) : option string :=
  match n with mkNode _ _ f _ => f end.
Definition node_children (n : Node) : list Node :=
  match n with mkNode _ _ _ cs => cs end.

(** [node.child_by_field_name(name)] *)
Definition child_by_field_name (n : Node) (name : string) : option Node :=
  find (λ c, bool_decide (node_field c = Some name)) (node_children n).

(** [Dict[str, List[str]]] *)
Abbreviation Symbols := (gmap string (list string)).

(** [symbols[key].append(value)]; every key the extractors append to is
    initialised by the dict literal that opens the extractor. *)
Definition append_to (key value : string) (symbols : Symbols) : Symbols :=
  alter (λ items, (items ++ [value])%list) key symbols.

(** [symbols[key].extend(values)] *)
Definition extend_to (key : string) (values : list string)
  (symbols : Symbols) : Symbols :=
  alter (λ items, (items ++ values)%list) key symbols.

(** [name_node = node.child_by_field_name('name');
     if name_node: symbols[key].append(name_node.text.decode('utf8'))] *)
Definition append_name (key : string) (node : Node) (symbols : Symbols)
  : Symbols :=
  match child_by_field_name node "name" with
  | Some name_node => append_to key (node_text name_node) symbols
  | None => symbols
  end.

(** [symbols[key].append(node.text.decode('utf8').strip())] *)
Definition append_text (key : string) (node : Node) (symbols : Symbols)
  : Symbols :=
  append_to key (Py.strip (node_text node)) symbols.

(** The shape shared by the nested [traverse] functions: handle the node,
    then recurse into the children from left to right.  [visit] gets the
    parent for the extractor that looks at [node.parent]. *)
Section Traverse.
Context (visit : option Node → Node → Symbols → Symbols).

Fixpoint traverse (parent : option Node) (node : Node) (symbols : Symbols)
  : Symbols :=
  let symbols := visit parent node symbols in
  match node with
  | mkNode _ _ _ children =>
      (fix each_child (cs : list Node) (symbols : Symbols) : Symbols :=
         match cs with
         | [] => symbols
         | child :: cs' => each_child cs' (traverse (Some node) child symbols)
         end) children symbols
  end.
End Traverse.

Definition is_type (node : Node) (t : string) : bool :=
  String.eqb (node_type node) t.

Definition empty_lists (keys : list string) : Symbols :=
  list_to_map ((λ k, (k, [])) <$> keys).

Definition _extract_python_symbols (root_node : Node) : Symbols :=
  traverse (λ parent node symbols,
    if is_type node "import_statement" then append_text "imports" node symbols
    else if is_type node "import_from_statement"
      then append_text "imports" node symbols
    else if is_type node "function_definition"
      then append_name "functions" node symbols
    else if is_type node "class_definition"
      then append_name "classes" node symbols
    else if is_type node "decorator" then append_text "decorators" node symbols
    else if is_type node "assignment" then
      match parent with
      | Some p =>
          if is_type p "module" then
            match child_by_field_name node "left" with
            | Some left_node =>
                if is_type left_node "identifier"
                then append_to "variables" (node_text left_node) symbols
                else symbols
            | None => symbols
            end
          else symbols
      | None => symbols
      end
    else symbols)
  None root_node
  (empty_lists ["imports"; "functions"; "classes"; "variables"; "decorators"]).

Definition _extract_js_ts_symbols (root_node : Node) : Symbols :=
  traverse (λ _ node symbols,
    if is_type node "import_statement" then append_text "imports" node symbols
    else if is_type node "function_declaration"
      then append_name "functions" node symbols
    else if is_type node "class_declaration"
      then append_name "classes" node symbols
    else if is_type node "variable_declaration" then
      foldl (λ symbols child,
               if is_type child "variable_declarator"
               then append_name "variables" child symbols
               else symbols)
            symbols (node_children node)
    else if is_type node "export_statement"
      then append_text "exports" node symbols
    else symbols)
  None root_node
  (empty_lists ["imports"; "functions"; "classes"; "variables"; "exports"]).

Definition _extract_java_symbols (root_node : Node) : Symbols :=
  traverse (λ _ node symbols,
    if is_type node "import_declaration"
      then append_text "imports" node symbols
    else if is_type node "package_declaration"
      then append_text "packages" node symbols
    else if is_type node "method_declaration"
      then append_name "functions" node symbols
    else if is_type node "class_declaration"
      then append_name "classes" node symbols
    else if is_type node "interface_declaration"
      then append_name "interfaces" node symbols
    else symbols)
  None root_node
  (empty_lists ["imports"; "functions"; "classes"; "interfaces"; "packages"]).

(** [_find_function_name]: the first [identifier] of the declarator in
    depth-first order. *)
Fixpoint _find_function_name (node : Node) : option Node :=
  if String.eqb (node_type node) "identifier" then Some node
  else
    match node with
    | mkNode _ _ _ children =>
        (fix first_of (cs : list Node) : option Node :=
           match cs with
           | [] => None
           | child :: cs' =>
               match _find_function_name child with
               | Some result => Some result
               | None => first_of cs'
               end
           end) children
    end.

Definition _extract_c_cpp_symbols (root_node : Node) : Symbols :=
  traverse (λ _ node symbols,
    if is_type node "preproc_include" then append_text "includes" node symbols
    else if is_type node "preproc_def" then append_text "defines" node symbols
    else if is_type node "function_definition" then
      match child_by_field_name node "declarator" with
      | Some declarator =>
          match _find_function_name declarator with
          | Some name_node => append_to "functions" (node_text name_node) symbols
          | None => symbols
          end
      | None => symbols
      end
    else if is_type node "class_specifier"
      then append_name "classes" node symbols
    else if is_type node "struct_specifier"
      then append_name "structs" node symbols
    else symbols)
  None root_node
  (empty_lists ["includes"; "functions"; "classes"; "structs"; "defines"]).

Definition _extract_go_symbols (root_node : Node) : Symbols :=
  traverse (λ _ node symbols,
    if is_type node "import_spec" then append_text "imports" node symbols
    else if is_type node "function_declaration"
      then append_name "functions" node symbols
    else if is_type node "type_declaration"
      then append_name "types" node symbols
    else if is_type node "var_declaration"
      then append_text "variables" node symbols
    else if is_type node "const_declaration"
      then append_text "constants" node symbols
    else symbols)
  None root_node
  (empty_lists ["imports"; "functions"; "types"; "variables"; "constants"]).

Definition _extract_rust_symbols (root_node : Node) : Symbols :=
  traverse (λ _ node symbols,
    if is_type node "use_declaration" then append_text "uses" node symbols
    else if is_type node "function_item"
      then append_name "functions" node symbols
    else if is_type node "struct_item" then append_name "structs" node symbols
    else if is_type node "enum_item" then append_name "enums" node symbols
    else if is_type node "trait_item" then append_name "traits" node symbols
    else if is_type node "impl_item" then append_to "impls" "impl block" symbols
    else symbols)
  None root_node
  (empty_lists ["uses"; "functions"; "structs"; "enums"; "traits"; "impls"]).

Definition _extract_ruby_symbols (root_node : Node) : Symbols :=
  traverse (λ _ node symbols,
    if is_type node "call" && Py.truthy (node_children node)
    then
      match node_children node with
      | method_node :: _ =>
          if String.eqb (node_text method_node) "require"
          then append_text "requires" node symbols
          else symbols
      | [] => symbols
      end
    else if is_type node "method" then append_name "functions" node symbols
    else if is_type node "class" then append_name "classes" node symbols
    else if is_type node "module" then append_name "modules" node symbols
    else symbols)
  None root_node
  (empty_lists ["requires"; "functions"; "classes"; "modules"; "constants"]).

Definition _extract_php_symbols (root_node : Node) : Symbols :=
  traverse (λ _ node symbols,
    if is_type node "include_expression" || is_type node "require_expression"
      then append_text "includes" node symbols
    else if is_type node "function_definition"
      then append_name "functions" node symbols
    else if is_type node "class_declaration"
      then append_name "classes" node symbols
    else if is_type node "interface_declaration"
      then append_name "interfaces" node symbols
    else if is_type node "trait_declaration"
      then append_name "traits" node symbols
    else if is_type node "namespace_definition"
      then append_name "namespaces" node symbols
    else symbols)
  None root_node
  (empty_lists
     ["includes"; "functions"; "classes"; "interfaces"; "traits";
      "namespaces"]).

Definition _extract_csharp_symbols (root_node : Node) : Symbols :=
  traverse (λ _ node symbols,
    if is_type node "using_directive" then append_text "usings" node symbols
    else if is_type node "method_declaration"
      then append_name "functions" node symbols
    else if is_type node "class_declaration"
      then append_name "classes" node symbols
    else if is_type node "interface_declaration"
      then append_name "interfaces" node symbols
    else if is_type node "namespace_declaration"
      then append_name "namespaces" node symbols
    else symbols)
  None root_node
  (empty_lists ["usings"; "functions"; "classes"; "interfaces"; "namespaces"]).

Definition _extract_swift_symbols (root_node : Node) : Symbols :=
  traverse (λ _ node symbols,
    if is_type node "import_declaration"
      then append_text "imports" node symbols
    else if is_type node "function_declaration"
      then append_name "functions" node symbols
    else if is_type node "class_declaration"
      then append_name "classes" node symbols
    else if is_type node "struct_declaration"
      then append_name "structs" node symbols
    else if is_type node "protocol_declaration"
      then append_name "protocols" node symbols
    else if is_type node "extension_declaration"
      then append_to "extensions" "extension" symbols
    else symbols)
  None root_node
  (empty_lists
     ["imports"; "functions"; "classes"; "structs"; "protocols";
      "extensions"]).

Definition _extract_kotlin_symbols (root_node : Node) : Symbols :=
  traverse (λ _ node symbols,
    if is_type node "import_header" then append_text "imports" node symbols
    else if is_type node "package_header"
      then append_text "packages" node symbols
    else if is_type node "function_declaration"
      then append_name "functions" node symbols
    else if is_type node "class_declaration"
      then append_name "classes" node symbols
    else if is_type node "interface_declaration"
      then append_name "interfaces" node symbols
    else if is_type node "object_declaration"
      then append_name "objects" node symbols
    else symbols)
  None root_node
  (empty_lists
     ["imports"; "functions"; "classes"; "interfaces"; "objects"; "packages"]).

Definition _extract_generic_symbols (root_node : Node) : Symbols :=
  traverse (λ _ node symbols,
    if is_type node "identifier"
      then append_to "identifiers" (node_text node) symbols
    else if is_type node "string"
      then append_to "strings" (node_text node) symbols
    else if Py.contains "comment" (node_type node)
      then append_text "comments" node symbols
    else symbols)
  None root_node
  (empty_lists ["identifiers"; "strings"; "comments"]).

(** [get_language_from_extension]: the extension table of the extractor. *)
Definition extension_map : gmap string string :=
  list_to_map
    [ (".py", "python"); (".js", "javascript"); (".jsx", "javascript");
      (".ts", "typescript"); (".tsx", "typescript"); (".java", "java");
      (".cpp", "cpp"); (".cc", "cpp"); (".cxx", "cpp"); (".c", "c");
      (".h", "c"); (".hpp", "cpp"); (".cs", "csharp"); (".go", "go");
      (".rs", "rust"); (".rb", "ruby"); (".php", "php");
      (".swift", "swift"); (".kt", "kotlin") ].

Definition get_language_from_extension {unicode : Py.Unicode} (file_path : string)
  : option string :=
  let ext := Py.lower (Py.splitext file_path).2 in
  extension_map !! ext.

(** The character classes [[\'"]] and [[^\'"]+] of the JavaScript import
    patterns. *)
Definition quote_class : string := "[\'" +:+ Py.dquote +:+ "]".
Definition non_quotes : string := "[^\'" +:+ Py.dquote +:+ "]+".

(** The [patterns] table of [_fallback_extraction]; the inner tables are
    kept as association lists, in the order [.items()] yields them. *)
Definition patterns : gmap string (list (string * list string)) :=
  list_to_map
    [ ("python",
       [ ("imports",
          [ "^import\s+[\w\.]+(?:\s+as\s+\w+)?";
            "^from\s+[\w\.]+\s+import\s+.+" ]);
         ("functions", [ "^def\s+(\w+)\s*\(" ]);
         ("classes", [ "^class\s+(\w+)(?:\s*\(.*?\))?:" ]) ]);
      ("javascript",
       [ ("imports",
          [ "import\s+.*?from\s+" +:+ quote_class +:+ non_quotes
              +:+ quote_class;
            "const\s+.*?=\s+require\(" +:+ quote_class +:+ non_quotes
              +:+ quote_class +:+ "\)" ]);
         ("functions",
          [ "function\s+(\w+)\s*\(";
            "(\w+)\s*=\s*(?:async\s+)?(?:function|\([^)]*\)\s*=>)" ]);
         ("classes", [ "class\s+(\w+)(?:\s+extends\s+\w+)?\s*\{" ]) ]) ].

(** The extractor instance: whether the tree-sitter import succeeded, the
    parsers [_initialize_languages] could build, and the regex engine. *)
Section Extractor.

Context {unicode : Py.Unicode}.

(** [TREE_SITTER_AVAILABLE] *)
Context (TREE_SITTER_AVAILABLE : bool).
(** [self.parsers]: per language,
    [code ↦ parser.parse(bytes(code, "utf8")).root_node], which may raise;
    the nodes come with their text decoded, so a tree whose text cannot be
    decoded counts as a parse that raised. *)
Context (parsers : gmap string (string → result Node)).
(** [re.findall(pattern, code, re.MULTILINE)] *)
Context (re_findall : string → string → list string).

Definition _fallback_extraction (code language : string) : Symbols :=
  let symbols := empty_lists ["imports"; "functions"; "classes"] in
  if bool_decide (language ∈ dom patterns) then
    foldl (λ symbols '(symbol_type, pattern_list),
             foldl (λ symbols pattern,
                      let matches := re_findall pattern code in
                      extend_to symbol_type matches symbols)
                   symbols pattern_list)
          symbols (default [] (patterns !! language))
  else symbols.

Definition extract_symbols (code language : string) : result Symbols :=
  if negb TREE_SITTER_AVAILABLE || negb (bool_decide (language ∈ dom parsers))
  then Ok (_fallback_extraction code language)
  else
    try_except
      (parser ← Py.getitem parsers language;
       root_node ← parser code;
       if String.eqb language "python"
         then Ok (_extract_python_symbols root_node)
       else if bool_decide (language ∈ ["javascript"; "typescript"])
         then Ok (_extract_js_ts_symbols root_node)
       else if String.eqb language "java"
         then Ok (_extract_java_symbols root_node)
       else if bool_decide (language ∈ ["cpp"; "c"])
         then Ok (_extract_c_cpp_symbols root_node)
       else if String.eqb language "go"
         then Ok (_extract_go_symbols root_node)
       else if String.eqb language "rust"
         then Ok (_extract_rust_symbols root_node)
       else if String.eqb language "ruby"
         then Ok (_extract_ruby_symbols root_node)
       else if String.eqb language "php"
         then Ok (_extract_php_symbols root_node)
       else if String.eqb language "csharp"
         then Ok (_extract_csharp_symbols root_node)
       else if String.eqb language "swift"
         then Ok (_extract_swift_symbols root_node)
       else if String.eqb language "kotlin"
         then Ok (_extract_kotlin_symbols root_node)
       else Ok (_extract_generic_symbols root_node))
      (λ e, Ok (_fallback_extraction code language)).

Definition extract_file_symbols (file_path content : string)
  : result Symbols :=
  let unsupported : Symbols := {[ "error" := ["Unsupported file type"] ]} in
  match get_language_from_extension file_path with
  | None => Ok unsupported
  | Some language =>
      if String.eqb language "" then Ok unsupported
      else extract_symbols content language
  end.

(** [get_available_languages] *)
Definition get_available_languages : list string :=
  (map_to_list parsers).*1.

(** [is_language_supported] *)
Definition is_language_supported (language : string) : bool :=
  bool_decide (language ∈ dom parsers).

End Extractor.

(** The nodes of a tree in the order the [traverse] functions meet them:
    a node, then its children from left to right, each with all below
    it. *)
Fixpoint preorder (node : Node) : list Node :=
  node ::
  match node with
  | mkNode _ _ _ children =>
      (fix each_child (cs : list Node) : list Node :=
         match cs with
         | [] => []
         | child :: cs' => (preorder child ++ each_child cs')%list
         end) children
  end.

(** The same walk, each node with its parent. *)
Fixpoint preorder_from (parent : option Node) (node : Node)
  : list (option Node * Node) :=
  (parent, node) ::
  match node with
  | mkNode _ _ _ children =>
      (fix each_child (cs : list Node) : list (option Node * Node) :=
         match cs with
         | [] => []
         | child :: cs' =>
             (preorder_from (Some node) child ++ each_child cs')%list
         end) children
  end.

(** The name a definition node of the given type adds to its category. *)
Definition named (type : string) (node : Node) : option string :=
  if is_type node type then node_text <$> child_by_field_name node "name"
  else None.

(** [display_items] of [create_symbol_summary]: the first [max_items]
    items and, when there are more, a line that counts the rest. *)
Definition display_items (items : list string) (max_items : Z) : list string :=
  let display_items := Py.slice_to items max_items in
  if (max_items <? Z.of_nat (length items))%Z
  then (display_items
        ++ ["... and " +:+ pretty (Z.of_nat (length items) - max_items)%Z
            +:+ " more"])%list
  else display_items.

(** The loop of [create_symbol_summary] over [symbols.items()], which come
    in the order the keys were put into the dict. *)
Definition summary_parts {unicode : Py.Unicode}
  (symbols : list (string * list string))
  (max_items : Z) : list string :=
  foldl (λ summary_parts '(symbol_type, items),
           if Py.truthy items && negb (String.eqb symbol_type "error")
           then (summary_parts
                 ++ [Py.upper symbol_type +:+ ": "
                     +:+ Py.join ", " (display_items items max_items)])%list
           else summary_parts)
        [] symbols.

Definition create_symbol_summary {unicode : Py.Unicode}
  (symbols : list (string * list string))
  (max_items : Z) : string :=
  let summary_parts := summary_parts symbols max_items in
  if Py.truthy summary_parts then Py.join " | " summary_parts
  else "No symbols found".

End SymbolExtractor.

(** ** [git_utils.py] *)

Module GitUtils.
Import SymbolExtractor.

(** The members of [langchain_text_splitters.Language] the chunker maps
    extensions to. *)
Inductive Language : Set :=
| PYTHON | JS | TS | JAVA | KOTLIN | CPP | C | CSHARP | PHP | RUBY | GO
| RUST | SWIFT | SCALA | MARKDOWN | HTML | SOL | LUA | PERL | HASKELL
| ELIXIR | POWERSHELL | VISUALBASIC6 | PROTO | RST | LATEX | COBOL.

(** [language.value] *)
Definition value (language : Language) : string :=
  match language with
  | PYTHON => "python" | JS => "js" | TS => "ts" | JAVA => "java"
  | KOTLIN => "kotlin" | CPP => "cpp" | C => "c" | CSHARP => "csharp"
  | PHP => "php" | RUBY => "ruby" | GO => "go" | RUST => "rust"
  | SWIFT => "swift" | SCALA => "scala" | MARKDOWN => "markdown"
  | HTML => "html" | SOL => "sol" | LUA => "lua" | PERL => "perl"
  | HASKELL => "haskell" | ELIXIR => "elixir" | POWERSHELL => "powershell"
  | VISUALBASIC6 => "visualbasic6" | PROTO => "proto" | RST => "rst"
  | LATEX => "latex" | COBOL => "cobol"
  end.

Definition extension_map : gmap string Language :=
  list_to_map
    [ (".py", PYTHON); (".js", JS); (".ts", TS); (".jsx", JS); (".tsx", TS);
      (".java", JAVA); (".kt", KOTLIN); (".cpp", CPP); (".cc", CPP);
      (".cxx", CPP); (".c", C); (".h", C); (".hpp", CPP); (".cs", CSHARP);
      (".php", PHP); (".rb", RUBY); (".go", GO); (".rs", RUST);
      (".swift", SWIFT); (".scala", SCALA); (".md", MARKDOWN);
      (".html", HTML); (".htm", HTML); (".sol", SOL); (".lua", LUA);
      (".pl", PERL); (".hs", HASKELL); (".ex", ELIXIR); (".exs", ELIXIR);
      (".ps1", POWERSHELL); (".vb", VISUALBASIC6); (".proto", PROTO);
      (".rst", RST); (".tex", LATEX); (".cob", COBOL); (".cbl", COBOL) ].

Definition get_language_from_extension {unicode : Py.Unicode} (file_path : string)
  : option Language :=
  let ext := Py.lower (Py.splitext file_path).2 in
  extension_map !! ext.

(** [language.value if language else 'unknown'] *)
Definition language_name_of (language : option Language) : string :=
  match language with
  | Some l => value l
  | None => "unknown"
  end.

(** [if key in symbols and symbols[key]: acc.extend(symbols[key])] *)
Definition extend_from (symbols : Symbols) (acc : list string) (key : string)
  : list string :=
  match symbols !! key with
  | Some items => if Py.truthy items then acc ++ items else acc
  | None => acc
  end.

Definition import_keys : list string :=
  ["imports"; "includes"; "usings"; "uses"; "requires"].

Definition extract_imports_from_symbols (symbols : Symbols) : list string :=
  foldl (extend_from symbols) [] import_keys.

(** [symbol_mapping], in the order [.items()] yields it. *)
Definition symbol_mapping : list (string * list string) :=
  [ ("functions", ["functions"; "methods"]);
    ("classes", ["classes"; "structs"; "interfaces"; "traits"; "protocols"]);
    ("variables", ["variables"; "constants"; "defines"]);
    ("types", ["types"; "enums"; "typedefs"]);
    ("modules", ["modules"; "namespaces"; "packages"]) ].

Definition extract_symbol_names (symbols : Symbols) : Symbols :=
  let clean_symbols : Symbols :=
    foldl (λ (clean_symbols : Symbols) '(clean_type, symbol_keys),
             <[clean_type := foldl (extend_from symbols) [] symbol_keys]>
               clean_symbols)
          ∅ symbol_mapping in
  filter (λ kv : string * list string, Py.truthy kv.2) clean_symbols.

(** The items a mapping holds under the given categories, in the order of
    the categories; a category that is absent gives none. *)
Definition items_under (symbols : Symbols) (keys : list string)
  : list string :=
  keys ≫= λ key, default [] (symbols !! key).

(** A value of the [metadata] dict of a record. *)
Inductive MetaValue : Set :=
| MStr (s : string)
| MInt (n : Z)
| MBool (b : bool).

(** The dict a chunk is returned as: keys [id], [repo_id], [chunk_id],
    [content], [embedding], [symbols], [imports], [metadata]. *)
Record ChunkRecord : Type := mkChunkRecord {
  rec_id : string;
  rec_repo_id : string;
  rec_chunk_id : option nat;
  rec_content : string;
  rec_embedding : option (list float);
  rec_symbols : Symbols;
  rec_imports : list string;
  rec_metadata : gmap string MetaValue
}.

(** [Document] of the splitter. *)
Record Document : Type := mkDocument { page_content : string }.

(** What the chunker changes outside its result: the clock advances with
    every [datetime.now()], and every request for a splitter is noted. *)
Record World : Type := mkWorld {
  clock : nat;
  splitter_requests : list (option Language * Z * Z)
}.

(** The world after one more reading of the clock and the given splitter
    requests. *)
Definition ticked (w : World) (requests : list (option Language * Z * Z))
  : World :=
  {| clock := S (clock w);
     splitter_requests := splitter_requests w ++ requests |}.

(** A computation that reads and changes the world and may raise. *)
Definition M (A : Type) : Type := World → result A * World.

#[global] Instance M_ret : MRet M := λ A a w, (Ok a, w).

#[global] Instance M_bind : MBind M := λ A B k m w,
  match m w with
  | (Ok a, w') => k a w'
  | (Raise e, w') => (Raise e, w')
  end.

Definition lift {A} (r : result A) : M A := λ w, (r, w).

Definition try_exceptM {A} (body : M A) (handler : string → M A) : M A :=
  λ w,
    match body w with
    | (Ok a, w') => (Ok a, w')
    | (Raise e, w') => handler e w'
    end.

Section Chunker.

Context {unicode : Py.Unicode}.

(** The extractor instance [symbol_extractor]. *)
Context (TREE_SITTER_AVAILABLE : bool).
Context (parsers : gmap string (string → result Node)).
Context (re_findall : string → string → list string).

(** [RecursiveCharacterTextSplitter.from_language] and
    [splitter.create_documents], with the splitter as an opaque handle. *)
Context {Splitter : Type}.
Context (from_language : Language → Z → Z → result Splitter).
Context (create_documents : Splitter → list string → result (list Document)).

(** The text [datetime.now().isoformat()] gives at the n-th reading. *)
Context (isoformat : nat → string).

Definition now_isoformat : M string :=
  λ w, (Ok (isoformat (clock w)),
        {| clock := S (clock w);
           splitter_requests := splitter_requests w |}).

(** [create_splitter_for_language]; [should_chunk] keeps [None] away, the
    library rejects it. *)
Definition create_splitter_for_language (language : option Language)
  (chunk_size chunk_overlap : Z) : M Splitter :=
  λ w,
    (match language with
     | Some l => from_language l chunk_size chunk_overlap
     | None => Raise "Language None is not supported!"
     end,
     {| clock := clock w;
        splitter_requests :=
          splitter_requests w ++ [(language, chunk_size, chunk_overlap)] |}).

(** What the two library calls of the [try] block give for a language:
    the documents, or the exception of the first call that raises. *)
Definition split_outcome (language : Language) (chunk_size chunk_overlap : Z)
  (content : string) : result (list Document) :=
  splitter ← from_language language chunk_size chunk_overlap;
  create_documents splitter [content].

(** The body of [for i, doc in enumerate(documents)], from index [i] on. *)
Fixpoint chunk_documents (file_path repo_id : string) (clean_symbols : Symbols)
  (imports : list string) (language_name : string) (total : nat)
  (i : nat) (documents : list Document) : M (list ChunkRecord) :=
  match documents with
  | [] => mret []
  | doc :: documents' =>
      let chunk_content := page_content doc in
      let chunk_id_str := file_path +:+ "#chunk_" +:+ pretty i in
      timestamp ← now_isoformat;
      let chunk_data :=
        {| rec_id := chunk_id_str;
           rec_repo_id := repo_id;
           rec_chunk_id := Some i;
           rec_content := chunk_content;
           rec_embedding := None;
           rec_symbols := clean_symbols;
           rec_imports := imports;
           rec_metadata :=
             {[ "language" := MStr language_name;
                "size" := MInt (Z.of_nat (Py.len chunk_content));
                "timestamp" := MStr timestamp;
                "total_chunks" := MInt (Z.of_nat total);
                "is_chunked" := MBool true ]} |} in
      chunks ← chunk_documents file_path repo_id clean_symbols imports
                 language_name total (S i) documents';
      mret (chunk_data :: chunks)
  end.

Definition process_file_structured (file_path content repo_id : string)
  (chunk_size chunk_overlap : Z) : M (list ChunkRecord) :=
  symbols ← lift (extract_file_symbols TREE_SITTER_AVAILABLE parsers
                    re_findall file_path content);
  let imports := extract_imports_from_symbols symbols in
  let clean_symbols := extract_symbol_names symbols in
  let language := get_language_from_extension file_path in
  let language_name := language_name_of language in
  let should_chunk :=
    bool_decide (chunk_size < Z.of_nat (Py.len content))%Z
    && bool_decide (is_Some language) in
  if negb should_chunk then
    timestamp ← now_isoformat;
    mret [ {| rec_id := file_path;
              rec_repo_id := repo_id;
              rec_chunk_id := None;
              rec_content := content;
              rec_embedding := None;
              rec_symbols := clean_symbols;
              rec_imports := imports;
              rec_metadata :=
                {[ "language" := MStr language_name;
                   "size" := MInt (Z.of_nat (Py.len content));
                   "timestamp" := MStr timestamp ]} |} ]
  else
    try_exceptM
      (splitter ← create_splitter_for_language language chunk_size
                    chunk_overlap;
       documents ← lift (create_documents splitter [content]);
       chunk_documents file_path repo_id clean_symbols imports language_name
         (length documents) 0 documents)
      (λ e,
         timestamp ← now_isoformat;
         mret [ {| rec_id := file_path;
                   rec_repo_id := repo_id;
                   rec_chunk_id := None;
                   rec_content := content;
                   rec_embedding := None;
                   rec_symbols := clean_symbols;
                   rec_imports := imports;
                   rec_metadata :=
                     {[ "language" := MStr language_name;
                        "size" := MInt (Z.of_nat (Py.len content));
                        "timestamp" := MStr timestamp;
                        "chunking_error" := MStr e ]} |} ]).

End Chunker.

(** *** The repository walker, [get_git_repo_info_structured] *)

(** An entry of [repo.head.commit.tree.traverse()]: its [type], its [path]
    and what [item.data_stream.read().decode('utf-8')] gives, which raises
    on bytes that are not UTF-8. *)
Record Item : Type := mkItem {
  item_type : string;
  item_path : string;
  item_text : result string
}.

(** [repo_info['chunking_info']] *)
Record ChunkingInfo : Type := mkChunkingInfo {
  info_chunk_size : Z;
  info_chunk_overlap : Z;
  total_chunks : nat;
  files_chunked : nat;
  files_not_chunked : nat
}.

(** [repo_info] *)
Record RepoInfo : Type := mkRepoInfo {
  info_repo_id : string;
  info_repo_name : string;
  commit_count : nat;
  branches : list string;
  files : list ChunkRecord;
  chunking_info : ChunkingInfo
}.

Definition relevant_extensions : list string :=
  [ ".py"; ".js"; ".ts"; ".jsx"; ".tsx"; ".java"; ".cpp"; ".c"; ".h";
    ".cs"; ".php"; ".rb"; ".go"; ".rs"; ".swift"; ".kt"; ".scala";
    ".html"; ".css"; ".scss"; ".sass"; ".less";
    ".md"; ".txt"; ".rst"; ".json"; ".yaml"; ".yml"; ".toml";
    ".sql"; ".sh"; ".bat"; ".ps1"; ".proto"; ".tex"; ".lua"; ".pl";
    ".hs"; ".ex"; ".exs"; ".vb"; ".sol"; ".cob"; ".cbl";
    ".dockerfile"; ".gitignore"; ".env.example" ].

Definition relevant_filenames : list string :=
  [ "README"; "LICENSE"; "CHANGELOG"; "CONTRIBUTING"; "INSTALL";
    "Dockerfile"; "Makefile"; "requirements.txt"; "package.json";
    "setup.py"; "pyproject.toml"; "Cargo.toml"; "pom.xml";
    "build.gradle"; "composer.json"; "Gemfile" ].

Definition skip_directories : list string :=
  [ "node_modules"; ".git"; "__pycache__"; ".pytest_cache";
    "venv"; "env"; ".env"; "build"; "dist"; "target";
    ".idea"; ".vscode"; "logs"; "tmp"; "temp";
    "images"; "assets"; "static/images"; "public/images" ].

(** [any(skip_dir in item.path for skip_dir in skip_directories)] *)
Definition in_skipped_directory (path : string) : bool :=
  existsb (λ skip_dir, Py.contains skip_dir path) skip_directories.

Definition should_include {unicode : Py.Unicode} (path : string) : bool :=
  let file_ext := Py.lower (Py.splitext path).2 in
  let filename := Py.basename path in
  let filename_no_ext := Py.upper (Py.splitext filename).1 in
  bool_decide (file_ext ∈ relevant_extensions)
  || bool_decide (filename_no_ext ∈ relevant_filenames)
  || bool_decide (filename ∈ relevant_filenames).

Definition NUL : string := String "000"%char "".

(** ['\x00' in content or len(content) > 500000] *)
Definition binary_or_large (content : string) : bool :=
  Py.contains NUL content
  || bool_decide (500000 < Z.of_nat (Py.len content))%Z.

(** The entries the walker hands to the chunker: blobs outside the
    skipped directories, with a relevant extension or name, that decode
    and are neither binary nor very large. *)
Definition accepted {unicode : Py.Unicode} (item : Item) : bool :=
  String.eqb (item_type item) "blob"
  && negb (in_skipped_directory (item_path item))
  && should_include (item_path item)
  && match item_text item with
     | Ok content => negb (binary_or_large content)
     | Raise _ => false
     end.

(** The repository [git.Repo(repo_path)] opens: what counting the commits,
    listing the branches, walking the tree of the head and closing give. *)
Record Repo : Type := mkRepo {
  repo_commits : result nat;
  repo_branches : result (list string);
  repo_tree : result (list Item);
  repo_close : result unit
}.

Section Walker.

Context {unicode : Py.Unicode}.

Context (TREE_SITTER_AVAILABLE : bool).
Context (parsers : gmap string (string → result Node)).
Context (re_findall : string → string → list string).
Context {Splitter : Type}.
Context (from_language : Language → Z → Z → result Splitter).
Context (create_documents : Splitter → list string → result (list Document)).
Context (isoformat : nat → string).
(** [git.Repo(repo_path)] *)
Context (open_repo : string → result Repo).

(** The statistics after a file that gave [file_chunks]. *)
Definition count_file (file_chunks : list ChunkRecord) (info : ChunkingInfo)
  : ChunkingInfo :=
  {| info_chunk_size := info_chunk_size info;
     info_chunk_overlap := info_chunk_overlap info;
     total_chunks := total_chunks info + length file_chunks;
     files_chunked :=
       if bool_decide (1 < length file_chunks)
       then files_chunked info + 1 else files_chunked info;
     files_not_chunked :=
       if bool_decide (1 < length file_chunks)
       then files_not_chunked info else files_not_chunked info + 1 |}.

(** The body of [for item in tree.traverse()]. *)
Definition visit_item (repo_name : string) (chunk_size chunk_overlap : Z)
  (repo_info : RepoInfo) (item : Item) : M RepoInfo :=
  if negb (String.eqb (item_type item) "blob") then mret repo_info
  else if in_skipped_directory (item_path item) then mret repo_info
  else if negb (should_include (item_path item)) then mret repo_info
  else
    try_exceptM
      (content ← lift (item_text item);
       if binary_or_large content then mret repo_info
       else
         file_chunks ← process_file_structured TREE_SITTER_AVAILABLE parsers
                         re_findall from_language create_documents isoformat
                         (item_path item) content repo_name chunk_size
                         chunk_overlap;
         mret {| info_repo_id := info_repo_id repo_info;
                 info_repo_name := info_repo_name repo_info;
                 commit_count := commit_count repo_info;
                 branches := branches repo_info;
                 files := files repo_info ++ file_chunks;
                 chunking_info :=
                   count_file file_chunks (chunking_info repo_info) |})
      (λ e, mret repo_info).

Fixpoint visit_items (repo_name : string) (chunk_size chunk_overlap : Z)
  (repo_info : RepoInfo) (items : list Item) : M RepoInfo :=
  match items with
  | [] => mret repo_info
  | item :: items' =>
      repo_info ← visit_item repo_name chunk_size chunk_overlap repo_info item;
      visit_items repo_name chunk_size chunk_overlap repo_info items'
  end.

Definition get_git_repo_info_structured (repo_path : string)
  (chunk_size chunk_overlap : Z) : M (option RepoInfo) :=
  match open_repo repo_path with
  | Raise e => mret None
  | Ok repo =>
      outcome ←
        try_exceptM
          (let repo_name := Py.basename repo_path in
           let repo_id := repo_name in
           commits ← lift (repo_commits repo);
           branch_names ← lift (repo_branches repo);
           let repo_info :=
             {| info_repo_id := repo_id;
                info_repo_name := repo_name;
                commit_count := commits;
                branches := branch_names;
                files := [];
                chunking_info :=
                  {| info_chunk_size := chunk_size;
                     info_chunk_overlap := chunk_overlap;
                     total_chunks := 0;
                     files_chunked := 0;
                     files_not_chunked := 0 |} |} in
           items ← lift (repo_tree repo);
           repo_info ← visit_items repo_name chunk_size chunk_overlap
                         repo_info items;
           mret (Some repo_info))
          (λ e, mret None);
      _ ← lift (repo_close repo);
      mret outcome
  end.

End Walker.

End GitUtils.

(** ** [vector_utils.py]: the query side of [StructuredVectorStore] *)

Module VectorUtils.
Import SymbolExtractor GitUtils.

(** A value of the flat attribute dict stored next to a vector. *)
Inductive AttrValue : Set :=
| ANone
| AStr (s : string)
| AInt (n : Z).

(** A tuple of [collection.query]: the id alone, the id with the distance,
    or the id with the distance and the stored attributes. *)
Inductive Row : Type :=
| Row1 (id : string)
| Row2 (id : string) (distance : float)
| Row3 (id : string) (distance : float) (attributes : gmap string AttrValue).

(** The dict a search result is returned as; [res_match_type] is [None]
    while the key [match_type] is absent. *)
Record StructuredResult : Type := mkStructuredResult {
  res_id : string;
  res_repo_id : AttrValue;
  res_chunk_id : AttrValue;
  res_content : AttrValue;
  res_embedding : option (list float);
  res_symbols : Symbols;
  res_imports : list string;
  res_metadata : gmap string MetaValue;
  res_similarity_score : float;
  res_match_type : option string
}.

(** [result['match_type'] = tag] *)
Definition set_match_type (tag : string) (result : StructuredResult)
  : StructuredResult :=
  {| res_id := res_id result;
     res_repo_id := res_repo_id result;
     res_chunk_id := res_chunk_id result;
     res_content := res_content result;
     res_embedding := res_embedding result;
     res_symbols := res_symbols result;
     res_imports := res_imports result;
     res_metadata := res_metadata result;
     res_similarity_score := res_similarity_score result;
     res_match_type := Some tag |}.

(** [stored_metadata.get(key, default)] handed to [json.loads], which
    raises [TypeError] on anything but text. *)
Definition get_text (stored_metadata : gmap string AttrValue)
  (key default : string) : result string :=
  match stored_metadata !! key with
  | None => Ok default
  | Some (AStr s) => Ok s
  | Some _ => Raise "TypeError"
  end.

(** [any(needle.lower() in item.lower() for item in items)] *)
Definition any_contains_lower {unicode : Py.Unicode} (needle : string)
  (items : list string) : bool :=
  existsb (λ item, Py.contains (Py.lower needle) (Py.lower item)) items.

(** [symbols.values()] *)
Definition values (symbols : Symbols) : list (list string) :=
  (map_to_list symbols).*2.

Section Store.

Context {unicode : Py.Unicode}.

(** The backend client and the collection handle of [vecs]. *)
Context {Client Collection Filters : Type}.
(** [vecs.create_client(self.supabase_url)] *)
Context (create_client : result Client).
(** [vx.get_collection(name)] *)
Context (get_collection : Client → string → result Collection).
(** [vx.disconnect()] *)
Context (disconnect : Client → result unit).
(** [self.embeddings.embed_query(text)] *)
Context (embed_query : string → result (list float)).
(** [collection.query(data, limit, include_value=True,
    include_metadata=True, filters)] *)
Context (collection_query :
  Collection → list float → Z → option Filters → result (list Row)).
(** [json.loads] at the three attributes written by
    [store_structured_repo]: [symbols] is a dict of lists of text, [imports]
    a list of text, [metadata] a dict of scalars. *)
Context (loads_symbols : string → result Symbols).
Context (loads_imports : string → result (list string)).
Context (loads_metadata : string → result (gmap string MetaValue)).

(** The loop over the rows of [search_structured_repo]; [len(result) >= 3]
    holds of the rows that carry their attributes. *)
Fixpoint structure_results (results : list Row)
  : result (list StructuredResult) :=
  match results with
  | [] => Ok []
  | result :: results' =>
      match result with
      | Row3 file_id cosine_distance stored_metadata =>
          let similarity_score := (1 - cosine_distance)%float in
          symbols ← get_text stored_metadata "symbols" "{}"
                    ≫= loads_symbols;
          imports ← get_text stored_metadata "imports" "[]"
                    ≫= loads_imports;
          file_metadata ← get_text stored_metadata "metadata" "{}"
                          ≫= loads_metadata;
          let structured_result :=
            {| res_id := file_id;
               res_repo_id := default (AStr "") (stored_metadata !! "repo_id");
               res_chunk_id := default ANone (stored_metadata !! "chunk_id");
               res_content := default (AStr "") (stored_metadata !! "content");
               res_embedding := None;
               res_symbols := symbols;
               res_imports := imports;
               res_metadata := file_metadata;
               res_similarity_score := similarity_score;
               res_match_type := None |} in
          structured_results ← structure_results results';
          Ok (structured_result :: structured_results)
      | _ => structure_results results'
      end
  end.

Definition search_structured_repo (collection_name query : string)
  (limit : Z) (filters : option Filters) : result (list StructuredResult) :=
  vx ← create_client;
  try_finally
    (try_except
       (collection ← get_collection vx collection_name;
        query_embedding ← embed_query query;
        results ← collection_query collection query_embedding limit filters;
        structure_results results)
       (λ e, Ok []))
    (disconnect vx).

(** One turn of the filter loop of [search_by_symbols]: the result as it
    is appended, or [None] when it is left out. *)
Definition symbol_match (symbol_type symbol_name : string)
  (result : StructuredResult) : option StructuredResult :=
  let symbols := res_symbols result in
  if bool_decide (symbol_type ∈ dom symbols)
     && bool_decide (symbol_name ∈ default [] (symbols !! symbol_type))
  then Some (set_match_type "exact_symbol" result)
  else if existsb (λ v, Py.contains (Py.lower symbol_name)
                          (Py.lower (Py.str_list v)))
                  (values symbols)
  then Some (set_match_type "partial_symbol" result)
  else None.

Definition search_by_symbols (collection_name symbol_type symbol_name : string)
  (limit : Z) : result (list StructuredResult) :=
  let query := symbol_type +:+ " " +:+ symbol_name in
  results ← search_structured_repo collection_name query limit None;
  Ok (omap (M := list) (symbol_match symbol_type symbol_name) results).

(** One turn of the filter loop of [search_by_imports]. *)
Definition import_match (import_pattern : string) (result : StructuredResult)
  : option StructuredResult :=
  let imports := res_imports result in
  if any_contains_lower import_pattern imports
  then Some (set_match_type "import_match" result)
  else None.

Definition search_by_imports (collection_name import_pattern : string)
  (limit : Z) : result (list StructuredResult) :=
  let query := "import " +:+ import_pattern in
  results ← search_structured_repo collection_name query limit None;
  Ok (omap (M := list) (import_match import_pattern) results).

End Store.

(** *** The stateful side: collections, storing, the overview *)

(** [repo_data] as [store_structured_repo] reads it; an absent key is
    [None]. *)
Record RepoData : Type := mkRepoData {
  data_repo_name : string;
  data_files : list ChunkRecord;
  data_source_type : option string;
  data_source_url : option string;
  data_organization : option string;
  data_project : option string
}.

(** A vector as it is upserted: [(id, embedding, metadata_for_storage)]. *)
Definition Vector : Type := string * list float * gmap string AttrValue.

(** A call to the backend or to the embedding provider, with whether it
    returned ([true]) or raised ([false]). *)
Inductive Call : Type :=
| CreateClient (ok : bool)
| Disconnect (ok : bool)
| DeleteCollection (name : string) (ok : bool)
| GetOrCreateCollection (name : string) (dimension : Z) (ok : bool)
| GetCollection (name : string) (ok : bool)
| Upsert (vectors : list Vector) (ok : bool)
| QuerySample (limit : Z) (ok : bool)
| ListCollections (ok : bool)
| EmbedQuery (text : string) (ok : bool).

Definition is_ok {A} (r : result A) : bool :=
  match r with
  | Ok _ => true
  | Raise _ => false
  end.

(** [self.dimension] *)
Definition dimension : Z := 1536.

(** [file_chunk['chunk_id']] as an attribute. *)
Definition chunk_id_attribute (chunk_id : option nat) : AttrValue :=
  match chunk_id with
  | Some i => AInt (Z.of_nat i)
  | None => ANone
  end.

(** The assignments to [structured_record['metadata']], which is the
    dict of the chunk itself. *)
Definition source_metadata (repo_data : RepoData)
  (metadata : gmap string MetaValue) : gmap string MetaValue :=
  if bool_decide (data_source_type repo_data = Some "github") then
    <["source_url" := MStr (default "" (data_source_url repo_data))]> metadata
  else if bool_decide (data_source_type repo_data = Some "azure_devops") then
    <["project" := MStr (default "" (data_project repo_data))]>
      (<["organization" := MStr (default "" (data_organization repo_data))]>
         metadata)
  else metadata.

(** The chunk after [file_chunk['embedding'] = embedding] and the
    assignments to its metadata. *)
Definition embedded (repo_data : RepoData) (embedding : list float)
  (file_chunk : ChunkRecord) : ChunkRecord :=
  {| rec_id := rec_id file_chunk;
     rec_repo_id := rec_repo_id file_chunk;
     rec_chunk_id := rec_chunk_id file_chunk;
     rec_content := rec_content file_chunk;
     rec_embedding := Some embedding;
     rec_symbols := rec_symbols file_chunk;
     rec_imports := rec_imports file_chunk;
     rec_metadata := source_metadata repo_data (rec_metadata file_chunk) |}.

(** A tuple of the sample query of the overview, by its length. *)
Inductive SampleRow : Type :=
| Sample1 (id : string)
| Sample2 (id : string) (second : gmap string AttrValue)
| Sample3 (id : string) (second : float) (third : gmap string AttrValue).

#[global] Instance AttrValue_eq_dec : EqDecision AttrValue :=
  ltac:(solve_decision).

#[global] Instance AttrValue_countable : Countable AttrValue :=
  inj_countable'
    (λ v, match v with
          | ANone => inl ()
          | AStr s => inr (inl s)
          | AInt n => inr (inr n)
          end)
    (λ x, match x with
          | inl _ => ANone
          | inr (inl s) => AStr s
          | inr (inr n) => AInt n
          end)
    (λ v, match v with
          | ANone => eq_refl
          | AStr _ => eq_refl
          | AInt _ => eq_refl
          end).

(** [bool(v)] of an attribute. *)
Definition attr_truthy (v : AttrValue) : bool :=
  match v with
  | ANone => false
  | AStr s => negb (String.eqb s "")
  | AInt n => negb (n =? 0)%Z
  end.

(** [total / count], a float. *)
Record Quotient : Type := mkQuotient { numerator : Z; denominator : nat }.

(** The mapping [get_repository_overview] returns: the statistics, or
    the one key [error]. *)
Record OverviewStats : Type := mkOverviewStats {
  ov_collection_name : string;
  ov_total_chunks : nat;
  ov_unique_files : nat;
  ov_chunked_files : nat;
  ov_languages : gmap AttrValue nat;
  ov_file_types : gmap AttrValue nat;
  ov_total_symbols : Z;
  ov_total_imports : Z;
  ov_avg_symbols_per_chunk : Quotient;
  ov_avg_imports_per_chunk : Quotient
}.

Inductive Overview : Type :=
| OverviewOf (stats : OverviewStats)
| OverviewError (error : string).

(** The running totals of the loop of the overview. *)
Record Tally : Type := mkTally {
  languages : gmap AttrValue nat;
  file_types : gmap AttrValue nat;
  total_symbols : Z;
  total_imports : Z;
  chunked_files : nat;
  unique_files : gset AttrValue
}.

(** [total += metadata.get(key, 0)]: adding anything but a number
    raises [TypeError]. *)
Definition add_count (total : Z) (metadata : gmap string AttrValue)
  (key : string) : result Z :=
  match default (AInt 0) (metadata !! key) with
  | AInt n => Ok (total + n)%Z
  | AStr _ => Raise "unsupported operand type(s) for +=: 'int' and 'str'"
  | ANone => Raise "unsupported operand type(s) for +=: 'int' and 'NoneType'"
  end.

(** [counts[key] = counts.get(key, 0) + 1] *)
Definition count_one (key : AttrValue) (counts : gmap AttrValue nat)
  : gmap AttrValue nat :=
  <[key := default 0 (counts !! key) + 1]> counts.

(** The body of the loop of the overview. *)
Definition tally_row (tally : Tally) (row : SampleRow) : result Tally :=
  match row with
  | Sample3 _ _ metadata =>
      let lang := default (AStr "unknown") (metadata !! "language") in
      let languages := count_one lang (languages tally) in
      let ext := default (AStr "unknown") (metadata !! "file_extension") in
      let file_types := count_one ext (file_types tally) in
      total_symbols ← add_count (total_symbols tally) metadata "symbol_count";
      total_imports ← add_count (total_imports tally) metadata "import_count";
      let chunked_files :=
        if attr_truthy (default ANone (metadata !! "is_chunked"))
        then chunked_files tally + 1 else chunked_files tally in
      let unique_files :=
        {[ default (AStr "") (metadata !! "file_path") ]} ∪ unique_files tally
      in
      Ok {| languages := languages;
            file_types := file_types;
            total_symbols := total_symbols;
            total_imports := total_imports;
            chunked_files := chunked_files;
            unique_files := unique_files |}
  | _ => Ok tally
  end.

Fixpoint tally_rows (tally : Tally) (sample_results : list SampleRow)
  : result Tally :=
  match sample_results with
  | [] => Ok tally
  | row :: sample_results' =>
      tally ← tally_row tally row;
      tally_rows tally sample_results'
  end.

Definition empty_tally : Tally :=
  {| languages := ∅; file_types := ∅; total_symbols := 0; total_imports := 0;
     chunked_files := 0; unique_files := ∅ |}.

Section Backend.

(** The backend and the embedding provider have a state of their own,
    which every call may read and change. *)
Context {State Client Collection : Type}.
Context (vecs_create_client : State → result Client * State).
Context (vx_disconnect : Client → State → result unit * State).
Context (vx_delete_collection :
  Client → string → State → result unit * State).
Context (vx_get_or_create_collection :
  Client → string → Z → State → result Collection * State).
Context (vx_get_collection :
  Client → string → State → result Collection * State).
Context (vx_list_collections :
  Client → State → result (list string) * State).
Context (collection_upsert :
  Collection → list Vector → State → result unit * State).
(** [collection.query(data=[0.0] * dimension, limit, include_metadata=True)] *)
Context (collection_query_sample :
  Collection → Z → State → result (list SampleRow) * State).
Context (embeddings_embed_query :
  string → State → result (list float) * State).
(** [json.dumps] at the three attributes. *)
Context (dumps_symbols : Symbols → string).
Context (dumps_imports : list string → string).
Context (dumps_metadata : gmap string MetaValue → string).

(** The backend state and the calls made so far. *)
Record Store : Type := mkStore { backend : State; calls : list Call }.

Definition B (A : Type) : Type := Store → result A * Store.

#[global] Instance B_ret : MRet B := λ A a st, (Ok a, st).

#[global] Instance B_bind : MBind B := λ A B' k m st,
  match m st with
  | (Ok a, st') => k a st'
  | (Raise e, st') => (Raise e, st')
  end.

(** One call: run it on the backend state and note it. *)
Definition call {A} (entry : bool → Call)
  (operation : State → result A * State) : B A :=
  λ st,
    let '(r, state') := operation (backend st) in
    (r, {| backend := state';
           calls := (calls st ++ [entry (is_ok r)])%list |}).

Definition try_exceptB {A} (body : B A) (handler : string → B A) : B A :=
  λ st,
    match body st with
    | (Ok a, st') => (Ok a, st')
    | (Raise e, st') => handler e st'
    end.

Definition try_finallyB {A} (body : B A) (cleanup : B unit) : B A :=
  λ st,
    let '(r, st') := body st in
    match cleanup st' with
    | (Ok _, st'') => (r, st'')
    | (Raise e, st'') => (Raise e, st'')
    end.

(** A computation that leaves the backend alone. *)
Definition liftB {A} (r : result A) : B A := λ st, (r, st).

Definition create_client : B Client := call CreateClient vecs_create_client.

Definition disconnect (vx : Client) : B unit :=
  call Disconnect (vx_disconnect vx).

Definition create_collection (collection_name : string)
  (drop_if_exists : bool) : B Collection :=
  vx ← create_client;
  try_finallyB
    (_ ← (if drop_if_exists
          then try_exceptB
                 (call (DeleteCollection collection_name)
                    (vx_delete_collection vx collection_name))
                 (λ _, mret ())
          else mret ());
     call (GetOrCreateCollection collection_name dimension)
       (vx_get_or_create_collection vx collection_name dimension))
    (disconnect vx).

(** [metadata_for_storage] of a chunk. *)
Definition metadata_for_storage (repo_data : RepoData)
  (file_chunk : ChunkRecord) : gmap string AttrValue :=
  {[ "repo_id" := AStr (rec_repo_id file_chunk);
     "chunk_id" := chunk_id_attribute (rec_chunk_id file_chunk);
     "content" := AStr (rec_content file_chunk);
     "symbols" := AStr (dumps_symbols (rec_symbols file_chunk));
     "imports" := AStr (dumps_imports (rec_imports file_chunk));
     "metadata" := AStr (dumps_metadata (rec_metadata file_chunk));
     "repo_name" := AStr (data_repo_name repo_data);
     "path" := AStr (rec_id file_chunk) ]}.

(** The body of the loop of [store_structured_repo] for one chunk: the
    vectors to upsert so far, and the chunks of [repo_data] as the loop
    leaves them. *)
Definition prepare_chunk (repo_data : RepoData)
  (so_far : list Vector * list ChunkRecord) (file_chunk : ChunkRecord)
  : B (list Vector * list ChunkRecord) :=
  let '(vectors_to_upsert, chunks) := so_far in
  try_exceptB
    (embedding ← call (EmbedQuery (rec_content file_chunk))
                   (embeddings_embed_query (rec_content file_chunk));
     let file_chunk := embedded repo_data embedding file_chunk in
     mret ((vectors_to_upsert
            ++ [(rec_id file_chunk, embedding,
                 metadata_for_storage repo_data file_chunk)])%list,
           (chunks ++ [file_chunk])%list))
    (λ e, mret (vectors_to_upsert, (chunks ++ [file_chunk])%list)).

Fixpoint prepare_chunks (repo_data : RepoData)
  (so_far : list Vector * list ChunkRecord) (file_chunks : list ChunkRecord)
  : B (list Vector * list ChunkRecord) :=
  match file_chunks with
  | [] => mret so_far
  | file_chunk :: file_chunks' =>
      so_far ← prepare_chunk repo_data so_far file_chunk;
      prepare_chunks repo_data so_far file_chunks'
  end.

(** [store_structured_repo]; with the collection name it returns come the
    chunks of [repo_data], which the caller shares and the loop changes. *)
Definition store_structured_repo (repo_data : RepoData) (refresh : bool)
  : B (string * list ChunkRecord) :=
  let repo_name := data_repo_name repo_data in
  let collection_name := repo_name in
  collection ← create_collection collection_name refresh;
  '(vectors_to_upsert, chunks) ←
    prepare_chunks repo_data ([], []) (data_files repo_data);
  _ ← (if Py.truthy vectors_to_upsert then
         vx ← create_client;
         try_finallyB
           (collection ← call (GetCollection collection_name)
                           (vx_get_collection vx collection_name);
            call (Upsert vectors_to_upsert)
              (collection_upsert collection vectors_to_upsert))
           (disconnect vx)
       else mret ());
  mret (collection_name, chunks).

Definition list_collections : B (list string) :=
  vx ← create_client;
  try_finallyB
    (try_exceptB (call ListCollections (vx_list_collections vx))
       (λ e, mret []))
    (disconnect vx).

Definition delete_collection (collection_name : string) : B bool :=
  vx ← create_client;
  try_finallyB
    (try_exceptB
       (_ ← call (DeleteCollection collection_name)
              (vx_delete_collection vx collection_name);
        mret true)
       (λ e, mret false))
    (disconnect vx).

Definition get_repository_overview (collection_name : string) : B Overview :=
  vx ← create_client;
  try_finallyB
    (try_exceptB
       (collection ← call (GetCollection collection_name)
                       (vx_get_collection vx collection_name);
        sample_results ← call (QuerySample 100)
                           (collection_query_sample collection 100);
        if negb (Py.truthy sample_results)
        then mret (OverviewError "No data found in collection")
        else
          tally ← liftB (tally_rows empty_tally sample_results);
          mret (OverviewOf
                  {| ov_collection_name := collection_name;
                     ov_total_chunks := length sample_results;
                     ov_unique_files := size (unique_files tally);
                     ov_chunked_files := chunked_files tally;
                     ov_languages := languages tally;
                     ov_file_types := file_types tally;
                     ov_total_symbols := total_symbols tally;
                     ov_total_imports := total_imports tally;
                     ov_avg_symbols_per_chunk :=
                       {| numerator := total_symbols tally;
                          denominator := length sample_results |};
                     ov_avg_imports_per_chunk :=
                       {| numerator := total_imports tally;
                          denominator := length sample_results |} |}))
       (λ e, mret (OverviewError e)))
    (disconnect vx).

End Backend.

End VectorUtils.

(** ** workflow/tools.py *)

Module Tools.
Import Py SymbolExtractor GitUtils VectorUtils.

(** The order of [sorted] on text: by code point, which on the bytes of
    UTF-8 is the order of the bytes. *)
Definition str_le (s1 s2 : string) : Prop := String.leb s1 s2.

#[global] Instance str_le_dec s1 s2 : Decision (str_le s1 s2) :=
  Is_true_dec (String.leb s1 s2).

(** The mapping [get_content_by_id] returns: the chunk, or the one
    message; the key [tool_used] is the same in both. *)
Inductive ContentAnswer : Type :=
| ContentOf (id : string) (content : AttrValue) (tool_used : string)
| ContentError (error : string) (tool_used : string).

Section Tools.

Context {Client Collection Filters : Type}.
(** [StructuredVectorStore()], which raises without its settings. *)
Context (new_vector_store : result unit).
Context (create_client : result Client).
Context (get_collection : Client → string → result Collection).
Context (disconnect : Client → result unit).
Context (embed_query : string → result (list float)).
Context (collection_query :
  Collection → list float → Z → option Filters → result (list Row)).
Context (loads_symbols : string → result Symbols).
Context (loads_imports : string → result (list string)).
Context (loads_metadata : string → result (gmap string MetaValue)).

#[local] Abbreviation search_structured_repo :=
  (search_structured_repo create_client get_collection disconnect embed_query
     collection_query loads_symbols loads_imports loads_metadata).

(** The loop that collects the ids into a set. *)
Definition collect_ids (results : list StructuredResult) : gset string :=
  foldl (λ (chunk_ids : gset string) result,
           let chunk_id := res_id result in
           if negb (String.eqb chunk_id "") then {[chunk_id]} ∪ chunk_ids
           else chunk_ids)
    ∅ results.

Definition list_directories (collection_name : string) : list string :=
  match
    (_ ← new_vector_store;
     results ← search_structured_repo collection_name "code" 1000 None;
     Ok (merge_sort str_le (elements (collect_ids results))))
  with
  | Ok chunk_ids => chunk_ids
  | Raise e => ["Error listing directories: " +:+ e]
  end.

(** The loop that looks for the exact id. *)
Fixpoint find_content (chunk_id : string) (results : list StructuredResult)
  : ContentAnswer :=
  match results with
  | [] => ContentError ("Chunk ID " +:+ chunk_id +:+ " not found")
            "get_content_by_id"
  | result :: results' =>
      if String.eqb (res_id result) chunk_id
      then ContentOf (res_id result) (res_content result) "get_content_by_id"
      else find_content chunk_id results'
  end.

Definition get_content_by_id (collection_name chunk_id : string)
  : ContentAnswer :=
  match
    (_ ← new_vector_store;
     results ← search_structured_repo collection_name chunk_id 10 None;
     Ok (find_content chunk_id results))
  with
  | Ok answer => answer
  | Raise e => ContentError ("Failed to get content: " +:+ e)
                 "get_content_by_id"
  end.

End Tools.
End Tools.

(** ** Reading the specification's wording *)

Module Wording.
Import SymbolExtractor GitUtils VectorUtils.

(** "The name occurs as a case-insensitive substring among the record's
    symbol values": some symbol of some category has the name inside it. *)
Definition occurs_in_a_symbol {unicode : Py.Unicode} (symbol_name : string)
  (symbols : Symbols)
  : bool :=
  existsb (any_contains_lower symbol_name) (values symbols).

(** "The category is present and the name is exactly in that category's
    list." *)
Definition listed_exactly (symbol_type symbol_name : string)
  (symbols : Symbols) : Prop :=
  ∃ names, symbols !! symbol_type = Some names ∧ symbol_name ∈ names.

(** What [search_by_symbols] tests for a partial match: the name inside
    the text [str(v)] of a whole category list. *)
Definition occurs_in_a_rendering {unicode : Py.Unicode} (symbol_name : string)
  (symbols : Symbols)
  : Prop :=
  ∃ v, v ∈ values symbols ∧
       Py.contains (Py.lower symbol_name) (Py.lower (Py.str_list v)) = true.

(** What every record of a split file carries besides its own text. *)
Definition chunk_context (repo_id : string) (clean_symbols : Symbols)
  (imports : list string) (language_name : string) (total : nat)
  (r : ChunkRecord) : Prop :=
  rec_repo_id r = repo_id
  ∧ rec_embedding r = None
  ∧ rec_symbols r = clean_symbols
  ∧ rec_imports r = imports
  ∧ rec_metadata r !! "language" = Some (MStr language_name)
  ∧ rec_metadata r !! "total_chunks" = Some (MInt (Z.of_nat total))
  ∧ rec_metadata r !! "is_chunked" = Some (MBool true)
  ∧ rec_metadata r !! "size"
    = Some (MInt (Z.of_nat (Py.len (rec_content r)))).

(** A record that holds a file whole. *)
Definition whole_file_record (file_path repo_id content : string)
  (r : ChunkRecord) : Prop :=
  rec_id r = file_path
  ∧ rec_repo_id r = repo_id
  ∧ rec_chunk_id r = None
  ∧ rec_content r = content
  ∧ rec_embedding r = None
  ∧ rec_metadata r !! "total_chunks" = None
  ∧ rec_metadata r !! "is_chunked" = None
  ∧ rec_metadata r !! "size"
    = Some (MInt (Z.of_nat (Py.len content))).

(** The id of the [i]-th chunk of a file. *)
Definition chunk_id_of (file_path : string) (i : nat) : string :=
  file_path +:+ "#chunk_" +:+ pretty i.


(** A call that opens a client, and a call that closes one. *)
Definition opens (c : Call) : bool :=
  match c with
  | CreateClient true => true
  | _ => false
  end.

Definition closes (c : Call) : bool :=
  match c with
  | Disconnect _ => true
  | _ => false
  end.

Definition opened (cs : list Call) : nat := length (filter (λ c, opens c) cs).

Definition closed (cs : list Call) : nat := length (filter (λ c, closes c) cs).

(** "Every client opened is disconnected": the calls added between two
    states close as many clients as they open. *)
Definition balanced {State} (st st' : @Store State) : Prop :=
  ∃ new, calls st' = (calls st ++ new)%list ∧ opened new = closed new.

(** What a call gave, when it returned. *)
Definition outcome_of {A} (r : result A) : option A :=
  match r with
  | Ok a => Some a
  | Raise _ => None
  end.

(** The rows the overview analyses, and their number in a sample. *)
Definition three_fields (row : SampleRow) : bool :=
  match row with
  | Sample3 _ _ _ => true
  | _ => false
  end.

Definition analysed (sample_results : list SampleRow) : nat :=
  length (filter (λ row, three_fields row) sample_results).

(** A row whose counts can be added: a row the overview does not
    analyse, or one whose [symbol_count] and [import_count] are numbers or
    absent. *)
Definition is_number (v : AttrValue) : bool :=
  match v with
  | AInt _ => true
  | _ => false
  end.

Definition counts_are_numbers (row : SampleRow) : bool :=
  match row with
  | Sample3 _ _ metadata =>
      is_number (default (AInt 0) (metadata !! "symbol_count"))
      && is_number (default (AInt 0) (metadata !! "import_count"))
  | _ => true
  end.

(** The sum of the counts of a mapping. *)
Definition total (counts : gmap AttrValue nat) : nat :=
  map_fold (λ _ n acc, n + acc) 0 counts.

Section Storing.

Context (dumps_symbols : Symbols → string).
Context (dumps_imports : list string → string).
Context (dumps_metadata : gmap string MetaValue → string).

(** The vector of a chunk whose embedding succeeded. *)
Definition stored_vector (repo_data : RepoData) (embedding : list float)
  (file_chunk : ChunkRecord) : Vector :=
  let file_chunk := embedded repo_data embedding file_chunk in
  (rec_id file_chunk, embedding,
   metadata_for_storage dumps_symbols dumps_imports dumps_metadata
     repo_data file_chunk).

(** The embedding call made for a chunk, given what it gave. *)
Definition embed_call (file_chunk : ChunkRecord)
  (outcome : option (list float)) : Call :=
  EmbedQuery (rec_content file_chunk)
    (match outcome with
     | Some _ => true
     | None => false
     end).

(** The chunk as the storing loop leaves it. *)
Definition after_embedding (repo_data : RepoData) (file_chunk : ChunkRecord)
  (outcome : option (list float)) : ChunkRecord :=
  match outcome with
  | Some embedding => embedded repo_data embedding file_chunk
  | None => file_chunk
  end.

(** The vectors of the chunks whose embedding succeeded, in order. *)
Definition vectors_of (repo_data : RepoData) (file_chunks : list ChunkRecord)
  (outcomes : list (option (list float))) : list Vector :=
  omap (M := list) id
    (zip_with (λ file_chunk outcome,
                 (λ embedding, stored_vector repo_data embedding file_chunk)
                   <$> outcome)
       file_chunks outcomes).

End Storing.

End Wording.

(** ** Concrete collaborators, for running the functions on examples *)

Module Scenario.
Import SymbolExtractor GitUtils VectorUtils.

(** The interpreter of the scenario knows ASCII only: its case mappings
    fold the letters A to Z, and its [repr] escapes the control
    characters.  On ASCII text that is what Python computes. *)
Definition lower_char (c : ascii) : ascii :=
  let n := Ascii.nat_of_ascii c in
  if (65 <=? n)%nat && (n <=? 90)%nat then Ascii.ascii_of_nat (n + 32) else c.

Fixpoint ascii_lower (s : string) : string :=
  match s with
  | EmptyString => EmptyString
  | String c s' => String (lower_char c) (ascii_lower s')
  end.

Definition upper_char (c : ascii) : ascii :=
  let n := Ascii.nat_of_ascii c in
  if (97 <=? n)%nat && (n <=? 122)%nat then Ascii.ascii_of_nat (n - 32) else c.

Fixpoint ascii_upper (s : string) : string :=
  match s with
  | EmptyString => EmptyString
  | String c s' => String (upper_char c) (ascii_upper s')
  end.

Definition hex_digit (n : nat) : string :=
  String.substring n 1 "0123456789abcdef".

Definition repr_char (quote : ascii) (c : ascii) : string :=
  let n := Ascii.nat_of_ascii c in
  if Ascii.eqb c "092" then Py.backslash +:+ Py.backslash
  else if Ascii.eqb c quote then Py.backslash +:+ String c ""
  else if (n =? 9)%nat then Py.backslash +:+ "t"
  else if (n =? 10)%nat then Py.backslash +:+ "n"
  else if (n =? 13)%nat then Py.backslash +:+ "r"
  else if (n <? 32)%nat || (n =? 127)%nat
       then Py.backslash +:+ "x" +:+ hex_digit (n / 16) +:+ hex_digit (n mod 16)
  else String c "".

Fixpoint repr_body (quote : ascii) (s : string) : string :=
  match s with
  | EmptyString => ""
  | String c s' => repr_char quote c +:+ repr_body quote s'
  end.

(** [repr] on text of printable ASCII and control characters: single
    quotes, unless the text holds a single quote and no double quote. *)
Definition ascii_repr (s : string) : string :=
  let quote : ascii :=
    if Py.contains Py.squote s && negb (Py.contains Py.dquote s) then "034"%char
    else "'"%char in
  String quote "" +:+ repr_body quote s +:+ String quote "".

#[local] Instance ascii : Py.Unicode :=
  {| Py.lower := ascii_lower; Py.upper := ascii_upper;
     Py.repr_str := ascii_repr |}.

(** A parser for Python only; it raises on the empty text and otherwise
    gives a module with one function [main]. *)
Definition toy_parser (code : string) : result Node :=
  if String.eqb code "" then Raise "parse failed"
  else Ok (mkNode "module" code None
             [ mkNode "function_definition" code None
                 [ mkNode "identifier" "main" (Some "name") [] ] ]).

Definition parsers : gmap string (string → result Node) :=
  {[ "python" := toy_parser ]}.

Definition leaf (type text : string) (field : option string) : Node :=
  mkNode type text field [].

(** The tree of a Python module: an import, an assignment inside an
    expression statement, an assignment right under the module, a
    decorated class with a method, and a function. *)
Definition python_tree : Node :=
  mkNode "module" "" None
    [ leaf "import_statement" "import os " None;
      mkNode "expression_statement" "X = 1" None
        [ mkNode "assignment" "X = 1" None
            [ leaf "identifier" "X" (Some "left");
              leaf "integer" "1" (Some "right") ] ];
      mkNode "assignment" "Y = 2" None
        [ leaf "identifier" "Y" (Some "left");
          leaf "integer" "2" (Some "right") ];
      mkNode "decorated_definition" "" None
        [ leaf "decorator" " @d" None;
          mkNode "class_definition" "" (Some "definition")
            [ leaf "identifier" "A" (Some "name");
              mkNode "block" "" (Some "body")
                [ mkNode "function_definition" "" None
                    [ leaf "identifier" "m" (Some "name") ] ] ] ];
      mkNode "function_definition" "" None
        [ leaf "identifier" "main" (Some "name") ] ].

(** The tree of a C file: an include, a function returning a pointer,
    and a struct. *)
Definition c_tree : Node :=
  mkNode "translation_unit" "" None
    [ leaf "preproc_include" "#include <stdio.h> " None;
      mkNode "function_definition" "" None
        [ leaf "primitive_type" "int" (Some "type");
          mkNode "pointer_declarator" "*f(void)" (Some "declarator")
            [ mkNode "function_declarator" "f(void)" (Some "declarator")
                [ leaf "identifier" "f" (Some "declarator");
                  leaf "parameter_list" "(void)" (Some "parameters") ] ] ];
      mkNode "struct_specifier" "" None
        [ leaf "type_identifier" "S" (Some "name") ] ].

(** A regex engine that finds [helper] for the Python [def] pattern and
    nothing else. *)
Definition re_findall (pattern code : string) : list string :=
  if String.eqb pattern "^def\s+(\w+)\s*\(" then ["helper"] else [].

(** A splitter that cuts the text every [chunk_size] characters, strips
    the pieces and drops the empty ones; like the library, it refuses an
    overlap larger than the chunk size. *)
Fixpoint pieces (fuel size : nat) (text : string) : list string :=
  match fuel with
  | O => []
  | S fuel' =>
      if String.eqb text "" then []
      else String.substring 0 size text
             :: pieces fuel' size
                  (String.substring size (String.length text - size) text)
  end.

Definition from_language (language : Language) (chunk_size chunk_overlap : Z)
  : result Z :=
  if (chunk_size <? chunk_overlap)%Z
  then Raise "Got a larger chunk overlap than chunk size, should be smaller."
  else Ok chunk_size.

Definition create_documents (chunk_size : Z) (texts : list string)
  : result (list Document) :=
  Ok (text ← texts;
      mkDocument <$>
        filter (λ piece, piece ≠ "")
          (Py.strip <$> pieces (String.length text) (Z.to_nat chunk_size) text)).

Definition isoformat (n : nat) : string := "2024-01-15T10:00:0" +:+ pretty n.

Definition world0 : World := {| clock := 0; splitter_requests := [] |}.

Definition process_file (tree_sitter : bool) (file_path content : string)
  (chunk_size chunk_overlap : Z) : result (list ChunkRecord) * World :=
  process_file_structured tree_sitter parsers re_findall from_language
    create_documents isoformat file_path content "repo" chunk_size
    chunk_overlap world0.

Fixpoint spaces (n : nat) : string :=
  match n with
  | O => ""
  | S n' => String " " (spaces n')
  end.

(** The stored rows of a small collection [repo]. *)
Definition quoted (s : string) : string := Py.dquote +:+ s +:+ Py.dquote.

Definition symbols_json (name : string) : string :=
  "{" +:+ quoted "functions" +:+ ": [" +:+ quoted name +:+ "]}".

Definition imports_json (statement : string) : string :=
  "[" +:+ quoted statement +:+ "]".

Definition metadata_json : string :=
  "{" +:+ quoted "language" +:+ ": " +:+ quoted "python" +:+ "}".

Definition attributes (name statement : string) : gmap string AttrValue :=
  {[ "repo_id" := AStr "repo";
     "chunk_id" := ANone;
     "content" := AStr ("def " +:+ name +:+ "(): pass");
     "symbols" := AStr (symbols_json name);
     "imports" := AStr (imports_json statement);
     "metadata" := AStr metadata_json;
     "repo_name" := AStr "repo";
     "path" := AStr (name +:+ ".py") ]}.

Definition rows : list Row :=
  [ Row3 "main.py" 0.25 (attributes "main" "import os");
    Row2 "stray" 0.5;
    Row3 "helper.py" 0.75 (attributes "helper" "import sys") ].

Definition get_collection (vx : unit) (name : string) : result string :=
  if String.eqb name "repo" then Ok name else Raise "collection not found".

Definition collection_query (collection : string) (data : list float)
  (limit : Z) (filters : option unit) : result (list Row) :=
  Ok (take (Z.to_nat limit) rows).

Definition loads_symbols (text : string) : result Symbols :=
  if String.eqb text (symbols_json "main")
    then Ok {[ "functions" := ["main"] ]}
  else if String.eqb text (symbols_json "helper")
    then Ok {[ "functions" := ["helper"] ]}
  else if String.eqb text "{}" then Ok ∅
  else Raise "JSONDecodeError".

Definition loads_imports (text : string) : result (list string) :=
  if String.eqb text (imports_json "import os") then Ok ["import os"]
  else if String.eqb text (imports_json "import sys") then Ok ["import sys"]
  else if String.eqb text "[]" then Ok []
  else Raise "JSONDecodeError".

Definition loads_metadata (text : string) : result (gmap string MetaValue) :=
  if String.eqb text metadata_json then Ok {[ "language" := MStr "python" ]}
  else if String.eqb text "{}" then Ok ∅
  else Raise "JSONDecodeError".

Definition search (query : string) (limit : Z)
  : result (list StructuredResult) :=
  search_structured_repo (Ok ()) get_collection (λ _, Ok ())
    (λ _, Ok [0.5%float]) collection_query loads_symbols loads_imports
    loads_metadata "repo" query limit None.

Definition by_symbols (symbol_type symbol_name : string)
  : result (list StructuredResult) :=
  search_by_symbols (Ok ()) get_collection (λ _, Ok ())
    (λ _, Ok [0.5%float]) collection_query loads_symbols loads_imports
    loads_metadata "repo" symbol_type symbol_name 10.

Definition by_imports (import_pattern : string)
  : result (list StructuredResult) :=
  search_by_imports (Ok ()) get_collection (λ _, Ok ())
    (λ _, Ok [0.5%float]) collection_query loads_symbols loads_imports
    loads_metadata "repo" import_pattern 10.

(** A repository of five entries: a directory, a readme, a file whose
    path has [env] inside a name, a Python file, and a file with a NUL
    byte. *)
Definition items : list Item :=
  [ mkItem "tree" "src" (Raise "IsADirectoryError");
    mkItem "blob" "README.md" (Ok "# repo");
    mkItem "blob" "src/environment.py" (Ok "import os");
    mkItem "blob" "main.py" (Ok "def main(): pass");
    mkItem "blob" "logo.py" (Ok ("PNG" +:+ NUL)) ].

Definition open_repo (repo_path : string) : result Repo :=
  if String.eqb repo_path "/work/repo"
  then Ok {| repo_commits := Ok 3;
             repo_branches := Ok ["main"];
             repo_tree := Ok items;
             repo_close := Ok () |}
  else Raise "NoSuchPathError".

Definition walk (repo_path : string) : result (option RepoInfo) * World :=
  get_git_repo_info_structured true parsers re_findall from_language
    create_documents isoformat open_repo repo_path 4000 200 world0.

Definition no_snapshot : RepoInfo :=
  {| info_repo_id := ""; info_repo_name := ""; commit_count := 0;
     branches := []; files := [];
     chunking_info :=
       {| info_chunk_size := 0; info_chunk_overlap := 0; total_chunks := 0;
          files_chunked := 0; files_not_chunked := 0 |} |}.

(** A backend whose state is the number of calls it has served, and whose
    sample has a row of three fields and two shorter ones. *)
Definition sample : list SampleRow :=
  [ Sample3 "main.py" 0.25
      {[ "language" := AStr "python"; "symbol_count" := AInt 2 ]};
    Sample2 "helper.py" {[ "language" := AStr "python" ]};
    Sample1 "stray" ].

Definition served {A} (a : A) (state : nat) : result A * nat :=
  (Ok a, S state).

Definition overview (collection_name : string)
  : result Overview * @Store nat :=
  get_repository_overview (served ()) (λ _, served ())
    (λ _ name, served name) (λ _ _, served sample) collection_name
    {| backend := 0; calls := [] |}.

(** An encoder that is the inverse of the decoder above on what the
    decoder knows. *)
Definition dumps_symbols (symbols : Symbols) : string :=
  if bool_decide (symbols = {[ "functions" := ["main"] ]})
  then symbols_json "main" else "{}".

Definition dumps_imports (imports : list string) : string :=
  if bool_decide (imports = ["import os"])
  then imports_json "import os" else "[]".

#[global] Instance MetaValue_eq_dec : EqDecision MetaValue :=
  ltac:(solve_decision).

Definition dumps_metadata (metadata : gmap string MetaValue) : string :=
  if bool_decide (metadata = {[ "language" := MStr "python" ]})
  then metadata_json else "{}".

Definition main_chunk : ChunkRecord :=
  {| rec_id := "main.py";
     rec_repo_id := "repo";
     rec_chunk_id := None;
     rec_content := "def main(): pass";
     rec_embedding := None;
     rec_symbols := {[ "functions" := ["main"] ]};
     rec_imports := ["import os"];
     rec_metadata := {[ "language" := MStr "python" ]} |}.

Definition local_repo : RepoData :=
  {| data_repo_name := "repo";
     data_files := [main_chunk];
     data_source_type := None;
     data_source_url := None;
     data_organization := None;
     data_project := None |}.


End Scenario.

(** * Properties *)

(** ** The symbol extractor *)

Section ExtractorFacts.
Context {unicode : Py.Unicode}.
Import SymbolExtractor.

Context (TREE_SITTER_AVAILABLE : bool).
Context (parsers : gmap string (string → result Node)).
Context (re_findall : string → string → list string).

#[local] Abbreviation extract_symbols :=
  (extract_symbols TREE_SITTER_AVAILABLE parsers re_findall).
#[local] Abbreviation _fallback_extraction := (_fallback_extraction re_findall).
#[local] Abbreviation extract_file_symbols :=
  (extract_file_symbols TREE_SITTER_AVAILABLE parsers re_findall).

Lemma extract_symbols_returns code language :
  ∃ symbols, extract_symbols code language = Ok symbols.
Proof.
  unfold SymbolExtractor.extract_symbols.
  destruct (negb TREE_SITTER_AVAILABLE || _); [eauto|].
  unfold try_except, Py.getitem.
  destruct (parsers !! language) as [parser|]; simpl; [|eauto].
  destruct (parser code) as [root_node|e]; simpl; [|eauto].
  repeat case_match; simplify_eq; eauto.
Qed.

Lemma extract_symbols_unavailable code language :
  TREE_SITTER_AVAILABLE = false →
  extract_symbols code language = Ok (_fallback_extraction code language).
Proof. intros ->. reflexivity. Qed.

Lemma extract_symbols_no_parser code language :
  language ∉ dom parsers →
  extract_symbols code language = Ok (_fallback_extraction code language).
Proof.
  intros Hdom. unfold SymbolExtractor.extract_symbols.
  rewrite (bool_decide_eq_false_2 _ Hdom). simpl.
  by rewrite orb_true_r.
Qed.

Lemma extract_symbols_parse_raises code language parser e :
  parsers !! language = Some parser →
  parser code = Raise e →
  extract_symbols code language = Ok (_fallback_extraction code language).
Proof.
  intros Hparser Hraise. unfold SymbolExtractor.extract_symbols.
  destruct (negb TREE_SITTER_AVAILABLE || _); [done|].
  unfold try_except, Py.getitem. rewrite Hparser. simpl.
  by rewrite Hraise.
Qed.

Lemma fallback_without_patterns code language :
  language ∉ dom patterns →
  _fallback_extraction code language
  = empty_lists ["imports"; "functions"; "classes"].
Proof.
  intros Hdom. unfold SymbolExtractor._fallback_extraction.
  by rewrite (bool_decide_eq_false_2 _ Hdom).
Qed.

Lemma empty_lists_lookup keys key items :
  empty_lists keys !! key = Some items → items = [].
Proof.
  unfold empty_lists. intros Hlookup.
  apply elem_of_list_to_map_2 in Hlookup.
  apply list_elem_of_fmap in Hlookup as (k & [= _ ->] & _). done.
Qed.

Lemma extract_file_symbols_returns file_path content :
  ∃ symbols, extract_file_symbols file_path content = Ok symbols.
Proof.
  unfold SymbolExtractor.extract_file_symbols.
  destruct (get_language_from_extension file_path) as [language|]; [|eauto].
  destruct (String.eqb language ""); [eauto|].
  apply extract_symbols_returns.
Qed.

(** C6.  [extract_symbols] never raises.  Without tree-sitter, without a
    parser for the language, or when parsing raises, it returns what
    [_fallback_extraction] returns; and when the language has no fallback
    patterns either, that is the mapping of [imports], [functions] and
    [classes] to empty lists. *)
Theorem extract_symbols_never_raises code language :
  (∃ symbols, extract_symbols code language = Ok symbols)
  ∧ ((TREE_SITTER_AVAILABLE = false
      ∨ language ∉ dom parsers
      ∨ (∃ parser e, parsers !! language = Some parser ∧ parser code = Raise e))
     → extract_symbols code language
       = Ok (_fallback_extraction code language)
       ∧ (language ∉ dom patterns →
          extract_symbols code language
          = Ok {[ "imports" := []; "functions" := []; "classes" := [] ]}))
  ∧ (language ∉ dom patterns →
     ∀ category items,
       _fallback_extraction code language !! category = Some items →
       items = []).
Proof.
  split; [apply extract_symbols_returns|]. split.
  - intros Hdegraded.
    assert (extract_symbols code language
            = Ok (_fallback_extraction code language)) as Hfallback.
    { destruct Hdegraded as [Hts | [Hdom | (parser & e & Hparser & Hraise)]].
      - by apply extract_symbols_unavailable.
      - by apply extract_symbols_no_parser.
      - by eapply extract_symbols_parse_raises. }
    split; [exact Hfallback|].
    intros Hdom. rewrite Hfallback.
    by rewrite (fallback_without_patterns _ _ Hdom).
  - intros Hdom category items.
    rewrite (fallback_without_patterns _ _ Hdom). apply empty_lists_lookup.
Qed.

End ExtractorFacts.

(** ** The chunker *)

Section ChunkerFacts.
Context {unicode : Py.Unicode}.
Import SymbolExtractor GitUtils.

Context (TREE_SITTER_AVAILABLE : bool).
Context (parsers : gmap string (string → result Node)).
Context (re_findall : string → string → list string).
Context {Splitter : Type}.
Context (from_language : Language → Z → Z → result Splitter).
Context (create_documents : Splitter → list string → result (list Document)).
Context (isoformat : nat → string).

#[local] Abbreviation process_file_structured :=
  (process_file_structured TREE_SITTER_AVAILABLE parsers re_findall
     from_language create_documents isoformat).
#[local] Abbreviation split_outcome :=
  (split_outcome from_language create_documents).
#[local] Abbreviation extract_file_symbols :=
  (extract_file_symbols TREE_SITTER_AVAILABLE parsers re_findall).

Lemma chunk_documents_run file_path repo_id clean_symbols imports
    language_name total documents :
  ∀ i w, ∃ records,
    chunk_documents isoformat file_path repo_id clean_symbols imports
      language_name total i documents w
    = (Ok records,
       {| clock := clock w + length documents;
          splitter_requests := splitter_requests w |})
    ∧ rec_id <$> records
      = Wording.chunk_id_of file_path <$> seq i (length documents)
    ∧ rec_chunk_id <$> records = Some <$> seq i (length documents)
    ∧ rec_content <$> records = page_content <$> documents
    ∧ Forall (Wording.chunk_context repo_id clean_symbols imports
                language_name total) records.
Proof.
  induction documents as [|doc documents IH]; intros i w.
  - exists []. simpl. unfold mret, M_ret.
    rewrite Nat.add_0_r. destruct w; simpl. repeat split; constructor.
  - destruct (IH (S i) {| clock := S (clock w);
                          splitter_requests := splitter_requests w |})
      as (records & Hrun & Hids & Hidx & Hcontent & Hctx).
    eexists (_ :: records).
    split; [|split; [|split; [|split]]].
    + simpl. unfold mbind, M_bind, now_isoformat. simpl. rewrite Hrun. simpl.
      unfold mret, M_ret. do 2 f_equal. f_equal. lia.
    + cbn [length seq]. by rewrite !fmap_cons, Hids.
    + cbn [length seq]. by rewrite !fmap_cons, Hidx.
    + by rewrite !fmap_cons, Hcontent.
    + constructor; [|done].
      repeat split; simpl; by simplify_map_eq.
Qed.

Lemma process_not_chunked file_path content repo_id chunk_size chunk_overlap w :
  (¬ (chunk_size < Z.of_nat (Py.len content))%Z
   ∨ get_language_from_extension file_path = None) →
  ∃ symbols r,
    extract_file_symbols file_path content = Ok symbols
    ∧ process_file_structured file_path content repo_id chunk_size
        chunk_overlap w
      = (Ok [r], ticked w [])
    ∧ Wording.whole_file_record file_path repo_id content r
    ∧ rec_symbols r = extract_symbol_names symbols
    ∧ rec_imports r = extract_imports_from_symbols symbols
    ∧ rec_metadata r !! "chunking_error" = None
    ∧ rec_metadata r !! "language"
      = Some (MStr (language_name_of (get_language_from_extension file_path))).
Proof.
  intros Hcond.
  destruct (extract_file_symbols_returns TREE_SITTER_AVAILABLE parsers
              re_findall file_path content) as [symbols Hsymbols].
  exists symbols. eexists. split; [done|].
  unfold GitUtils.process_file_structured, mbind, M_bind, lift.
  rewrite Hsymbols.
  assert (bool_decide (chunk_size < Z.of_nat (Py.len content))%Z
          && bool_decide (is_Some (get_language_from_extension file_path))
          = false) as ->.
  { destruct Hcond as [Hsize | Hlang].
    - by rewrite (bool_decide_eq_false_2 _ Hsize).
    - rewrite Hlang, andb_false_iff. right.
      apply bool_decide_eq_false_2. by intros [? ?]. }
  cbn [negb]. unfold mbind, M_bind, now_isoformat, mret, M_ret, ticked.
  rewrite app_nil_r.
  split; [reflexivity|].
  repeat split; cbn [rec_metadata]; by simplify_map_eq.
Qed.

Lemma should_chunk_true file_path content chunk_size l :
  (chunk_size < Z.of_nat (Py.len content))%Z →
  get_language_from_extension file_path = Some l →
  bool_decide (chunk_size < Z.of_nat (Py.len content))%Z
  && bool_decide (is_Some (get_language_from_extension file_path)) = true.
Proof.
  intros Hsize Hlang. rewrite (bool_decide_eq_true_2 _ Hsize), Hlang.
  by apply bool_decide_eq_true_2.
Qed.

Lemma process_split_failed file_path content repo_id chunk_size chunk_overlap
    w l e :
  (chunk_size < Z.of_nat (Py.len content))%Z →
  get_language_from_extension file_path = Some l →
  split_outcome l chunk_size chunk_overlap content = Raise e →
  ∃ symbols r,
    extract_file_symbols file_path content = Ok symbols
    ∧ process_file_structured file_path content repo_id chunk_size
        chunk_overlap w
      = (Ok [r], ticked w [(Some l, chunk_size, chunk_overlap)])
    ∧ Wording.whole_file_record file_path repo_id content r
    ∧ rec_symbols r = extract_symbol_names symbols
    ∧ rec_imports r = extract_imports_from_symbols symbols
    ∧ rec_metadata r !! "chunking_error" = Some (MStr e)
    ∧ rec_metadata r !! "language" = Some (MStr (value l)).
Proof.
  intros Hsize Hlang Hsplit.
  destruct (extract_file_symbols_returns TREE_SITTER_AVAILABLE parsers
              re_findall file_path content) as [symbols Hsymbols].
  exists symbols. eexists. split; [done|].
  unfold GitUtils.process_file_structured, mbind at 1, M_bind at 1, lift at 1.
  rewrite Hsymbols, (should_chunk_true _ _ _ _ Hsize Hlang). cbn [negb].
  unfold try_exceptM, mbind, M_bind, create_splitter_for_language, lift,
    now_isoformat, mret, M_ret, ticked.
  rewrite Hlang. cbn [clock splitter_requests].
  unfold GitUtils.split_outcome, mbind, result_bind in Hsplit.
  destruct (from_language l chunk_size chunk_overlap) as [splitter|e'].
  - rewrite Hsplit. split; [reflexivity|].
    repeat split; cbn [rec_metadata]; by simplify_map_eq.
  - injection Hsplit as ->. split; [reflexivity|].
    repeat split; cbn [rec_metadata]; by simplify_map_eq.
Qed.

Lemma process_split file_path content repo_id chunk_size chunk_overlap
    w l documents :
  (chunk_size < Z.of_nat (Py.len content))%Z →
  get_language_from_extension file_path = Some l →
  split_outcome l chunk_size chunk_overlap content = Ok documents →
  ∃ symbols records,
    extract_file_symbols file_path content = Ok symbols
    ∧ process_file_structured file_path content repo_id chunk_size
        chunk_overlap w
      = (Ok records,
         {| clock := clock w + length documents;
            splitter_requests :=
              splitter_requests w ++ [(Some l, chunk_size, chunk_overlap)] |})
    ∧ rec_id <$> records
      = Wording.chunk_id_of file_path <$> seq 0 (length documents)
    ∧ rec_chunk_id <$> records = Some <$> seq 0 (length documents)
    ∧ rec_content <$> records = page_content <$> documents
    ∧ Forall (Wording.chunk_context repo_id (extract_symbol_names symbols)
                (extract_imports_from_symbols symbols) (value l)
                (length documents)) records.
Proof.
  intros Hsize Hlang Hsplit.
  destruct (extract_file_symbols_returns TREE_SITTER_AVAILABLE parsers
              re_findall file_path content) as [symbols Hsymbols].
  exists symbols.
  unfold GitUtils.split_outcome, mbind, result_bind in Hsplit.
  destruct (from_language l chunk_size chunk_overlap) as [splitter|e'] eqn:Hfrom;
    [|done].
  destruct (chunk_documents_run file_path repo_id
              (extract_symbol_names symbols)
              (extract_imports_from_symbols symbols) (value l)
              (length documents) documents 0
              {| clock := clock w;
                 splitter_requests :=
                   splitter_requests w
                   ++ [(Some l, chunk_size, chunk_overlap)] |})
    as (records & Hrun & Hfacts).
  exists records. split; [done|]. split; [|done].
  unfold GitUtils.process_file_structured, mbind at 1, M_bind at 1, lift at 1.
  rewrite Hsymbols, (should_chunk_true _ _ _ _ Hsize Hlang). cbn [negb].
  unfold try_exceptM, mbind at 1, M_bind at 1, create_splitter_for_language.
  rewrite Hlang, Hfrom. cbn [language_name_of].
  unfold mbind at 1, M_bind at 1, lift. rewrite Hsplit, Hrun.
  reflexivity.
Qed.

Lemma chunk_id_of_inj file_path : Inj (=) (=) (Wording.chunk_id_of file_path).
Proof.
  intros i j Heq. unfold Wording.chunk_id_of in Heq.
  apply String.app_inj, String.app_inj in Heq. by apply (inj pretty).
Qed.

Lemma extension_tables_agree file_path :
  get_language_from_extension file_path = None →
  SymbolExtractor.get_language_from_extension file_path = None.
Proof.
  unfold get_language_from_extension,
    SymbolExtractor.get_language_from_extension.
  generalize (Py.lower (Py.splitext file_path).2). intros ext Hnone.
  destruct (SymbolExtractor.extension_map !! ext) as [name|] eqn:Hsome;
    [exfalso|done].
  apply elem_of_list_to_map_2 in Hsome.
  repeat (apply elem_of_cons in Hsome as [Hsome|Hsome];
          [injection Hsome as -> ->; vm_compute in Hnone; discriminate|]).
  by apply elem_of_nil in Hsome.
Qed.

(** C1, as amended.  The id follows the path the chunker takes.  When the
    file is split, into any number of segments, the ids are the path with
    [#chunk_0], [#chunk_1], ... in order, one per segment and all
    different; when the file is stored whole (it is not over the
    threshold, it has no splitter, or splitting raised), the one record
    has the path itself as id. *)
Theorem ids_follow_the_path file_path content repo_id chunk_size
    chunk_overlap w :
  (∀ l documents,
     (chunk_size < Z.of_nat (Py.len content))%Z →
     get_language_from_extension file_path = Some l →
     split_outcome l chunk_size chunk_overlap content = Ok documents →
     ∃ records w',
       process_file_structured file_path content repo_id chunk_size
         chunk_overlap w = (Ok records, w')
       ∧ length records = length documents
       ∧ rec_id <$> records
         = Wording.chunk_id_of file_path <$> seq 0 (length documents)
       ∧ NoDup (rec_id <$> records)
       ∧ ∀ id, id ∈ rec_id <$> records
               ↔ ∃ i, i < length documents
                      ∧ id = file_path +:+ "#chunk_" +:+ pretty i)
  ∧ ((¬ (chunk_size < Z.of_nat (Py.len content))%Z
      ∨ get_language_from_extension file_path = None
      ∨ ∃ l e, (chunk_size < Z.of_nat (Py.len content))%Z
               ∧ get_language_from_extension file_path = Some l
               ∧ split_outcome l chunk_size chunk_overlap content = Raise e) →
     ∃ r w',
       process_file_structured file_path content repo_id chunk_size
         chunk_overlap w = (Ok [r], w')
       ∧ rec_id r = file_path).
Proof.
  split.
  - intros l documents Hsize Hlang Hsplit.
    destruct (process_split file_path content repo_id chunk_size
                chunk_overlap w l documents Hsize Hlang Hsplit)
      as (symbols & records & _ & Hrun & Hids & _ & _ & _).
    exists records. eexists. split; [exact Hrun|].
    split; [|split; [done|split]].
    + rewrite <- (length_fmap rec_id), Hids, length_fmap. apply length_seq.
    + rewrite Hids. apply NoDup_fmap_2; [apply chunk_id_of_inj|].
      apply NoDup_seq.
    + intros id. rewrite Hids, list_elem_of_fmap. split.
      * intros (i & -> & Hi). apply elem_of_seq in Hi. exists i.
        split; [lia|done].
      * intros (i & Hi & ->). exists i. split; [done|].
        apply elem_of_seq. lia.
  - intros [Hsize | [Hlang | (l & e & Hsize & Hlang & Hsplit)]].
    + destruct (process_not_chunked file_path content repo_id chunk_size
                  chunk_overlap w (or_introl Hsize))
        as (symbols & r & _ & Hrun & Hwhole & _).
      exists r. eexists. split; [exact Hrun|]. apply Hwhole.
    + destruct (process_not_chunked file_path content repo_id chunk_size
                  chunk_overlap w (or_intror Hlang))
        as (symbols & r & _ & Hrun & Hwhole & _).
      exists r. eexists. split; [exact Hrun|]. apply Hwhole.
    + destruct (process_split_failed file_path content repo_id chunk_size
                  chunk_overlap w l e Hsize Hlang Hsplit)
        as (symbols & r & _ & Hrun & Hwhole & _).
      exists r. eexists. split; [exact Hrun|]. apply Hwhole.
Qed.

(** C2.  A file split into N segments gives exactly N records, with
    chunk ids 0 .. N-1 in the order of the segments, each holding its
    segment, and all with the same symbols, the same imports and the same
    metadata language. *)
Theorem split_file_records file_path content repo_id chunk_size
    chunk_overlap w l documents :
  (chunk_size < Z.of_nat (Py.len content))%Z →
  get_language_from_extension file_path = Some l →
  split_outcome l chunk_size chunk_overlap content = Ok documents →
  ∃ records w' clean_symbols imports,
    process_file_structured file_path content repo_id chunk_size
      chunk_overlap w = (Ok records, w')
    ∧ length records = length documents
    ∧ rec_chunk_id <$> records = Some <$> seq 0 (length documents)
    ∧ rec_content <$> records = page_content <$> documents
    ∧ ∀ r, r ∈ records →
        rec_symbols r = clean_symbols
        ∧ rec_imports r = imports
        ∧ rec_metadata r !! "language" = Some (MStr (value l))
        ∧ rec_metadata r !! "total_chunks"
          = Some (MInt (Z.of_nat (length documents))).
Proof.
  intros Hsize Hlang Hsplit.
  destruct (process_split file_path content repo_id chunk_size
              chunk_overlap w l documents Hsize Hlang Hsplit)
    as (symbols & records & _ & Hrun & _ & Hidx & Hcontent & Hctx).
  exists records. eexists. exists (extract_symbol_names symbols),
    (extract_imports_from_symbols symbols).
  split; [exact Hrun|]. split; [|split; [done|split; [done|]]].
  - rewrite <- (length_fmap rec_chunk_id), Hidx, length_fmap.
    apply length_seq.
  - intros r Hr. rewrite Forall_forall in Hctx.
    destruct (Hctx r Hr) as (_ & _ & Hsym & Himp & Hl & Htotal & _).
    repeat split; assumption.
Qed.

(** C3.  The chunker asks for a splitter exactly when the content is
    longer than [chunk_size] and the extension maps to a language; in
    every other case it returns one whole-file record holding the content
    as it came. *)
Theorem split_decision file_path content repo_id chunk_size chunk_overlap w :
  let run :=
    process_file_structured file_path content repo_id chunk_size
      chunk_overlap w in
  let language := get_language_from_extension file_path in
  let wanted :=
    (chunk_size < Z.of_nat (Py.len content))%Z ∧ is_Some language in
  (wanted ↔
   splitter_requests run.2
   = (splitter_requests w ++ [(language, chunk_size, chunk_overlap)])%list)
  ∧ (¬ wanted →
     splitter_requests run.2 = splitter_requests w
     ∧ ∃ r, run.1 = Ok [r]
            ∧ rec_content r = content
            ∧ Wording.whole_file_record file_path repo_id content r).
Proof.
  intros run language wanted. subst language.
  assert (¬ wanted →
          splitter_requests run.2 = splitter_requests w
          ∧ ∃ r, run.1 = Ok [r]
                 ∧ rec_content r = content
                 ∧ Wording.whole_file_record file_path repo_id content r)
    as Hwhole.
  { intros Hnot.
    assert (¬ (chunk_size < Z.of_nat (Py.len content))%Z
            ∨ get_language_from_extension file_path = None) as Hcond.
    { destruct (decide (chunk_size < Z.of_nat (Py.len content))%Z)
        as [Hsize|Hsize]; [|by left].
      right. apply eq_None_not_Some. intros Hsome. apply Hnot. by split. }
    destruct (process_not_chunked file_path content repo_id chunk_size
                chunk_overlap w Hcond)
      as (symbols & r & _ & Hrun & Hrec & _).
    unfold run. rewrite Hrun. cbn [fst snd ticked splitter_requests].
    rewrite app_nil_r. split; [reflexivity|]. exists r.
    split; [reflexivity|]. split; [apply Hrec|exact Hrec]. }
  split; [|exact Hwhole]. split.
  - intros [Hsize [l Hlang]]. rewrite Hlang.
    destruct (split_outcome l chunk_size chunk_overlap content)
      as [documents|e] eqn:Hsplit.
    + destruct (process_split file_path content repo_id chunk_size
                  chunk_overlap w l documents Hsize Hlang Hsplit)
        as (symbols & records & _ & Hrun & _).
      unfold run. by rewrite Hrun.
    + destruct (process_split_failed file_path content repo_id chunk_size
                  chunk_overlap w l e Hsize Hlang Hsplit)
        as (symbols & r & _ & Hrun & _).
      unfold run. by rewrite Hrun.
  - intros Hlog. destruct (decide wanted) as [|Hnot]; [assumption|exfalso].
    destruct (Hwhole Hnot) as [Hsame _]. rewrite Hsame in Hlog.
    apply (f_equal length) in Hlog. rewrite length_app in Hlog.
    simpl in Hlog. lia.
Qed.

(** C4.  When the splitter raises, the chunker still returns exactly one
    record for the file: it has the original content, and its metadata
    holds the reason under [chunking_error]. *)
Theorem split_failure_keeps_the_file file_path content repo_id chunk_size
    chunk_overlap w l e :
  (chunk_size < Z.of_nat (Py.len content))%Z →
  get_language_from_extension file_path = Some l →
  split_outcome l chunk_size chunk_overlap content = Raise e →
  ∃ r w',
    process_file_structured file_path content repo_id chunk_size
      chunk_overlap w = (Ok [r], w')
    ∧ rec_id r = file_path
    ∧ rec_content r = content
    ∧ rec_metadata r !! "chunking_error" = Some (MStr e).
Proof.
  intros Hsize Hlang Hsplit.
  destruct (process_split_failed file_path content repo_id chunk_size
              chunk_overlap w l e Hsize Hlang Hsplit)
    as (symbols & r & _ & Hrun & Hwhole & _ & _ & Herr & _).
  exists r. eexists. split; [exact Hrun|].
  destruct Hwhole as (Hid & _ & _ & Hcontent & _).
  repeat split; assumption.
Qed.

(** C5, as amended.  A file whose extension is in no language table
    gives exactly one whole-file record; the extractor answers with the
    [error] category, which the normalisation into clean symbols drops, so
    the record has no symbols at all, and no imports. *)
Theorem unknown_extension_record file_path content repo_id chunk_size
    chunk_overlap w :
  get_language_from_extension file_path = None →
  extract_file_symbols file_path content
  = Ok {[ "error" := ["Unsupported file type"] ]}
  ∧ ∃ r w',
      process_file_structured file_path content repo_id chunk_size
        chunk_overlap w = (Ok [r], w')
      ∧ Wording.whole_file_record file_path repo_id content r
      ∧ rec_symbols r = ∅
      ∧ rec_imports r = []
      ∧ rec_metadata r !! "language" = Some (MStr "unknown").
Proof.
  intros Hlang.
  assert (extract_file_symbols file_path content
          = Ok {[ "error" := ["Unsupported file type"] ]}) as Hextract.
  { unfold SymbolExtractor.extract_file_symbols.
    by rewrite (extension_tables_agree _ Hlang). }
  split; [done|].
  destruct (process_not_chunked file_path content repo_id chunk_size
              chunk_overlap w (or_intror Hlang))
    as (symbols & r & Hsymbols & Hrun & Hwhole & Hsym & Himp & _ & Hname).
  rewrite Hextract in Hsymbols. injection Hsymbols as <-.
  exists r. eexists. split; [exact Hrun|]. split; [exact Hwhole|].
  rewrite Hsym, Himp, Hname, Hlang.
  repeat split; vm_compute; reflexivity.
Qed.

(** C9.  Every whole-file record, whether the file was under the
    threshold, had no splitter, or could not be split, has no chunk id
    and no [total_chunks] in its metadata. *)
Theorem whole_file_records_carry_no_chunk_fields file_path content repo_id
    chunk_size chunk_overlap w :
  (¬ (chunk_size < Z.of_nat (Py.len content))%Z
   ∨ get_language_from_extension file_path = None
   ∨ ∃ l e, (chunk_size < Z.of_nat (Py.len content))%Z
            ∧ get_language_from_extension file_path = Some l
            ∧ split_outcome l chunk_size chunk_overlap content = Raise e) →
  ∃ r w',
    process_file_structured file_path content repo_id chunk_size
      chunk_overlap w = (Ok [r], w')
    ∧ rec_id r = file_path
    ∧ rec_content r = content
    ∧ rec_chunk_id r = None
    ∧ rec_metadata r !! "total_chunks" = None.
Proof.
  intros [Hsize | [Hlang | (l & e & Hsize & Hlang & Hsplit)]].
  - destruct (process_not_chunked file_path content repo_id chunk_size
                chunk_overlap w (or_introl Hsize))
      as (symbols & r & _ & Hrun & Hwhole & _).
    exists r. eexists. split; [exact Hrun|].
    destruct Hwhole as (? & _ & ? & ? & _ & ? & _).
    repeat split; assumption.
  - destruct (process_not_chunked file_path content repo_id chunk_size
                chunk_overlap w (or_intror Hlang))
      as (symbols & r & _ & Hrun & Hwhole & _).
    exists r. eexists. split; [exact Hrun|].
    destruct Hwhole as (? & _ & ? & ? & _ & ? & _).
    repeat split; assumption.
  - destruct (process_split_failed file_path content repo_id chunk_size
                chunk_overlap w l e Hsize Hlang Hsplit)
      as (symbols & r & _ & Hrun & Hwhole & _).
    exists r. eexists. split; [exact Hrun|].
    destruct Hwhole as (? & _ & ? & ? & _ & ? & _).
    repeat split; assumption.
Qed.

End ChunkerFacts.

(** ** The structured search *)

Section StoreFacts.
Context {unicode : Py.Unicode}.
Import SymbolExtractor GitUtils VectorUtils.

Context {Client Collection Filters : Type}.
Context (create_client : result Client).
Context (get_collection : Client → string → result Collection).
Context (disconnect : Client → result unit).
Context (embed_query : string → result (list float)).
Context (collection_query :
  Collection → list float → Z → option Filters → result (list Row)).
Context (loads_symbols : string → result Symbols).
Context (loads_imports : string → result (list string)).
Context (loads_metadata : string → result (gmap string MetaValue)).

#[local] Abbreviation structure_results :=
  (structure_results loads_symbols loads_imports loads_metadata).
#[local] Abbreviation search_structured_repo :=
  (search_structured_repo create_client get_collection disconnect embed_query
     collection_query loads_symbols loads_imports loads_metadata).
#[local] Abbreviation search_by_symbols :=
  (search_by_symbols create_client get_collection disconnect embed_query
     collection_query loads_symbols loads_imports loads_metadata).
#[local] Abbreviation search_by_imports :=
  (search_by_imports create_client get_collection disconnect embed_query
     collection_query loads_symbols loads_imports loads_metadata).

Lemma structure_results_fresh rows :
  ∀ rs, structure_results rows = Ok rs →
        Forall (λ r, res_embedding r = None ∧ res_match_type r = None) rs.
Proof.
  induction rows as [|row rows IH]; intros rs Hrs.
  - injection Hrs as <-. constructor.
  - destruct row as [id | id distance | id distance attributes];
      cbn [VectorUtils.structure_results] in Hrs; [by apply IH..|].
    unfold mbind at 1, result_bind at 1 in Hrs.
    destruct (_ ≫= loads_symbols) as [symbols|]; [|done].
    unfold mbind at 1, result_bind at 1 in Hrs.
    destruct (_ ≫= loads_imports) as [imports|]; [|done].
    unfold mbind at 1, result_bind at 1 in Hrs.
    destruct (_ ≫= loads_metadata) as [file_metadata|]; [|done].
    unfold mbind at 1, result_bind at 1 in Hrs.
    destruct (structure_results rows) as [rs'|]; [|done].
    injection Hrs as <-. constructor; [done|by apply IH].
Qed.

Lemma search_structured_repo_fresh collection_name query limit filters rs :
  search_structured_repo collection_name query limit filters = Ok rs →
  Forall (λ r, res_embedding r = None ∧ res_match_type r = None) rs.
Proof.
  unfold VectorUtils.search_structured_repo. intros Hrs.
  unfold mbind at 1, result_bind at 1 in Hrs.
  destruct create_client as [vx|]; [|done].
  unfold try_finally in Hrs. destruct (disconnect vx); [|done].
  unfold try_except in Hrs.
  destruct (get_collection vx collection_name) as [collection|];
    cbn [mbind result_bind] in Hrs; [|injection Hrs as <-; constructor].
  destruct (embed_query query) as [query_embedding|];
    cbn [mbind result_bind] in Hrs; [|injection Hrs as <-; constructor].
  destruct (collection_query collection query_embedding limit filters)
    as [rows|]; cbn [mbind result_bind] in Hrs;
    [|injection Hrs as <-; constructor].
  destruct (structure_results rows) as [rs'|] eqn:Hrows;
    [|injection Hrs as <-; constructor].
  injection Hrs as <-. by apply structure_results_fresh in Hrows.
Qed.

Lemma set_match_type_keeps tag r :
  res_id (set_match_type tag r) = res_id r
  ∧ res_embedding (set_match_type tag r) = res_embedding r
  ∧ res_symbols (set_match_type tag r) = res_symbols r
  ∧ res_imports (set_match_type tag r) = res_imports r
  ∧ res_match_type (set_match_type tag r) = Some tag.
Proof. done. Qed.

Lemma symbol_match_inv symbol_type symbol_name r0 r :
  symbol_match symbol_type symbol_name r0 = Some r →
  (r = set_match_type "exact_symbol" r0
   ∧ Wording.listed_exactly symbol_type symbol_name (res_symbols r0))
  ∨ (r = set_match_type "partial_symbol" r0
     ∧ ¬ Wording.listed_exactly symbol_type symbol_name (res_symbols r0)
     ∧ Wording.occurs_in_a_rendering symbol_name (res_symbols r0)).
Proof.
  unfold symbol_match, Wording.listed_exactly, Wording.occurs_in_a_rendering.
  destruct (bool_decide (symbol_type ∈ dom (res_symbols r0))
            && bool_decide
                 (symbol_name ∈ default [] (res_symbols r0 !! symbol_type)))
    eqn:Hexact.
  - intros [= <-]. left. split; [done|].
    apply andb_true_iff in Hexact as [Hdom Hin].
    apply bool_decide_eq_true_1 in Hdom, Hin.
    apply elem_of_dom in Hdom as [names Hnames]. rewrite Hnames in Hin.
    by exists names.
  - destruct (existsb _ _) eqn:Hpartial; [|done].
    intros [= <-]. right. split; [done|]. split.
    + intros (names & Hnames & Hin).
      apply andb_false_iff in Hexact as [Hdom | Hno].
      * apply bool_decide_eq_false_1 in Hdom. apply Hdom, elem_of_dom. eauto.
      * apply bool_decide_eq_false_1 in Hno. by rewrite Hnames in Hno.
    + apply existsb_exists in Hpartial as (v & Hv & Hcontains).
      exists v. split; [by apply list_elem_of_In|done].
Qed.

Lemma omap_tagged_sublist {A} (f : A → option A) (same : A → A → Prop)
    (l : list A) :
  (∀ x y, f x = Some y → same y x) →
  ∃ kept, kept `sublist_of` l ∧ Forall2 same (omap f l) kept.
Proof.
  intros Hf. induction l as [|x l (kept & Hsub & Hall)].
  - exists []. split; constructor.
  - cbn [omap list_omap]. destruct (f x) as [y|] eqn:Hx.
    + exists (x :: kept). split; [by constructor|].
      constructor; [by apply Hf|done].
    + exists kept. split; [by constructor|done].
Qed.

Lemma import_match_filter import_pattern (results : list StructuredResult) :
  omap (import_match import_pattern) results
  = set_match_type "import_match"
    <$> filter (λ r, any_contains_lower import_pattern (res_imports r))
          results.
Proof.
  induction results as [|r results IH]; [done|].
  cbn [omap list_omap]. unfold import_match at 1.
  destruct (any_contains_lower import_pattern (res_imports r)) eqn:Hany.
  - rewrite filter_cons_True by (by apply Is_true_true).
    rewrite fmap_cons. f_equal. exact IH.
  - rewrite filter_cons_False by (by apply Is_true_false). exact IH.
Qed.

Lemma search_by_symbols_inv collection_name symbol_type symbol_name limit rs :
  search_by_symbols collection_name symbol_type symbol_name limit = Ok rs →
  ∃ results,
    search_structured_repo collection_name
      (symbol_type +:+ " " +:+ symbol_name) limit None = Ok results
    ∧ rs = omap (symbol_match symbol_type symbol_name) results.
Proof.
  unfold VectorUtils.search_by_symbols. cbn zeta.
  unfold mbind at 1, result_bind at 1.
  destruct (search_structured_repo _ _ _ _) as [results|]; [|done].
  intros [= <-]. by exists results.
Qed.

Lemma search_by_imports_inv collection_name import_pattern limit rs :
  search_by_imports collection_name import_pattern limit = Ok rs →
  ∃ results,
    search_structured_repo collection_name ("import " +:+ import_pattern)
      limit None = Ok results
    ∧ rs = omap (import_match import_pattern) results.
Proof.
  unfold VectorUtils.search_by_imports. cbn zeta.
  unfold mbind at 1, result_bind at 1.
  destruct (search_structured_repo _ _ _ _) as [results|]; [|done].
  intros [= <-]. by exists results.
Qed.

(** What the filter of [search_by_symbols] computes: every record it
    returns is a record of the underlying search, in the order of that
    search, and either the
    category is present and lists the name exactly, with the tag
    [exact_symbol], or it is not and the lower-cased name occurs in the
    lower-cased text [str(v)] of one of the category lists (the text
    includes the brackets, quotes, separators and escapes of the list),
    with the tag [partial_symbol]. *)
Theorem symbol_filter collection_name symbol_type symbol_name limit rs :
  search_by_symbols collection_name symbol_type symbol_name limit = Ok rs →
  ∃ results kept,
    search_structured_repo collection_name
      (symbol_type +:+ " " +:+ symbol_name) limit None = Ok results
    ∧ kept `sublist_of` results
    ∧ Forall2 (λ r r0, ∃ tag, r = set_match_type tag r0) rs kept
    ∧ ∀ r, r ∈ rs →
        (Wording.listed_exactly symbol_type symbol_name (res_symbols r)
         ∧ res_match_type r = Some "exact_symbol")
        ∨ (¬ Wording.listed_exactly symbol_type symbol_name (res_symbols r)
           ∧ Wording.occurs_in_a_rendering symbol_name (res_symbols r)
           ∧ res_match_type r = Some "partial_symbol").
Proof.
  intros Hrs.
  apply search_by_symbols_inv in Hrs as (results & Hsearch & ->).
  destruct (omap_tagged_sublist (symbol_match symbol_type symbol_name)
              (λ r r0, ∃ tag, r = set_match_type tag r0) results)
    as (kept & Hsub & Hall).
  { intros r0 r Hmatch.
    apply symbol_match_inv in Hmatch as [[-> _] | [-> _]]; eauto. }
  exists results, kept. split; [done|]. split; [done|]. split; [done|].
  intros r Hr. apply list_elem_of_omap in Hr as (r0 & _ & Hmatch).
  apply symbol_match_inv in Hmatch
    as [[-> Hexact] | (-> & Hnot & Hpartial)]; [left|right]; done.
Qed.

(** C8.  [search_by_imports] returns, in the order of the underlying
    search, exactly the records that have an import containing the
    pattern, compared in lower case; each is tagged [import_match]. *)
Theorem import_filter collection_name import_pattern limit rs :
  search_by_imports collection_name import_pattern limit = Ok rs →
  ∃ results,
    search_structured_repo collection_name ("import " +:+ import_pattern)
      limit None = Ok results
    ∧ rs = set_match_type "import_match"
           <$> filter (λ r, any_contains_lower import_pattern (res_imports r))
                 results
    ∧ ∀ r, r ∈ rs →
        (∃ imp, imp ∈ res_imports r
                ∧ Py.contains (Py.lower import_pattern) (Py.lower imp) = true)
        ∧ res_match_type r = Some "import_match".
Proof.
  intros Hrs.
  apply search_by_imports_inv in Hrs as (results & Hsearch & ->).
  exists results. split; [done|]. split; [apply import_match_filter|].
  intros r Hr. apply list_elem_of_omap in Hr as (r0 & _ & Hmatch).
  unfold import_match in Hmatch.
  destruct (any_contains_lower import_pattern (res_imports r0)) eqn:Hany;
    [|done].
  injection Hmatch as <-. split; [|done].
  apply existsb_exists in Hany as (imp & Himp & Hcontains).
  exists imp. split; [by apply list_elem_of_In|done].
Qed.

(** C10.  No search hands a stored vector back: every result of
    [search_structured_repo], and so of [search_by_symbols] and
    [search_by_imports], has [embedding] equal to [None]. *)
Theorem search_results_hide_the_embedding collection_name :
  (∀ query limit filters rs,
     search_structured_repo collection_name query limit filters = Ok rs →
     ∀ r, r ∈ rs → res_embedding r = None)
  ∧ (∀ symbol_type symbol_name limit rs,
       search_by_symbols collection_name symbol_type symbol_name limit
       = Ok rs →
       ∀ r, r ∈ rs → res_embedding r = None)
  ∧ (∀ import_pattern limit rs,
       search_by_imports collection_name import_pattern limit = Ok rs →
       ∀ r, r ∈ rs → res_embedding r = None).
Proof.
  split; [|split].
  - intros query limit filters rs Hrs r Hr.
    apply search_structured_repo_fresh in Hrs.
    rewrite Forall_forall in Hrs. by apply Hrs.
  - intros symbol_type symbol_name limit rs Hrs r Hr.
    apply search_by_symbols_inv in Hrs as (results & Hsearch & ->).
    apply search_structured_repo_fresh in Hsearch.
    rewrite Forall_forall in Hsearch.
    apply list_elem_of_omap in Hr as (r0 & Hr0 & Hmatch).
    apply symbol_match_inv in Hmatch as [[-> _] | [-> _]];
      cbn [set_match_type res_embedding]; by apply Hsearch.
  - intros import_pattern limit rs Hrs r Hr.
    apply search_by_imports_inv in Hrs as (results & Hsearch & ->).
    apply search_structured_repo_fresh in Hsearch.
    rewrite Forall_forall in Hsearch.
    rewrite import_match_filter in Hr.
    apply list_elem_of_fmap in Hr as (r0 & -> & Hr0).
    apply list_elem_of_filter in Hr0 as [_ Hr0].
    cbn [set_match_type res_embedding]. by apply Hsearch.
Qed.

End StoreFacts.

(** ** The properties at work on concrete files and collections *)

Section Examples.
#[local] Existing Instance Scenario.ascii.
Import SymbolExtractor GitUtils VectorUtils.

Example splitext_examples :
  Py.splitext "src/a.b/main.PY" = ("src/a.b/main", ".PY")
  ∧ Py.splitext "src/.bashrc" = ("src/.bashrc", "")
  ∧ Py.splitext "a.b/noext" = ("a.b/noext", "")
  ∧ Py.splitext "..x.y" = ("..x", ".y").
Proof. repeat split; reflexivity. Qed.

Example str_list_example :
  Py.str_list ["main"; "it's"] = "['main', " +:+ Scenario.quoted "it's" +:+ "]".
Proof. reflexivity. Qed.

Example language_examples :
  get_language_from_extension "src/Main.PY" = Some PYTHON
  ∧ get_language_from_extension "README.md" = Some MARKDOWN
  ∧ SymbolExtractor.get_language_from_extension "README.md" = None
  ∧ get_language_from_extension "a.xyz" = None
  ∧ get_language_from_extension "Makefile" = None.
Proof. repeat split; vm_compute; reflexivity. Qed.

(** Symbols come in the order of a depth-first walk; only the assignment
    right under the module gives a variable. *)
Example python_symbols_example :
  _extract_python_symbols Scenario.python_tree
  = {[ "imports" := ["import os"]; "functions" := ["m"; "main"];
       "classes" := ["A"]; "variables" := ["Y"]; "decorators" := ["@d"] ]}.
Proof. vm_compute. reflexivity. Qed.

Example c_symbols_example :
  _extract_c_cpp_symbols Scenario.c_tree
  = {[ "includes" := ["#include <stdio.h>"]; "functions" := ["f"];
       "classes" := []; "structs" := ["S"]; "defines" := [] ]}
  ∧ extract_symbol_names (_extract_c_cpp_symbols Scenario.c_tree)
    = {[ "functions" := ["f"]; "classes" := ["S"] ]}
  ∧ extract_imports_from_symbols (_extract_c_cpp_symbols Scenario.c_tree)
    = ["#include <stdio.h>"].
Proof. repeat split; vm_compute; reflexivity. Qed.

(** Content made of blanks only, over the threshold: the splitter has no
    segment to give, and the chunker returns no record. *)
Example blank_file_example :
  (Scenario.process_file true "a.py" (Scenario.spaces 5) 4 0).1 = Ok [].
Proof. vm_compute. reflexivity. Qed.

(** The extractor on text the Python parser rejects, and on a language
    with neither a parser nor fallback patterns. *)
Lemma extract_symbols_never_raises_witness :
  extract_symbols true Scenario.parsers Scenario.re_findall "" "python"
  = Ok {[ "imports" := []; "functions" := ["helper"]; "classes" := [] ]}
  ∧ extract_symbols true Scenario.parsers Scenario.re_findall "class A {}"
      "java"
    = Ok {[ "imports" := []; "functions" := []; "classes" := [] ]}.
Proof.
  destruct (extract_symbols_never_raises true Scenario.parsers
              Scenario.re_findall "" "python") as (_ & Hfallback & _).
  destruct (extract_symbols_never_raises true Scenario.parsers
              Scenario.re_findall "class A {}" "java") as (_ & Hempty & _).
  split.
  - destruct Hfallback as [-> _]; [|vm_compute; reflexivity].
    right. right. exists Scenario.toy_parser, "parse failed".
    split; reflexivity.
  - destruct Hempty as [_ Hempty].
    + right. left. apply not_elem_of_dom. vm_compute. reflexivity.
    + apply Hempty. apply not_elem_of_dom. vm_compute. reflexivity.
Defined.

(** A file of thirteen characters cut every four characters. *)
Lemma split_file_records_witness :
  ∃ records w' clean_symbols imports,
    Scenario.process_file true "a.py" "def f(): pass" 4 0 = (Ok records, w')
    ∧ length records = 4
    ∧ rec_chunk_id <$> records = [Some 0; Some 1; Some 2; Some 3]
    ∧ rec_content <$> records = ["def"; "f():"; "pas"; "s"]
    ∧ ∀ r, r ∈ records →
        rec_symbols r = clean_symbols
        ∧ rec_imports r = imports
        ∧ rec_metadata r !! "language" = Some (MStr "python")
        ∧ rec_metadata r !! "total_chunks" = Some (MInt 4).
Proof.
  apply (split_file_records true Scenario.parsers Scenario.re_findall
           Scenario.from_language Scenario.create_documents
           Scenario.isoformat "a.py" "def f(): pass" "repo" 4 0
           Scenario.world0 PYTHON
           [mkDocument "def"; mkDocument "f():"; mkDocument "pas";
            mkDocument "s"]);
    vm_compute; reflexivity.
Defined.

(** The same file, and a file stored whole. *)
Lemma ids_follow_the_path_witness :
  (∃ records w',
     Scenario.process_file true "a.py" "def f(): pass" 4 0 = (Ok records, w')
     ∧ rec_id <$> records
       = ["a.py#chunk_0"; "a.py#chunk_1"; "a.py#chunk_2"; "a.py#chunk_3"])
  ∧ (∃ r w',
       Scenario.process_file true "a.py" "def f(): pass" 4000 400
       = (Ok [r], w')
       ∧ rec_id r = "a.py").
Proof.
  destruct (ids_follow_the_path true Scenario.parsers Scenario.re_findall
              Scenario.from_language Scenario.create_documents
              Scenario.isoformat "a.py" "def f(): pass" "repo" 4 0
              Scenario.world0) as [Hsplit _].
  destruct (ids_follow_the_path true Scenario.parsers Scenario.re_findall
              Scenario.from_language Scenario.create_documents
              Scenario.isoformat "a.py" "def f(): pass" "repo" 4000 400
              Scenario.world0) as [_ Hwhole].
  split.
  - destruct (Hsplit PYTHON
                [mkDocument "def"; mkDocument "f():"; mkDocument "pas";
                 mkDocument "s"])
      as (records & w' & Hrun & _ & Hids & _); [vm_compute; reflexivity..|].
    exists records, w'. split; [exact Hrun|]. rewrite Hids.
    vm_compute. reflexivity.
  - apply Hwhole. left. vm_compute. discriminate.
Defined.

(** C1 as stated fails: a file of 4001 characters of which all but the
    first are spaces is over the threshold of 4000, the splitter gives the
    single segment [x], and the one record produced has the suffix. *)
Lemma single_segment_keeps_its_suffix :
  ∃ r w',
    Scenario.process_file true "a.py" ("x" +:+ Scenario.spaces 4000) 4000 400
    = (Ok [r], w')
    ∧ rec_id r = "a.py#chunk_0"
    ∧ rec_content r = "x"
    ∧ rec_id r ≠ "a.py".
Proof.
  eexists _, _. split; [vm_compute; reflexivity|].
  repeat split; [vm_compute; discriminate].
Defined.

(** An overlap larger than the chunk size makes the splitter raise. *)
Lemma split_failure_keeps_the_file_witness :
  ∃ r w',
    Scenario.process_file true "a.py" "def f(): pass" 4 400 = (Ok [r], w')
    ∧ rec_id r = "a.py"
    ∧ rec_content r = "def f(): pass"
    ∧ rec_metadata r !! "chunking_error"
      = Some (MStr
          "Got a larger chunk overlap than chunk size, should be smaller.").
Proof.
  apply (split_failure_keeps_the_file true Scenario.parsers
           Scenario.re_findall Scenario.from_language
           Scenario.create_documents Scenario.isoformat "a.py"
           "def f(): pass" "repo" 4 400 Scenario.world0 PYTHON);
    vm_compute; reflexivity.
Defined.

Lemma unknown_extension_record_witness :
  extract_file_symbols true Scenario.parsers Scenario.re_findall "a.xyz"
    "def f(): pass"
  = Ok {[ "error" := ["Unsupported file type"] ]}
  ∧ ∃ r w',
      Scenario.process_file true "a.xyz" "def f(): pass" 4 0 = (Ok [r], w')
      ∧ Wording.whole_file_record "a.xyz" "repo" "def f(): pass" r
      ∧ rec_symbols r = ∅
      ∧ rec_imports r = []
      ∧ rec_metadata r !! "language" = Some (MStr "unknown").
Proof.
  apply (unknown_extension_record true Scenario.parsers Scenario.re_findall
           Scenario.from_language Scenario.create_documents
           Scenario.isoformat "a.xyz" "def f(): pass" "repo" 4 0
           Scenario.world0).
  vm_compute. reflexivity.
Defined.

(** C5 as stated fails: the record of a file with the extension [.xyz]
    has no [error] category among its symbols. *)
Lemma unknown_extension_has_no_error_category :
  ∃ r w',
    Scenario.process_file true "a.xyz" "def f(): pass" 4 0 = (Ok [r], w')
    ∧ rec_symbols r !! "error" = None
    ∧ rec_symbols r ≠ {[ "error" := ["Unsupported file type"] ]}.
Proof.
  eexists _, _. split; [vm_compute; reflexivity|].
  split; [vm_compute; reflexivity|].
  intros Heq. apply (f_equal (λ symbols : Symbols, symbols !! "error")) in Heq.
  vm_compute in Heq. discriminate.
Defined.

(** The three ways to a whole-file record. *)
Lemma whole_file_records_carry_no_chunk_fields_witness :
  (∃ r w',
     Scenario.process_file true "a.py" "def f(): pass" 4000 400 = (Ok [r], w')
     ∧ rec_id r = "a.py"
     ∧ rec_content r = "def f(): pass"
     ∧ rec_chunk_id r = None
     ∧ rec_metadata r !! "total_chunks" = None)
  ∧ (∃ r w',
       Scenario.process_file true "a.xyz" "def f(): pass" 4 0 = (Ok [r], w')
       ∧ rec_id r = "a.xyz"
       ∧ rec_content r = "def f(): pass"
       ∧ rec_chunk_id r = None
       ∧ rec_metadata r !! "total_chunks" = None)
  ∧ (∃ r w',
       Scenario.process_file true "a.py" "def f(): pass" 4 400 = (Ok [r], w')
       ∧ rec_id r = "a.py"
       ∧ rec_content r = "def f(): pass"
       ∧ rec_chunk_id r = None
       ∧ rec_metadata r !! "total_chunks" = None).
Proof.
  split; [|split].
  - apply (whole_file_records_carry_no_chunk_fields true Scenario.parsers
             Scenario.re_findall Scenario.from_language
             Scenario.create_documents Scenario.isoformat "a.py"
             "def f(): pass" "repo" 4000 400 Scenario.world0).
    left. vm_compute. discriminate.
  - apply (whole_file_records_carry_no_chunk_fields true Scenario.parsers
             Scenario.re_findall Scenario.from_language
             Scenario.create_documents Scenario.isoformat "a.xyz"
             "def f(): pass" "repo" 4 0 Scenario.world0).
    right. left. vm_compute. reflexivity.
  - apply (whole_file_records_carry_no_chunk_fields true Scenario.parsers
             Scenario.re_findall Scenario.from_language
             Scenario.create_documents Scenario.isoformat "a.py"
             "def f(): pass" "repo" 4 400 Scenario.world0).
    right. right.
    exists PYTHON,
      "Got a larger chunk overlap than chunk size, should be smaller.".
    repeat split; vm_compute; reflexivity.
Defined.

Lemma symbol_filter_witness :
  ∃ rs results kept,
    Scenario.by_symbols "functions" "main" = Ok rs
    ∧ Scenario.search "functions main" 10 = Ok results
    ∧ kept `sublist_of` results
    ∧ Forall2 (λ r r0, ∃ tag, r = set_match_type tag r0) rs kept
    ∧ ∀ r, r ∈ rs →
        (Wording.listed_exactly "functions" "main" (res_symbols r)
         ∧ res_match_type r = Some "exact_symbol")
        ∨ (¬ Wording.listed_exactly "functions" "main" (res_symbols r)
           ∧ Wording.occurs_in_a_rendering "main" (res_symbols r)
           ∧ res_match_type r = Some "partial_symbol").
Proof.
  pose (rs := match Scenario.by_symbols "functions" "main" with
              | Ok rs => rs
              | Raise _ => []
              end).
  assert (Scenario.by_symbols "functions" "main" = Ok rs) as Hrs
    by (vm_compute; reflexivity).
  destruct (symbol_filter (Ok ()) Scenario.get_collection (λ _, Ok ())
              (λ _, Ok [0.5%float]) Scenario.collection_query
              Scenario.loads_symbols Scenario.loads_imports
              Scenario.loads_metadata "repo" "functions" "main" 10 rs Hrs)
    as (results & kept & Hsearch & Hsub & Htags & Hall).
  exists rs, results, kept.
  split; [exact Hrs|]. split; [exact Hsearch|]. split; [exact Hsub|].
  split; [exact Htags|exact Hall].
Defined.

(** C7.  The code at the failing input: a search for the name [[] among
    the functions returns the record of [main.py] tagged
    [partial_symbol], although its only symbol is [main] and the name
    occurs in no symbol: the test reads the text of the whole list,
    [str(v)], which opens with a bracket. *)
Lemma bracket_is_a_partial_symbol :
  ∃ rs r,
    Scenario.by_symbols "functions" "[" = Ok rs
    ∧ r ∈ rs
    ∧ res_id r = "main.py"
    ∧ res_match_type r = Some "partial_symbol"
    ∧ VectorUtils.values (res_symbols r) = [["main"]]
    ∧ ¬ Wording.listed_exactly "functions" "[" (res_symbols r)
    ∧ Wording.occurs_in_a_symbol "[" (res_symbols r) = false.
Proof.
  eexists _, _. split; [vm_compute; reflexivity|].
  split; [apply list_elem_of_here|].
  split; [vm_compute; reflexivity|]. split; [vm_compute; reflexivity|].
  split; [vm_compute; reflexivity|]. split; [|vm_compute; reflexivity].
  intros (names & Hnames & Hin). vm_compute in Hnames.
  injection Hnames as <-. apply list_elem_of_singleton in Hin. discriminate.
Defined.

Lemma import_filter_witness :
  ∃ rs results,
    Scenario.by_imports "OS" = Ok rs
    ∧ Scenario.search "import OS" 10 = Ok results
    ∧ rs = set_match_type "import_match"
           <$> filter (λ r, any_contains_lower "OS" (res_imports r)) results
    ∧ ∀ r, r ∈ rs →
        (∃ imp, imp ∈ res_imports r
                ∧ Py.contains (Py.lower "OS") (Py.lower imp) = true)
        ∧ res_match_type r = Some "import_match".
Proof.
  pose (rs := match Scenario.by_imports "OS" with
              | Ok rs => rs
              | Raise _ => []
              end).
  assert (Scenario.by_imports "OS" = Ok rs) as Hrs
    by (vm_compute; reflexivity).
  destruct (import_filter (Ok ()) Scenario.get_collection (λ _, Ok ())
              (λ _, Ok [0.5%float]) Scenario.collection_query
              Scenario.loads_symbols Scenario.loads_imports
              Scenario.loads_metadata "repo" "OS" 10 rs Hrs)
    as (results & Hsearch & Hfilter & Hall).
  exists rs, results.
  split; [exact Hrs|]. split; [exact Hsearch|].
  split; [exact Hfilter|exact Hall].
Defined.

Lemma search_results_hide_the_embedding_witness :
  ∃ rs,
    Scenario.by_symbols "functions" "main" = Ok rs
    ∧ rs ≠ []
    ∧ ∀ r, r ∈ rs → res_embedding r = None.
Proof.
  pose (rs := match Scenario.by_symbols "functions" "main" with
              | Ok rs => rs
              | Raise _ => []
              end).
  assert (Scenario.by_symbols "functions" "main" = Ok rs) as Hrs
    by (vm_compute; reflexivity).
  destruct (search_results_hide_the_embedding (Ok ()) Scenario.get_collection
              (λ _, Ok ()) (λ _, Ok [0.5%float]) Scenario.collection_query
              Scenario.loads_symbols Scenario.loads_imports
              Scenario.loads_metadata "repo") as (_ & Hsymbols & _).
  exists rs. split; [exact Hrs|]. split; [vm_compute; discriminate|].
  exact (Hsymbols "functions" "main" 10%Z rs Hrs).
Defined.

End Examples.

(** ** More on the symbol extractor *)

Section TreeWalks.
Context {unicode : Py.Unicode}.
Import SymbolExtractor.

(** Induction on a tree, with the property at hand for all children. *)
Lemma Node_forall_ind (P : Node → Prop) :
  (∀ type text field children,
     Forall P children → P (mkNode type text field children)) →
  ∀ node, P node.
Proof.
  intros Hnode.
  refine (fix IH (node : Node) : P node :=
            match node with
            | mkNode type text field children =>
                Hnode type text field children
                  ((fix all (cs : list Node) : Forall P cs :=
                      match cs with
                      | [] => Forall_nil_2 P
                      | c :: cs' => Forall_cons_2 P c cs' (IH c) (all cs')
                      end) children)
            end).
Qed.

Lemma head_app_cases {A} (l1 l2 : list A) :
  head (l1 ++ l2) = match head l1 with Some x => Some x | None => head l2 end.
Proof. by destruct l1. Qed.

Lemma traverse_foldl visit node :
  ∀ parent symbols,
    traverse visit parent node symbols
    = foldl (λ symbols pn, visit pn.1 pn.2 symbols) symbols
        (preorder_from parent node).
Proof.
  induction node as [type text field children IH] using Node_forall_ind.
  intros parent symbols. cbn [traverse preorder_from foldl fst snd].
  generalize (visit parent (mkNode type text field children) symbols).
  generalize (Some (mkNode type text field children)).
  induction IH as [|child children Hchild _ IHchildren]; intros p acc.
  - reflexivity.
  - rewrite foldl_app, <- Hchild. apply IHchildren.
Qed.

Lemma preorder_from_nodes node :
  ∀ parent, (preorder_from parent node).*2 = preorder node.
Proof.
  induction node as [type text field children IH] using Node_forall_ind.
  intros parent. cbn [preorder_from preorder]. rewrite fmap_cons.
  cbn [snd]. f_equal.
  generalize (Some (mkNode type text field children)).
  induction IH as [|child children Hchild _ IHchildren]; intros p.
  - reflexivity.
  - rewrite fmap_app, Hchild. f_equal. apply IHchildren.
Qed.

Lemma traverse_dom visit :
  (∀ parent node symbols, dom (visit parent node symbols) = dom symbols) →
  ∀ parent node symbols,
    dom (traverse visit parent node symbols) = dom symbols.
Proof.
  intros Hvisit parent node symbols. rewrite traverse_foldl.
  generalize (preorder_from parent node). intros walk. revert symbols.
  induction walk as [|[p n] walk IH]; intros symbols; [done|].
  cbn [foldl fst snd]. by rewrite IH, Hvisit.
Qed.

Lemma append_to_dom key value (symbols : Symbols) :
  dom (append_to key value symbols) = dom symbols.
Proof. apply dom_alter_L. Qed.

Lemma append_text_dom key node (symbols : Symbols) :
  dom (append_text key node symbols) = dom symbols.
Proof. apply dom_alter_L. Qed.

Lemma append_name_dom key node (symbols : Symbols) :
  dom (append_name key node symbols) = dom symbols.
Proof. unfold append_name. case_match; [apply dom_alter_L|done]. Qed.

Lemma foldl_dom {A} (step : Symbols → A → Symbols) (l : list A) :
  (∀ symbols x, dom (step symbols x) = dom symbols) →
  ∀ symbols, dom (foldl step symbols l) = dom symbols.
Proof.
  intros Hstep. induction l as [|x l IH]; intros symbols; [done|].
  cbn [foldl]. by rewrite IH, Hstep.
Qed.

Lemma empty_lists_dom keys : dom (empty_lists keys) = list_to_set keys.
Proof.
  unfold empty_lists. rewrite dom_list_to_map_L, <- list_fmap_compose.
  f_equal. by rewrite list_fmap_id.
Qed.

#[local] Ltac dom_kept :=
  intros;
  repeat first
    [ rewrite append_to_dom | rewrite append_text_dom
    | rewrite append_name_dom | case_match ];
  try reflexivity.

(** X1.  Whatever the tree, an extractor returns exactly the categories of
    its opening dict: none is added, none is lost, empty ones stay. *)
Theorem extractor_categories_are_fixed root_node :
  dom (_extract_python_symbols root_node)
  = list_to_set ["imports"; "functions"; "classes"; "variables"; "decorators"]
  ∧ dom (_extract_js_ts_symbols root_node)
    = list_to_set ["imports"; "functions"; "classes"; "variables"; "exports"]
  ∧ dom (_extract_java_symbols root_node)
    = list_to_set ["imports"; "functions"; "classes"; "interfaces"; "packages"]
  ∧ dom (_extract_c_cpp_symbols root_node)
    = list_to_set ["includes"; "functions"; "classes"; "structs"; "defines"]
  ∧ dom (_extract_go_symbols root_node)
    = list_to_set ["imports"; "functions"; "types"; "variables"; "constants"]
  ∧ dom (_extract_rust_symbols root_node)
    = list_to_set
        ["uses"; "functions"; "structs"; "enums"; "traits"; "impls"]
  ∧ dom (_extract_ruby_symbols root_node)
    = list_to_set ["requires"; "functions"; "classes"; "modules"; "constants"]
  ∧ dom (_extract_php_symbols root_node)
    = list_to_set
        ["includes"; "functions"; "classes"; "interfaces"; "traits";
         "namespaces"]
  ∧ dom (_extract_csharp_symbols root_node)
    = list_to_set
        ["usings"; "functions"; "classes"; "interfaces"; "namespaces"]
  ∧ dom (_extract_swift_symbols root_node)
    = list_to_set
        ["imports"; "functions"; "classes"; "structs"; "protocols";
         "extensions"]
  ∧ dom (_extract_kotlin_symbols root_node)
    = list_to_set
        ["imports"; "functions"; "classes"; "interfaces"; "objects";
         "packages"]
  ∧ dom (_extract_generic_symbols root_node)
    = list_to_set ["identifiers"; "strings"; "comments"].
Proof.
  repeat split.
  all: lazymatch goal with
       | |- dom (?extractor _) = _ => unfold extractor
       end.
  all: rewrite traverse_dom; [apply empty_lists_dom|].
  all: try (dom_kept; fail).
  (* the variable declarators of JavaScript *)
  intros parent node symbols. repeat case_match; try dom_kept.
  apply foldl_dom. dom_kept.
Qed.

(** X2.  [_find_function_name] gives the first [identifier] of the declarator
    in depth-first, left-to-right order, and nothing when there is none. *)
Theorem find_function_name_is_first_identifier node :
  _find_function_name node
  = head (filter (λ n, node_type n = "identifier") (preorder node)).
Proof.
  induction node as [type text field children IH] using Node_forall_ind.
  cbn [_find_function_name preorder node_type].
  destruct (String.eqb_spec type "identifier") as [->|Hother].
  - by rewrite filter_cons_True.
  - rewrite filter_cons_False by done.
    induction IH as [|child children Hchild _ IHchildren]; [done|].
    rewrite filter_app, head_app_cases, <- Hchild.
    destruct (_find_function_name child); [done|apply IHchildren].
Qed.

Lemma walk_lookup visit key (found : option Node → Node → list string) :
  (∀ parent node (symbols : Symbols),
     visit parent node symbols !! key
     = (λ names, (names ++ found parent node)%list) <$> symbols !! key) →
  ∀ walk (symbols : Symbols),
    foldl (λ symbols pn, visit pn.1 pn.2 symbols) symbols walk !! key
    = (λ names, (names ++ (walk ≫= λ pn, found pn.1 pn.2))%list)
      <$> symbols !! key.
Proof.
  intros Hvisit walk. induction walk as [|[p n] walk IH]; intros symbols.
  - cbn [foldl mbind list_bind]. destruct (symbols !! key); [|done].
    cbn [fmap option_fmap option_map]. by rewrite app_nil_r.
  - cbn [foldl fst snd]. rewrite IH, Hvisit.
    destruct (symbols !! key) as [names|]; [|done].
    cbn [fmap option_fmap option_map]. f_equal.
    rewrite bind_cons. cbn [fst snd]. by rewrite app_assoc.
Qed.

Lemma append_to_lookup key value (symbols : Symbols) key' :
  append_to key value symbols !! key'
  = (λ names, (names ++ if decide (key = key') then [value] else [])%list)
    <$> symbols !! key'.
Proof.
  unfold append_to. rewrite lookup_alter.
  destruct (decide (key = key')) as [->|].
  - done.
  - destruct (symbols !! key'); [|done].
    cbn [fmap option_fmap option_map]. by rewrite app_nil_r.
Qed.

Lemma bind_option_list {A B} (f : A → option B) (l : list A) :
  (l ≫= λ x, option_list (f x)) = omap f l.
Proof.
  induction l as [|x l IH]; [done|].
  rewrite bind_cons, IH. cbn [omap list_omap]. by destruct (f x).
Qed.

Lemma python_visit_adds type key :
  (type = "function_definition" ∧ key = "functions")
  ∨ (type = "class_definition" ∧ key = "classes") →
  ∀ root_node,
    _extract_python_symbols root_node !! key
    = Some (omap (named type) (preorder root_node)).
Proof.
  intros Hcases root_node. unfold _extract_python_symbols.
  lazymatch goal with
  | |- traverse ?visit _ _ _ !! _ = _ =>
      rewrite (traverse_foldl visit);
      pose proof (walk_lookup visit key
                    (λ _ node, option_list (named type node))) as Hwalk
  end.
  etrans; [refine (Hwalk _ _ _)|]; clear Hwalk.
  - intros parent node symbols. unfold named, is_type, append_text, append_name.
    destruct Hcases as [[-> ->]|[-> ->]].
    all: repeat case_match.
    all: repeat match goal with
                | H : String.eqb _ _ = true |- _ => apply String.eqb_eq in H
                end.
    all: try congruence.
    all: rewrite ?append_to_lookup.
    all: repeat case_decide; try discriminate; try congruence.
    all: destruct (symbols !! _);
      cbn [fmap option_fmap option_map option_list];
      rewrite ?app_nil_r; reflexivity.
  - rewrite <- bind_option_list, <- (preorder_from_nodes root_node None).
    rewrite list_fmap_bind.
    destruct Hcases as [[-> ->]|[-> ->]];
      vm_compute (empty_lists _ !! _); reflexivity.
Qed.

(** X3.  The Python extractor lists the functions and the classes in the
    order of a depth-first, left-to-right walk: one name for every
    [function_definition] (methods and nested functions as well) and one
    for every [class_definition] that has a name, doubles kept. *)
Theorem python_definitions_in_source_order root_node :
  _extract_python_symbols root_node !! "functions"
  = Some (omap (named "function_definition") (preorder root_node))
  ∧ _extract_python_symbols root_node !! "classes"
    = Some (omap (named "class_definition") (preorder root_node)).
Proof.
  split; apply python_visit_adds; [left|right]; done.
Qed.

End TreeWalks.

(** ** The symbol summary *)

Section SummaryFacts.
Context {unicode : Py.Unicode}.
Import SymbolExtractor.

(** A category [create_symbol_summary] shows: it has items and is not the
    [error] category. *)
#[local] Abbreviation shown :=
  (λ entry : string * list string, entry.2 ≠ [] ∧ entry.1 ≠ "error").

Lemma summary_step_cases symbol_type items max_items (parts : list string) :
  (if Py.truthy items && negb (String.eqb symbol_type "error")
   then (parts
         ++ [Py.upper symbol_type +:+ ": "
             +:+ Py.join ", " (display_items items max_items)])%list
   else parts)
  = (parts
     ++ if decide (shown (symbol_type, items))
        then [Py.upper symbol_type +:+ ": "
              +:+ Py.join ", " (display_items items max_items)]
        else [])%list.
Proof.
  destruct items as [|item items]; cbn [Py.truthy andb].
  - rewrite decide_False by (intros [? _]; done). by rewrite app_nil_r.
  - destruct (String.eqb_spec symbol_type "error") as [->|Hname];
      cbn [negb].
    + rewrite decide_False by (intros [_ ?]; done). by rewrite app_nil_r.
    + by rewrite decide_True.
Qed.

Lemma summary_parts_unfold symbols max_items :
  ∀ parts : list string,
    foldl (λ summary_parts '(symbol_type, items),
             if Py.truthy items && negb (String.eqb symbol_type "error")
             then (summary_parts
                   ++ [Py.upper symbol_type +:+ ": "
                       +:+ Py.join ", " (display_items items max_items)])%list
             else summary_parts)
          parts symbols
    = (parts
       ++ ((λ entry : string * list string,
              Py.upper entry.1 +:+ ": "
              +:+ Py.join ", " (display_items entry.2 max_items))
           <$> filter shown symbols))%list.
Proof.
  induction symbols as [|[symbol_type items] symbols IH]; intros parts.
  - cbn [foldl]. by rewrite filter_nil, app_nil_r.
  - cbn [foldl]. rewrite IH, summary_step_cases, filter_cons.
    destruct (decide (shown (symbol_type, items))).
    + by rewrite fmap_cons, <- app_assoc.
    + by rewrite app_nil_r.
Qed.

Lemma summary_parts_shown symbols max_items :
  summary_parts symbols max_items
  = (λ entry : string * list string,
       Py.upper entry.1 +:+ ": "
       +:+ Py.join ", " (display_items entry.2 max_items))
    <$> filter shown symbols.
Proof. unfold summary_parts. by rewrite summary_parts_unfold. Qed.

(** X4.  The summary has one part [NAME: items] for every category that
    has items and is not named [error], in the order of the dict, the
    parts joined by [ | ]; so taking the empty categories and the [error]
    category out of the mapping leaves the summary as it is. *)
Theorem summary_ignores_empty_and_error symbols max_items :
  let parts :=
    (λ entry : string * list string,
       Py.upper entry.1 +:+ ": "
       +:+ Py.join ", " (display_items entry.2 max_items))
    <$> filter shown symbols in
  create_symbol_summary symbols max_items
  = (if Py.truthy parts then Py.join " | " parts else "No symbols found")
  ∧ create_symbol_summary (filter shown symbols) max_items
    = create_symbol_summary symbols max_items.
Proof.
  unfold create_symbol_summary. rewrite !summary_parts_shown.
  by rewrite list_filter_filter_l.
Qed.

Lemma append_cons c s1 s2 : String c s1 +:+ s2 = String c (s1 +:+ s2).
Proof. reflexivity. Qed.

Lemma contains_colon_cons c s :
  Py.contains ":" (String c s)
  = (if Ascii.ascii_dec ":" c then true else false) || Py.contains ":" s.
Proof.
  change (Py.contains ":" (String c s))
    with ((if Ascii.ascii_dec ":" c then String.prefix "" s else false)
          || Py.contains ":" s).
  by destruct s.
Qed.

Lemma contains_colon_app_l s1 s2 :
  Py.contains ":" s1 = true → Py.contains ":" (s1 +:+ s2) = true.
Proof.
  induction s1 as [|c s1 IH]; [done|].
  rewrite append_cons, !contains_colon_cons.
  destruct (Ascii.ascii_dec ":" c); [done|exact IH].
Qed.

Lemma contains_colon_label s1 s2 :
  Py.contains ":" (s1 +:+ ": " +:+ s2) = true.
Proof.
  induction s1 as [|c s1 IH].
  - reflexivity.
  - rewrite append_cons, contains_colon_cons.
    apply orb_true_iff. right. exact IH.
Qed.

Lemma join_contains_colon sep part parts :
  Py.contains ":" part = true →
  Py.contains ":" (Py.join sep (part :: parts)) = true.
Proof.
  intros Hpart. destruct parts as [|part' parts]; [done|].
  change (Py.join sep (part :: part' :: parts))
    with (part +:+ sep +:+ Py.join sep (part' :: parts)).
  by apply contains_colon_app_l.
Qed.

(** X5.  The summary is the text [No symbols found] exactly when no category
    has items, the [error] category apart. *)
Theorem summary_of_nothing symbols max_items :
  create_symbol_summary symbols max_items = "No symbols found"
  ↔ ∀ symbol_type items,
      (symbol_type, items) ∈ symbols → items = [] ∨ symbol_type = "error".
Proof.
  unfold create_symbol_summary. rewrite summary_parts_shown. split.
  - intros Hsummary symbol_type items Hin.
    destruct (decide (shown (symbol_type, items))) as [Hshown|Hnot].
    + exfalso.
      assert ((symbol_type, items) ∈ filter shown symbols) as Hkept
        by (by apply list_elem_of_filter).
      destruct (filter shown symbols) as [|entry entries];
        [by apply elem_of_nil in Hkept|].
      rewrite fmap_cons in Hsummary. cbn [Py.truthy] in Hsummary.
      pose proof (join_contains_colon " | " _
                    ((λ entry : string * list string,
                        Py.upper entry.1 +:+ ": "
                        +:+ Py.join ", " (display_items entry.2 max_items))
                     <$> entries)
                    (contains_colon_label (Py.upper entry.1)
                       (Py.join ", " (display_items entry.2 max_items))))
        as Hcolon.
      rewrite Hsummary in Hcolon. vm_compute in Hcolon. discriminate.
    + destruct items as [|item items]; [by left|right].
      destruct (decide (symbol_type = "error")) as [|Hname]; [done|].
      exfalso. apply Hnot. cbn [fst snd]. by split.
  - intros Hnone.
    assert (filter shown symbols = []) as ->; [|done].
    induction symbols as [|[symbol_type items] symbols IH]; [done|].
    rewrite filter_cons_False.
    + apply IH. intros symbol_type' items' Hin.
      apply (Hnone symbol_type' items'). by right.
    + intros [Hitems Hname]. cbn [fst snd] in *.
      destruct (Hnone symbol_type items) as [?|?]; [by left|done..].
Qed.

(** X6.  With a limit of at least zero, a category of at most [max_items]
    items is shown whole; a longer one shows its first [max_items] items
    and then one line with the number of items left out, so that no
    category takes more than [max_items + 1] entries. *)
Theorem display_items_bounded items max_items :
  (0 ≤ max_items)%Z →
  (length (display_items items max_items) ≤ Z.to_nat max_items + 1)%nat
  ∧ ((Z.of_nat (length items) ≤ max_items)%Z →
     display_items items max_items = items)
  ∧ ((max_items < Z.of_nat (length items))%Z →
     display_items items max_items
     = (take (Z.to_nat max_items) items
        ++ ["... and " +:+ pretty (Z.of_nat (length items) - max_items)%Z
            +:+ " more"])%list
       ∧ (0 < Z.of_nat (length items) - max_items)%Z).
Proof.
  intros Hmax. unfold display_items, Py.slice_to.
  rewrite (proj2 (Z.ltb_ge max_items 0) Hmax).
  destruct (Z.ltb_spec max_items (Z.of_nat (length items))) as [Hlong|Hshort].
  - split; [|split].
    + rewrite length_app, length_take. cbn [length]. lia.
    + lia.
    + intros _. split; [reflexivity|lia].
  - split; [|split].
    + rewrite length_take. lia.
    + intros _. apply take_ge. lia.
    + lia.
Qed.

End SummaryFacts.

(** ** Imports and clean symbols *)

Section CleanSymbolFacts.
Context {unicode : Py.Unicode}.
Import SymbolExtractor GitUtils.

Lemma extend_from_app (symbols : Symbols) acc key :
  extend_from symbols acc key = (acc ++ default [] (symbols !! key))%list.
Proof.
  unfold extend_from. destruct (symbols !! key) as [[|item items]|];
    cbn [Py.truthy default]; by rewrite ?app_nil_r.
Qed.

Lemma foldl_extend_from (symbols : Symbols) keys :
  ∀ acc,
    foldl (extend_from symbols) acc keys
    = (acc ++ items_under symbols keys)%list.
Proof.
  unfold items_under.
  induction keys as [|key keys IH]; intros acc; cbn [foldl].
  - by rewrite app_nil_r.
  - by rewrite IH, extend_from_app, bind_cons, app_assoc.
Qed.

(** X7.  The imports of a file are the items under [imports], [includes],
    [usings], [uses] and [requires], in that order of the categories and
    with the order inside each category kept; no other category gives an
    import. *)
Theorem imports_come_from_the_import_categories (symbols : Symbols) :
  extract_imports_from_symbols symbols
  = items_under symbols ["imports"; "includes"; "usings"; "uses"; "requires"]
  ∧ ∀ statement,
      statement ∈ extract_imports_from_symbols symbols
      ↔ ∃ key items,
          key ∈ ["imports"; "includes"; "usings"; "uses"; "requires"]
          ∧ symbols !! key = Some items
          ∧ statement ∈ items.
Proof.
  assert (extract_imports_from_symbols symbols
          = items_under symbols import_keys) as Heq.
  { unfold extract_imports_from_symbols. by rewrite foldl_extend_from. }
  split; [exact Heq|].
  intros statement. rewrite Heq. unfold items_under, import_keys.
  rewrite list_elem_of_bind. split.
  - intros (key & Hitem & Hkey).
    destruct (symbols !! key) as [items|] eqn:Hitems;
      [|by apply elem_of_nil in Hitem].
    by exists key, items.
  - intros (key & items & Hkey & Hitems & Hitem).
    exists key. by rewrite Hitems.
Qed.

Lemma clean_symbols_raw (symbols : Symbols) key :
  foldl (λ (clean_symbols : Symbols) '(clean_type, symbol_keys),
           <[clean_type := foldl (extend_from symbols) [] symbol_keys]>
             clean_symbols)
        ∅ symbol_mapping !! key
  = items_under symbols
    <$> (list_to_map symbol_mapping : gmap string (list string)) !! key.
Proof.
  unfold symbol_mapping. cbn [foldl].
  rewrite !extend_from_app. cbn [app].
  unfold items_under.
  repeat (lazymatch goal with
          | |- <[?k := _]> _ !! key = _ =>
              destruct (decide (key = k)) as [->|]
          end;
          [vm_compute (list_to_map _ !! _);
           cbn [fmap option_fmap option_map mbind list_bind];
           simplify_map_eq; by rewrite ?app_nil_r, <- ?app_assoc
          |rewrite lookup_insert_ne by done]).
  rewrite lookup_empty. symmetry.
  apply fmap_None, not_elem_of_list_to_map_1. cbn [fmap list_fmap fst].
  rewrite !not_elem_of_cons. repeat split; [done..|apply not_elem_of_nil].
Qed.

Lemma clean_symbols_at (symbols : Symbols) key :
  extract_symbol_names symbols !! key
  = (list_to_map symbol_mapping : gmap string (list string)) !! key
    ≫= λ symbol_keys,
         if Py.truthy (items_under symbols symbol_keys)
         then Some (items_under symbols symbol_keys)
         else None.
Proof.
  unfold extract_symbol_names.
  rewrite map_lookup_filter, clean_symbols_raw.
  destruct (_ !! key) as [symbol_keys|]; [|done].
  cbn [fmap option_fmap option_map mbind option_bind snd].
  destruct (items_under symbols symbol_keys); cbn [Py.truthy].
  - rewrite option_guard_False by (intros []). reflexivity.
  - rewrite option_guard_True by exact I. reflexivity.
Qed.

(** X8.  The clean symbols merge the raw categories of [symbol_mapping]: a
    clean category holds the items of its raw categories, in the order of
    the mapping, and is absent when they have none; no other category
    exists, and none is empty. *)
Theorem clean_symbols_merge_the_mapping (symbols : Symbols) :
  (∀ clean_type symbol_keys,
     (clean_type, symbol_keys) ∈ symbol_mapping →
     extract_symbol_names symbols !! clean_type
     = if Py.truthy (items_under symbols symbol_keys)
       then Some (items_under symbols symbol_keys)
       else None)
  ∧ (∀ key items,
       extract_symbol_names symbols !! key = Some items →
       items ≠ []
       ∧ key ∈ ["functions"; "classes"; "variables"; "types"; "modules"]).
Proof.
  split.
  - intros clean_type symbol_keys Hin. rewrite clean_symbols_at.
    rewrite (elem_of_list_to_map_1 symbol_mapping clean_type symbol_keys);
      [done| |done].
    apply (bool_decide_unpack (NoDup symbol_mapping.*1)). vm_compute. exact I.
  - intros key items. rewrite clean_symbols_at.
    destruct (_ !! key) as [symbol_keys|] eqn:Hkeys; [|done].
    cbn [mbind option_bind].
    destruct (items_under symbols symbol_keys) eqn:Hitems;
      cbn [Py.truthy]; [done|].
    intros [= <-]. split; [done|].
    apply elem_of_list_to_map_2 in Hkeys.
    apply (list_elem_of_fmap_2 fst) in Hkeys. exact Hkeys.
Qed.

(** X9.  Cleaning clean symbols changes nothing: the clean names are the
    first raw names of their own entries and of no other. *)
Theorem extract_symbol_names_idempotent (symbols : Symbols) :
  extract_symbol_names (extract_symbol_names symbols)
  = extract_symbol_names symbols.
Proof.
  apply map_eq. intros key. rewrite (clean_symbols_at _ key).
  destruct ((list_to_map symbol_mapping : gmap string (list string)) !! key)
    as [symbol_keys|] eqn:Hkeys.
  - cbn [mbind option_bind].
    assert (items_under (extract_symbol_names symbols) symbol_keys
            = default [] (extract_symbol_names symbols !! key)) as ->.
    { apply elem_of_list_to_map_2 in Hkeys. unfold symbol_mapping in Hkeys.
      repeat (apply elem_of_cons in Hkeys as [[= -> ->]|Hkeys];
              [unfold items_under at 1; cbn [mbind list_bind app];
               rewrite !(clean_symbols_at symbols);
               repeat lazymatch goal with
                      | |- context [list_to_map symbol_mapping !! ?k] =>
                          let found := eval vm_compute in
                            ((list_to_map symbol_mapping
                                : gmap string (list string)) !! k) in
                          change ((list_to_map symbol_mapping
                                     : gmap string (list string)) !! k)
                            with found
                      end;
               cbn [mbind option_bind default];
               by rewrite ?app_nil_r|]).
      by apply elem_of_nil in Hkeys. }
    rewrite (clean_symbols_at symbols key), Hkeys. cbn [mbind option_bind].
    by destruct (items_under symbols symbol_keys).
  - rewrite clean_symbols_at, Hkeys. done.
Qed.

End CleanSymbolFacts.

(** ** The chunker as a whole, and the repository walker *)

Section WalkerFacts.
Context {unicode : Py.Unicode}.
Import SymbolExtractor GitUtils.

Context (TREE_SITTER_AVAILABLE : bool).
Context (parsers : gmap string (string → result Node)).
Context (re_findall : string → string → list string).
Context {Splitter : Type}.
Context (from_language : Language → Z → Z → result Splitter).
Context (create_documents : Splitter → list string → result (list Document)).
Context (isoformat : nat → string).
Context (open_repo : string → result Repo).

#[local] Abbreviation process_file_structured :=
  (process_file_structured TREE_SITTER_AVAILABLE parsers re_findall
     from_language create_documents isoformat).
#[local] Abbreviation split_outcome :=
  (split_outcome from_language create_documents).
#[local] Abbreviation visit_item :=
  (visit_item TREE_SITTER_AVAILABLE parsers re_findall from_language
     create_documents isoformat).
#[local] Abbreviation visit_items :=
  (visit_items TREE_SITTER_AVAILABLE parsers re_findall from_language
     create_documents isoformat).
#[local] Abbreviation get_git_repo_info_structured :=
  (get_git_repo_info_structured TREE_SITTER_AVAILABLE parsers re_findall
     from_language create_documents isoformat open_repo).

(** X10.  Whatever the parser, the regex engine and the splitter do, the
    chunker returns: it never raises.  It reads the clock once for every
    record it returns, and every record has the repository id it was
    given, no embedding yet, the language of the path, and a [size] that
    is the length of its own content. *)
Theorem process_file_structured_always_returns file_path content repo_id
    chunk_size chunk_overlap w :
  ∃ records w',
    process_file_structured file_path content repo_id chunk_size
      chunk_overlap w = (Ok records, w')
    ∧ clock w' = clock w + length records
    ∧ ∀ r, r ∈ records →
        rec_repo_id r = repo_id
        ∧ rec_embedding r = None
        ∧ rec_metadata r !! "language"
          = Some (MStr (language_name_of
                          (get_language_from_extension file_path)))
        ∧ rec_metadata r !! "size"
          = Some (MInt (Z.of_nat (Py.len (rec_content r)))).
Proof.
  destruct (decide (chunk_size < Z.of_nat (Py.len content))%Z)
    as [Hsize|Hsize];
    [destruct (get_language_from_extension file_path) as [l|] eqn:Hlang;
     [destruct (split_outcome l chunk_size chunk_overlap content)
        as [documents|e] eqn:Hsplit|]|].
  - destruct (process_split TREE_SITTER_AVAILABLE parsers re_findall
                from_language create_documents isoformat file_path content
                repo_id chunk_size chunk_overlap w l documents Hsize Hlang
                Hsplit)
      as (symbols & records & _ & Hrun & Hids & _ & _ & Hctx).
    exists records. eexists. split; [exact Hrun|].
    split.
    + cbn [clock]. f_equal.
      by rewrite <- (length_fmap rec_id), Hids, length_fmap, length_seq.
    + intros r Hr. rewrite Forall_forall in Hctx.
      destruct (Hctx r Hr) as (? & ? & _ & _ & ? & _ & _ & ?).
      repeat split; assumption.
  - destruct (process_split_failed TREE_SITTER_AVAILABLE parsers re_findall
                from_language create_documents isoformat file_path content
                repo_id chunk_size chunk_overlap w l e Hsize Hlang Hsplit)
      as (symbols & r & _ & Hrun & Hwhole & _ & _ & _ & Hname).
    exists [r]. eexists. split; [exact Hrun|].
    split; [cbn [clock ticked length]; lia|].
    intros r' Hr'. apply list_elem_of_singleton in Hr' as ->.
    destruct Hwhole as (_ & ? & _ & Hcontent & ? & _ & _ & Hsz).
    rewrite Hcontent. repeat split; assumption.
  - destruct (process_not_chunked TREE_SITTER_AVAILABLE parsers re_findall
                from_language create_documents isoformat file_path content
                repo_id chunk_size chunk_overlap w (or_intror Hlang))
      as (symbols & r & _ & Hrun & Hwhole & _ & _ & _ & Hname).
    exists [r]. eexists. split; [exact Hrun|].
    split; [cbn [clock ticked length]; lia|].
    intros r' Hr'. apply list_elem_of_singleton in Hr' as ->.
    destruct Hwhole as (_ & ? & _ & Hcontent & ? & _ & _ & Hsz).
    rewrite Hcontent, <- Hlang. repeat split; assumption.
  - destruct (process_not_chunked TREE_SITTER_AVAILABLE parsers re_findall
                from_language create_documents isoformat file_path content
                repo_id chunk_size chunk_overlap w (or_introl Hsize))
      as (symbols & r & _ & Hrun & Hwhole & _ & _ & _ & Hname).
    exists [r]. eexists. split; [exact Hrun|].
    split; [cbn [clock ticked length]; lia|].
    intros r' Hr'. apply list_elem_of_singleton in Hr' as ->.
    destruct Hwhole as (_ & ? & _ & Hcontent & ? & _ & _ & Hsz).
    rewrite Hcontent. repeat split; assumption.
Qed.

Lemma visit_item_rejected repo_name chunk_size chunk_overlap info item w :
  accepted item = false →
  visit_item repo_name chunk_size chunk_overlap info item w = (Ok info, w).
Proof.
  unfold accepted, GitUtils.visit_item. intros Hrejected.
  destruct (String.eqb (item_type item) "blob"); cbn [negb]; [|done].
  destruct (in_skipped_directory (item_path item)); [done|].
  destruct (should_include (item_path item)); cbn [negb]; [|done].
  cbn [andb negb] in Hrejected.
  unfold try_exceptM, mbind, M_bind, lift.
  destruct (item_text item) as [content|e]; [|done].
  apply negb_false_iff in Hrejected. by rewrite Hrejected.
Qed.

Lemma visit_item_accepted repo_name chunk_size chunk_overlap info item w :
  accepted item = true →
  ∃ content file_chunks w',
    item_text item = Ok content
    ∧ process_file_structured (item_path item) content repo_name chunk_size
        chunk_overlap w = (Ok file_chunks, w')
    ∧ (∀ r, r ∈ file_chunks → rec_repo_id r = repo_name)
    ∧ visit_item repo_name chunk_size chunk_overlap info item w
      = (Ok {| info_repo_id := info_repo_id info;
               info_repo_name := info_repo_name info;
               commit_count := commit_count info;
               branches := branches info;
               files := files info ++ file_chunks;
               chunking_info := count_file file_chunks (chunking_info info) |},
         w').
Proof.
  unfold accepted. intros Haccepted.
  apply andb_true_iff in Haccepted as [Haccepted Htext].
  apply andb_true_iff in Haccepted as [Haccepted Hinclude].
  apply andb_true_iff in Haccepted as [Hblob Hskip].
  destruct (item_text item) as [content|e] eqn:Hcontent; [|done].
  destruct (process_file_structured_always_returns (item_path item) content
              repo_name chunk_size chunk_overlap w)
    as (file_chunks & w' & Hrun & _ & Hrecords).
  exists content, file_chunks, w'. split; [done|]. split; [exact Hrun|].
  split; [intros r Hr; by apply Hrecords|].
  unfold GitUtils.visit_item. rewrite Hblob, Hinclude. cbn [negb].
  apply negb_true_iff in Hskip, Htext. rewrite Hskip.
  unfold try_exceptM, mbind at 1, M_bind at 1, lift. rewrite Hcontent, Htext.
  unfold mbind, M_bind. by rewrite Hrun.
Qed.

(** X11.  The walk depends on the accepted entries alone: a tree, a path in a
    skipped directory, a name that is not relevant, bytes that do not
    decode, binary or very large content leave no record, no count and no
    reading of the clock.  A skip name counts wherever it occurs in the
    path, inside a file name as well. *)
Theorem walk_reads_only_accepted_items repo_name chunk_size chunk_overlap
    info items w :
  visit_items repo_name chunk_size chunk_overlap info items w
  = visit_items repo_name chunk_size chunk_overlap info
      (filter (λ item, accepted item) items) w
  ∧ ∀ item skip_dir,
      skip_dir ∈ skip_directories →
      Py.contains skip_dir (item_path item) = true →
      accepted item = false.
Proof.
  split.
  - revert info w. induction items as [|item items IH]; intros info w; [done|].
    destruct (accepted item) eqn:Haccepted.
    + rewrite filter_cons_True by (by apply Is_true_true).
      cbn [GitUtils.visit_items]. unfold mbind, M_bind.
      destruct (visit_item repo_name chunk_size chunk_overlap info item w)
        as [[info'|e] w']; [apply IH|done].
    + rewrite filter_cons_False by (by apply Is_true_false).
      cbn [GitUtils.visit_items]. unfold mbind, M_bind.
      rewrite (visit_item_rejected _ _ _ _ _ _ Haccepted). apply IH.
  - intros item skip_dir Hin Hcontains. unfold accepted.
    assert (in_skipped_directory (item_path item) = true) as ->.
    { unfold in_skipped_directory. apply existsb_exists.
      exists skip_dir. split; [by apply list_elem_of_In|done]. }
    cbn [negb]. by rewrite andb_false_r.
Qed.

Lemma visit_items_run repo_name chunk_size chunk_overlap items :
  ∀ info w, ∃ info' w' new_files,
    visit_items repo_name chunk_size chunk_overlap info items w
    = (Ok info', w')
    ∧ info_repo_id info' = info_repo_id info
    ∧ info_repo_name info' = info_repo_name info
    ∧ commit_count info' = commit_count info
    ∧ branches info' = branches info
    ∧ info_chunk_size (chunking_info info')
      = info_chunk_size (chunking_info info)
    ∧ info_chunk_overlap (chunking_info info')
      = info_chunk_overlap (chunking_info info)
    ∧ files info' = (files info ++ new_files)%list
    ∧ total_chunks (chunking_info info')
      = total_chunks (chunking_info info) + length new_files
    ∧ files_chunked (chunking_info info')
      + files_not_chunked (chunking_info info')
      = files_chunked (chunking_info info)
        + files_not_chunked (chunking_info info)
        + length (filter (λ item, accepted item) items)
    ∧ (∀ r, r ∈ new_files → rec_repo_id r = repo_name).
Proof.
  induction items as [|item items IH]; intros info w.
  - exists info, w, []. cbn [GitUtils.visit_items].
    rewrite app_nil_r, filter_nil. cbn [length].
    repeat split; try done; try lia. intros r Hr. by apply elem_of_nil in Hr.
  - cbn [GitUtils.visit_items]. unfold mbind, M_bind.
    destruct (accepted item) eqn:Haccepted.
    + destruct (visit_item_accepted repo_name chunk_size chunk_overlap info
                  item w Haccepted)
        as (content & file_chunks & w1 & _ & _ & Hrepo & ->).
      destruct (IH {| info_repo_id := info_repo_id info;
                      info_repo_name := info_repo_name info;
                      commit_count := commit_count info;
                      branches := branches info;
                      files := files info ++ file_chunks;
                      chunking_info :=
                        count_file file_chunks (chunking_info info) |} w1)
        as (info' & w' & new_files & -> & ? & ? & ? & ? & ? & ? & Hfiles
            & Htotal & Hcount & Hnew).
      exists info', w', (file_chunks ++ new_files)%list.
      rewrite filter_cons_True by (by apply Is_true_true).
      cbn [info_repo_id info_repo_name commit_count branches files
             chunking_info count_file info_chunk_size info_chunk_overlap
             total_chunks files_chunked files_not_chunked] in *.
      rewrite length_app, app_assoc. cbn [length].
      repeat split; try assumption; try lia.
      * case_bool_decide; lia.
      * intros r Hr. apply elem_of_app in Hr as [Hr|Hr]; auto.
    + rewrite (visit_item_rejected _ _ _ _ _ _ Haccepted).
      destruct (IH info w)
        as (info' & w' & new_files & -> & ? & ? & ? & ? & ? & ? & Hfiles
            & Htotal & Hcount & Hnew).
      exists info', w', new_files.
      rewrite filter_cons_False by (by apply Is_true_false).
      repeat split; assumption.
Qed.

(** X12.  A snapshot the walker returns has consistent statistics:
    [total_chunks] is the number of records in [files];
    [files_chunked] and [files_not_chunked] together count the accepted
    entries of the tree, each once; every record belongs to the
    repository, which is named after the last part of the path; and the
    chunking parameters are the ones given. *)
Theorem snapshot_statistics_are_consistent repo_path chunk_size chunk_overlap
    w info w' :
  get_git_repo_info_structured repo_path chunk_size chunk_overlap w
  = (Ok (Some info), w') →
  ∃ repo items,
    open_repo repo_path = Ok repo
    ∧ repo_tree repo = Ok items
    ∧ info_repo_name info = Py.basename repo_path
    ∧ info_repo_id info = info_repo_name info
    ∧ total_chunks (chunking_info info) = length (files info)
    ∧ files_chunked (chunking_info info)
      + files_not_chunked (chunking_info info)
      = length (filter (λ item, accepted item) items)
    ∧ info_chunk_size (chunking_info info) = chunk_size
    ∧ info_chunk_overlap (chunking_info info) = chunk_overlap
    ∧ ∀ r, r ∈ files info → rec_repo_id r = info_repo_name info.
Proof.
  unfold GitUtils.get_git_repo_info_structured. intros Hrun.
  destruct (open_repo repo_path) as [repo|e]; [|done].
  unfold mbind at 1, M_bind at 1, try_exceptM in Hrun.
  unfold mbind at 1, M_bind at 1, lift at 1 in Hrun.
  destruct (repo_commits repo) as [commits|e];
    [|unfold mret, M_ret, mbind, M_bind, lift in Hrun;
      by destruct (repo_close repo)].
  unfold mbind at 1, M_bind at 1, lift at 1 in Hrun.
  destruct (repo_branches repo) as [branch_names|e];
    [|unfold mret, M_ret, mbind, M_bind, lift in Hrun;
      by destruct (repo_close repo)].
  unfold mbind at 1, M_bind at 1, lift at 1 in Hrun.
  destruct (repo_tree repo) as [items|e] eqn:Htree;
    [|unfold mret, M_ret, mbind, M_bind, lift in Hrun;
      by destruct (repo_close repo)].
  unfold mbind at 1, M_bind at 1 in Hrun.
  lazymatch type of Hrun with
  | context [GitUtils.visit_items _ _ _ _ _ _ ?name ?cs ?co ?init ?its w] =>
      destruct (visit_items_run name cs co its init w)
        as (info' & w1 & new_files & Hwalk & Hid & Hname & _ & _ & Hcs & Hco
            & Hfiles & Htotal & Hcount & Hnew);
      rewrite Hwalk in Hrun
  end.
  unfold mret, M_ret, mbind, M_bind, lift in Hrun.
  destruct (repo_close repo); [|done].
  injection Hrun as <- <-.
  cbn [info_repo_id info_repo_name files chunking_info info_chunk_size
         info_chunk_overlap total_chunks files_chunked files_not_chunked
         app] in *.
  exists repo, items. rewrite Hfiles, Hname, Hid.
  repeat split; try assumption; try lia; try reflexivity.
Qed.

(** X13.  The walker raises only when closing the repository raises; any
    other failure (the repository does not open, the commits, the branches
    or the tree cannot be read) gives [None]. *)
Theorem walker_fails_with_none repo_path chunk_size chunk_overlap w :
  (∀ e, open_repo repo_path = Raise e →
        get_git_repo_info_structured repo_path chunk_size chunk_overlap w
        = (Ok None, w))
  ∧ (∀ repo,
       open_repo repo_path = Ok repo →
       repo_close repo = Ok () →
       ∃ outcome w',
         get_git_repo_info_structured repo_path chunk_size chunk_overlap w
         = (Ok outcome, w')
         ∧ (outcome = None ↔
            (∃ e, repo_commits repo = Raise e)
            ∨ (∃ e, repo_branches repo = Raise e)
            ∨ (∃ e, repo_tree repo = Raise e))).
Proof.
  split.
  - intros e Hopen. unfold GitUtils.get_git_repo_info_structured.
    by rewrite Hopen.
  - intros repo Hopen Hclose.
    unfold GitUtils.get_git_repo_info_structured. rewrite Hopen.
    unfold mbind at 1, M_bind at 1, try_exceptM.
    unfold mbind at 1, M_bind at 1, lift at 1.
    destruct (repo_commits repo) as [commits|e].
    2:{ unfold mret, M_ret, mbind, M_bind, lift. rewrite Hclose.
        eexists _, _. split; [reflexivity|]. split; [eauto|done]. }
    unfold mbind at 1, M_bind at 1, lift at 1.
    destruct (repo_branches repo) as [branch_names|e].
    2:{ unfold mret, M_ret, mbind, M_bind, lift. rewrite Hclose.
        eexists _, _. split; [reflexivity|]. split; [eauto|done]. }
    unfold mbind at 1, M_bind at 1, lift at 1.
    destruct (repo_tree repo) as [items|e].
    2:{ unfold mret, M_ret, mbind, M_bind, lift. rewrite Hclose.
        eexists _, _. split; [reflexivity|]. split; [eauto|done]. }
    unfold mbind at 1, M_bind at 1.
    lazymatch goal with
    | |- context [GitUtils.visit_items _ _ _ _ _ _ ?name ?cs ?co ?init ?its w]
      =>
        destruct (visit_items_run name cs co its init w)
          as (info' & w1 & new_files & Hwalk & _);
        rewrite Hwalk
    end.
    unfold mret, M_ret, mbind, M_bind, lift. rewrite Hclose.
    eexists _, _. split; [reflexivity|]. split; [done|].
    intros [[e He]|[[e He]|[e He]]]; done.
Qed.

End WalkerFacts.

(** ** The store, its collections and its overview *)

Section TallyFacts.
Context {unicode : Py.Unicode}.
Import Py SymbolExtractor GitUtils VectorUtils.


Lemma total_count_one key counts :
  Wording.total (count_one key counts) = Wording.total counts + 1.
Proof.
  unfold count_one, Wording.total.
  destruct (counts !! key) as [n|] eqn:Hkey; cbn [default].
  - assert (counts = <[key:=n]> (delete key counts)) as Heq
      by (symmetry; by apply insert_delete_id).
    rewrite Heq, insert_insert_eq.
    rewrite (map_fold_insert_L _ _ key (n + 1));
      [|intros; lia|apply lookup_delete_eq].
    rewrite (map_fold_insert_L _ _ key n);
      [|intros; lia|apply lookup_delete_eq].
    lia.
  - rewrite map_fold_insert_L; [lia|intros; lia|done].
Qed.

Lemma tally_row_counts tally row tally' :
  tally_row tally row = Ok tally' →
  let n := if Wording.three_fields row then 1 else 0 in
  Wording.total (languages tally') = Wording.total (languages tally) + n
  ∧ Wording.total (file_types tally') = Wording.total (file_types tally) + n
  ∧ (chunked_files tally' ≤ chunked_files tally + n)%nat
  ∧ (size (unique_files tally') ≤ size (unique_files tally) + n)%nat
  ∧ (n = 0 → tally' = tally).
Proof.
  destruct row as [id|id second|id second metadata]; cbn.
  1,2: intros [= <-]; repeat split; lia.
  destruct (add_count (total_symbols tally) metadata "symbol_count")
    as [symbols|e]; cbn; [|done].
  destruct (add_count (total_imports tally) metadata "import_count")
    as [imports|e]; cbn; [|done].
  intros [= <-]; cbn. rewrite !total_count_one.
  repeat split; try lia.
  - case_match; lia.
  - rewrite size_union_alt, size_singleton.
    pose proof (subseteq_size
                  (unique_files tally
                   ∖ {[default (AStr "") (metadata !! "file_path")]})
                  (unique_files tally)) as Hle.
    specialize (Hle ltac:(by apply subseteq_difference_l)). lia.
Qed.

Lemma analysed_cons row rows :
  Wording.analysed (row :: rows)
  = (if Wording.three_fields row then 1 else 0) + Wording.analysed rows.
Proof.
  unfold Wording.analysed. rewrite filter_cons.
  destruct (Wording.three_fields row).
  - by rewrite decide_True by exact I.
  - by rewrite decide_False by (intros []).
Qed.

Lemma tally_rows_counts sample_results :
  ∀ tally tally',
    tally_rows tally sample_results = Ok tally' →
    let n := Wording.analysed sample_results in
    Wording.total (languages tally') = Wording.total (languages tally) + n
    ∧ Wording.total (file_types tally') = Wording.total (file_types tally) + n
    ∧ (chunked_files tally' ≤ chunked_files tally + n)%nat
    ∧ (size (unique_files tally') ≤ size (unique_files tally) + n)%nat
    ∧ (n = 0 → tally' = tally).
Proof.
  induction sample_results as [|row rows IH]; intros tally tally'.
  - cbn. intros [= <-]. repeat split; lia.
  - cbn [tally_rows]. destruct (tally_row tally row) as [tally1|e] eqn:Hrow;
      cbn [mbind result_bind]; [|done].
    intros Hrows. cbn zeta. rewrite analysed_cons.
    apply tally_row_counts in Hrow. apply IH in Hrows.
    destruct Hrow as (Hl & Hf & Hc & Hu & Hsame).
    destruct Hrows as (Hl' & Hf' & Hc' & Hu' & Hsame').
    destruct (Wording.three_fields row) eqn:Hthree.
    + repeat split; try lia.
    + rewrite (Hsame eq_refl) in *. repeat split; try lia.
      intros Hzero. apply Hsame'. lia.
Qed.

Lemma tally_row_ok tally row :
  is_ok (tally_row tally row) = Wording.counts_are_numbers row.
Proof.
  destruct row as [id|id second|id second metadata]; [done..|].
  unfold tally_row, add_count, Wording.counts_are_numbers.
  destruct (default (AInt 0) (metadata !! "symbol_count")); [done..|].
  cbn [mbind result_bind Wording.is_number andb].
  by destruct (default (AInt 0) (metadata !! "import_count")).
Qed.

Lemma tally_rows_ok sample_results :
  ∀ tally,
    is_ok (tally_rows tally sample_results)
    = forallb Wording.counts_are_numbers sample_results.
Proof.
  induction sample_results as [|row rows IH]; intros tally; [done|].
  cbn [tally_rows forallb]. rewrite <- (tally_row_ok tally row).
  destruct (tally_row tally row) as [tally'|e]; cbn [mbind result_bind is_ok];
    [apply IH|done].
Qed.

End TallyFacts.

Section BackendFacts.
Context {unicode : Py.Unicode}.
Import Py SymbolExtractor GitUtils VectorUtils.

Context {State Client Collection : Type}.
Context (vecs_create_client : State → result Client * State).
Context (vx_disconnect : Client → State → result unit * State).
Context (vx_delete_collection :
  Client → string → State → result unit * State).
Context (vx_get_or_create_collection :
  Client → string → Z → State → result Collection * State).
Context (vx_get_collection :
  Client → string → State → result Collection * State).
Context (vx_list_collections :
  Client → State → result (list string) * State).
Context (collection_upsert :
  Collection → list Vector → State → result unit * State).
Context (collection_query_sample :
  Collection → Z → State → result (list SampleRow) * State).
Context (embeddings_embed_query :
  string → State → result (list float) * State).
Context (dumps_symbols : Symbols → string).
Context (dumps_imports : list string → string).
Context (dumps_metadata : gmap string MetaValue → string).

#[local] Abbreviation prepare_chunks :=
  (prepare_chunks embeddings_embed_query dumps_symbols dumps_imports
     dumps_metadata).
#[local] Abbreviation store_structured_repo :=
  (store_structured_repo vecs_create_client vx_disconnect
     vx_delete_collection vx_get_or_create_collection vx_get_collection
     collection_upsert embeddings_embed_query dumps_symbols dumps_imports
     dumps_metadata).
#[local] Abbreviation create_collection :=
  (create_collection vecs_create_client vx_disconnect vx_delete_collection
     vx_get_or_create_collection).
#[local] Abbreviation delete_collection :=
  (delete_collection vecs_create_client vx_disconnect vx_delete_collection).
#[local] Abbreviation vectors_of := (Wording.vectors_of dumps_symbols dumps_imports dumps_metadata).
#[local] Abbreviation stored_vector :=
  (Wording.stored_vector dumps_symbols dumps_imports dumps_metadata).

Lemma prepare_chunks_run repo_data file_chunks :
  ∀ vectors chunks (st : Store),
    ∃ outcomes st',
      Forall2 (λ file_chunk outcome,
                 ∃ state, outcome
                          = Wording.outcome_of
                              (embeddings_embed_query
                                 (rec_content file_chunk) state).1)
        file_chunks outcomes
      ∧ prepare_chunks repo_data (vectors, chunks) file_chunks st
        = (Ok ((vectors ++ vectors_of repo_data file_chunks outcomes)%list,
               (chunks ++ zip_with (Wording.after_embedding repo_data)
                            file_chunks outcomes)%list),
           st')
      ∧ calls st'
        = (calls st ++ zip_with Wording.embed_call file_chunks outcomes)%list.
Proof.
  induction file_chunks as [|file_chunk file_chunks IH]; intros vectors chunks st.
  - exists [], st. cbn. rewrite !app_nil_r. split; [constructor|done].
  - cbn [VectorUtils.prepare_chunks]. unfold mbind at 1, B_bind.
    unfold prepare_chunk at 1, try_exceptB, call.
    unfold mbind at 1, B_bind.
    destruct (embeddings_embed_query (rec_content file_chunk) (backend st))
      as [[embedding|e] state'] eqn:Hembed.
    + cbn [is_ok]. unfold mret at 1, B_ret.
      match goal with
      | |- context [VectorUtils.prepare_chunks _ _ _ _ _ (?vs, ?cs) _ ?st1] =>
          destruct (IH vs cs st1) as (outcomes & st' & Hall & Hrun & Hcalls)
      end.
      exists (Some embedding :: outcomes), st'.
      split; [constructor; [exists (backend st); by rewrite Hembed|done]|].
      rewrite Hrun, Hcalls. cbn [calls]. unfold Wording.vectors_of.
      cbn [zip_with fmap option_fmap option_map omap list_omap id].
      rewrite <- !app_assoc. done.
    + cbn [is_ok]. unfold mret at 1, B_ret.
      match goal with
      | |- context [VectorUtils.prepare_chunks _ _ _ _ _ (?vs, ?cs) _ ?st1] =>
          destruct (IH vs cs st1) as (outcomes & st' & Hall & Hrun & Hcalls)
      end.
      exists (None :: outcomes), st'.
      split; [constructor; [exists (backend st); by rewrite Hembed|done]|].
      rewrite Hrun, Hcalls. cbn [calls]. unfold Wording.vectors_of.
      cbn [zip_with fmap option_fmap option_map omap list_omap id].
      rewrite <- !app_assoc. done.
Qed.


#[local] Ltac run :=
  unfold VectorUtils.create_collection, VectorUtils.delete_collection,
    VectorUtils.list_collections, VectorUtils.get_repository_overview,
    create_client, disconnect, try_finallyB, try_exceptB, call, liftB,
    mbind, B_bind, mret, B_ret;
  cbn [calls backend is_ok];
  repeat (case_match; simplify_eq; cbn [calls backend is_ok fst snd] in * ).

Lemma create_collection_run collection_name drop_if_exists (st : Store) :
  ∃ new,
    calls (create_collection collection_name drop_if_exists st).2
    = (calls st ++ new)%list
    ∧ ((new = [CreateClient false]
        ∧ is_ok (create_collection collection_name drop_if_exists st).1
          = false)
       ∨ ∃ deleted created closed,
           new = ([CreateClient true]
                  ++ (if drop_if_exists
                      then [DeleteCollection collection_name deleted]
                      else [])
                  ++ [GetOrCreateCollection collection_name dimension created;
                      Disconnect closed])%list
           ∧ is_ok (create_collection collection_name drop_if_exists st).1
             = created && closed).
Proof.
  run.
  all: rewrite <- ?app_assoc; eexists; (split; [reflexivity|]).
  all: try (left; split; reflexivity).
  all: right; cbn.
  all: first [ do 3 eexists | exists true; do 2 eexists ];
    (split; [reflexivity|]); by rewrite ?andb_true_r, ?andb_false_r.
Qed.


Lemma store_structured_repo_run repo_data refresh (st : Store) :
  let collection_name := data_repo_name repo_data in
  let file_chunks := data_files repo_data in
  let created := create_collection collection_name refresh st in
  let stored := store_structured_repo repo_data refresh st in
  match created.1 with
  | Raise e => stored = (Raise e, created.2)
  | Ok _ =>
      ∃ outcomes tail,
        Forall2 (λ file_chunk outcome,
                   ∃ state, outcome
                            = Wording.outcome_of
                                (embeddings_embed_query
                                   (rec_content file_chunk) state).1)
          file_chunks outcomes
        ∧ calls stored.2
          = (calls created.2
             ++ zip_with Wording.embed_call file_chunks outcomes ++ tail)%list
        ∧ let vectors := vectors_of repo_data file_chunks outcomes in
          let chunks :=
            zip_with (Wording.after_embedding repo_data) file_chunks outcomes in
          (∀ answer, stored.1 = Ok answer → answer = (collection_name, chunks))
          ∧ (vectors = [] → tail = [] ∧ is_ok stored.1 = true)
          ∧ (vectors ≠ [] →
             (tail = [CreateClient false] ∧ is_ok stored.1 = false)
             ∨ (∃ closed,
                  tail = [CreateClient true;
                          GetCollection collection_name false;
                          Disconnect closed]
                  ∧ is_ok stored.1 = false)
             ∨ (∃ upserted closed,
                  tail = [CreateClient true;
                          GetCollection collection_name true;
                          Upsert vectors upserted;
                          Disconnect closed]
                  ∧ is_ok stored.1 = upserted && closed))
  end.
Proof.
  intros collection_name file_chunks created stored. subst created stored.
  unfold VectorUtils.store_structured_repo.
  fold collection_name file_chunks.
  unfold mbind, B_bind.
  destruct (create_collection collection_name refresh st)
    as [[collection|e] st0] eqn:Hcreated; cbn [fst snd]; [|done].
  destruct (prepare_chunks_run repo_data file_chunks [] [] st0)
    as (outcomes & st1 & Hall & Hrun & Hcalls).
  rewrite Hrun. cbn [app].
  exists outcomes.
  set (vectors := vectors_of repo_data file_chunks outcomes).
  set (chunks := zip_with (Wording.after_embedding repo_data) file_chunks outcomes).
  destruct vectors as [|vector vectors'] eqn:Hvectors.
  - exists []. cbn [truthy]. rewrite app_nil_r.
    split; [done|]. split; [done|].
    split; [by intros answer [= <-]|]. split; [done|]. intros []; done.
  - cbn [truthy]. run.
    all: rewrite <- ?app_assoc, Hcalls, <- ?app_assoc.
    all: eexists; (split; [done|]); (split; [reflexivity|]).
    all: (split; [by intros answer [= <-]|]).
    all: (split; [done|]); intros _.
    all: first [ by left
               | right; left; eexists; by split
               | right; right; do 2 eexists; (split; [reflexivity|]);
                 by rewrite ?andb_true_r, ?andb_false_r ].
Qed.


#[local] Abbreviation list_collections :=
  (list_collections vecs_create_client vx_disconnect vx_list_collections).
#[local] Abbreviation get_repository_overview :=
  (get_repository_overview vecs_create_client vx_disconnect vx_get_collection
     collection_query_sample).

Lemma delete_collection_run collection_name (st : Store) :
  ∃ new,
    calls (delete_collection collection_name st).2 = (calls st ++ new)%list
    ∧ ((new = [CreateClient false]
        ∧ is_ok (delete_collection collection_name st).1 = false)
       ∨ ∃ deleted closed,
           new = [CreateClient true;
                  DeleteCollection collection_name deleted;
                  Disconnect closed]
           ∧ is_ok (delete_collection collection_name st).1 = closed
           ∧ ∀ answer, (delete_collection collection_name st).1 = Ok answer →
                       answer = deleted).
Proof.
  run.
  all: rewrite <- ?app_assoc; eexists; (split; [reflexivity|]).
  all: try (left; split; reflexivity).
  all: right; do 2 eexists; (split; [reflexivity|]); split; [done|].
  all: by intros answer [= <-].
Qed.

Lemma list_collections_run (st : Store) :
  ∃ new,
    calls (list_collections st).2 = (calls st ++ new)%list
    ∧ ((new = [CreateClient false] ∧ is_ok (list_collections st).1 = false)
       ∨ ∃ listed closed,
           new = [CreateClient true; ListCollections listed;
                  Disconnect closed]
           ∧ is_ok (list_collections st).1 = closed
           ∧ (listed = false →
              ∀ names, (list_collections st).1 = Ok names → names = [])).
Proof.
  run.
  all: rewrite <- ?app_assoc; eexists; (split; [reflexivity|]).
  all: try (left; split; reflexivity).
  all: right; do 2 eexists; (split; [reflexivity|]); split; [done|].
  all: try done.
  all: by intros _ names [= <-].
Qed.

Lemma get_repository_overview_run collection_name (st : Store) :
  ∃ new,
    calls (get_repository_overview collection_name st).2
    = (calls st ++ new)%list
    ∧ ((new = [CreateClient false]
        ∧ is_ok (get_repository_overview collection_name st).1 = false)
       ∨ ∃ tail closed,
           new = (CreateClient true :: tail ++ [Disconnect closed])%list
           ∧ is_ok (get_repository_overview collection_name st).1 = closed
           ∧ (tail = [GetCollection collection_name false]
              ∨ ∃ queried,
                  tail = [GetCollection collection_name true;
                          QuerySample 100 queried])
           ∧ (last tail ≠ Some (QuerySample 100 true) →
              ∀ overview,
                (get_repository_overview collection_name st).1 = Ok overview →
                ∃ e, overview = OverviewError e)).
Proof.
  run.
  all: rewrite <- ?app_assoc; eexists; (split; [reflexivity|]).
  all: try (left; split; reflexivity).
  all: right.
  all: first
    [ exists [GetCollection collection_name false]; eexists;
      (split; [reflexivity|]); (split; [done|]); split; [by left|];
      intros _ overview [= <-]; by eexists
    | eexists [GetCollection collection_name true; QuerySample 100 _];
      eexists; (split; [reflexivity|]); (split; [done|]);
      split; [right; by eexists|];
      first [ intros _ overview [= <-]; by eexists
            | by intros []
            | done ] ].
Qed.


Lemma embed_calls_neutral file_chunks :
  ∀ outcomes,
    Wording.opened (zip_with Wording.embed_call file_chunks outcomes) = 0
    ∧ Wording.closed (zip_with Wording.embed_call file_chunks outcomes) = 0.
Proof.
  induction file_chunks as [|file_chunk file_chunks IH];
    intros [|outcome outcomes]; try done.
  destruct (IH outcomes) as [Hopened Hclosed].
  unfold Wording.opened, Wording.closed in *. cbn [zip_with].
  rewrite !filter_cons_False by (intros []). by rewrite Hopened, Hclosed.
Qed.

Lemma opened_app cs1 cs2 :
  Wording.opened (cs1 ++ cs2) = Wording.opened cs1 + Wording.opened cs2.
Proof. unfold Wording.opened. by rewrite filter_app, length_app. Qed.

Lemma closed_app cs1 cs2 :
  Wording.closed (cs1 ++ cs2) = Wording.closed cs1 + Wording.closed cs2.
Proof. unfold Wording.closed. by rewrite filter_app, length_app. Qed.

Lemma create_collection_balanced collection_name drop_if_exists (st : Store) :
  Wording.balanced st (create_collection collection_name drop_if_exists st).2.
Proof.
  destruct (create_collection_run collection_name drop_if_exists st)
    as (new & Hcalls & [[-> _]|(deleted & created & closed & -> & _)]);
    eexists; (split; [exact Hcalls|]).
  - reflexivity.
  - by destruct drop_if_exists.
Qed.

(** X19.  Every client an operation of the store opens is disconnected
    before the operation ends, whatever fails in between. *)
Theorem every_client_is_disconnected (st : Store) :
  (∀ collection_name drop_if_exists,
     Wording.balanced st
       (create_collection collection_name drop_if_exists st).2)
  ∧ (∀ repo_data refresh,
       Wording.balanced st (store_structured_repo repo_data refresh st).2)
  ∧ Wording.balanced st (list_collections st).2
  ∧ (∀ collection_name,
       Wording.balanced st (delete_collection collection_name st).2)
  ∧ (∀ collection_name,
       Wording.balanced st (get_repository_overview collection_name st).2).
Proof.
  split; [intros; apply create_collection_balanced|].
  split; [|split; [|split]].
  - intros repo_data refresh.
    pose proof (store_structured_repo_run repo_data refresh st) as Hrun.
    cbn zeta in Hrun.
    destruct (create_collection_balanced (data_repo_name repo_data) refresh st)
      as (new & Hnew & Hbalanced).
    destruct (create_collection (data_repo_name repo_data) refresh st).1
      as [collection|e].
    + destruct Hrun as (outcomes & tail & _ & Hcalls & _ & Hnone & Hsome).
      exists (new ++ zip_with Wording.embed_call (data_files repo_data) outcomes
              ++ tail)%list.
      split; [by rewrite Hcalls, Hnew, <- app_assoc|].
      rewrite !opened_app, !closed_app.
      destruct (embed_calls_neutral (data_files repo_data) outcomes)
        as [-> ->].
      rewrite Hbalanced. f_equal.
      destruct (vectors_of repo_data (data_files repo_data) outcomes)
        as [|vector vectors].
      * by destruct (Hnone eq_refl) as [-> _].
      * destruct (Hsome ltac:(done))
          as [[-> _]|[(closed & -> & _)|(upserted & closed & -> & _)]]; done.
    + rewrite Hrun. by exists new.
  - destruct (list_collections_run st)
      as (new & Hcalls & [[-> _]|(listed & closed & -> & _)]);
      eexists; (split; [exact Hcalls|done]).
  - intros collection_name.
    destruct (delete_collection_run collection_name st)
      as (new & Hcalls & [[-> _]|(deleted & closed & -> & _)]);
      eexists; (split; [exact Hcalls|done]).
  - intros collection_name.
    destruct (get_repository_overview_run collection_name st)
      as (new & Hcalls
          & [[-> _]|(tail & closed & -> & _ & [->|[queried ->]] & _)]);
      eexists; (split; [exact Hcalls|done]).
Qed.


#[local] Abbreviation metadata_for_storage :=
  (metadata_for_storage dumps_symbols dumps_imports dumps_metadata).

Lemma batch_facts repo_data file_chunks outcomes :
  Forall2 (λ file_chunk outcome,
             ∃ state, outcome
                      = Wording.outcome_of
                          (embeddings_embed_query
                             (rec_content file_chunk) state).1)
    file_chunks outcomes →
  let vectors := vectors_of repo_data file_chunks outcomes in
  let chunks :=
    zip_with (Wording.after_embedding repo_data) file_chunks outcomes in
  vectors.*1.*1 `sublist_of` (rec_id <$> file_chunks)
  ∧ rec_id <$> chunks = rec_id <$> file_chunks
  ∧ rec_content <$> chunks = rec_content <$> file_chunks
  ∧ (∀ vector, vector ∈ vectors →
       ∃ file_chunk,
         file_chunk ∈ chunks
         ∧ rec_embedding file_chunk = Some vector.1.2
         ∧ vector = (rec_id file_chunk, vector.1.2,
                     metadata_for_storage repo_data file_chunk))
  ∧ ((∀ text state, is_ok (embeddings_embed_query text state).1 = true) →
     vectors.*1.*1 = rec_id <$> file_chunks).
Proof.
  induction 1 as [|file_chunk outcome file_chunks outcomes [state Hstate] _ IH].
  - cbn. repeat split; try done. intros vector Hin.
    by apply elem_of_nil in Hin.
  - cbn zeta in *. destruct IH as (Hsub & Hids & Hcontents & Hin & Hall).
    unfold Wording.vectors_of in *. cbn [zip_with].
    destruct outcome as [embedding|];
      cbn [fmap option_fmap option_map omap list_omap id
           Wording.after_embedding list_fmap].
    + cbn [Wording.stored_vector embedded rec_id rec_content fst snd].
      split; [by apply sublist_skip|].
      split; [by f_equal|]. split; [by f_equal|].
      split.
      * intros vector Hvector.
        apply elem_of_cons in Hvector as [->|Hvector].
        -- eexists. split; [by left|]. by split.
        -- destruct (Hin vector Hvector) as (chunk & Hchunk & Hrest).
           exists chunk. split; [by right|done].
      * intros Hok. f_equal. by apply Hall.
    + split; [by apply sublist_cons|].
      split; [by f_equal|]. split; [by f_equal|].
      split.
      * intros vector Hvector.
        destruct (Hin vector Hvector) as (chunk & Hchunk & Hrest).
        exists chunk. split; [by right|done].
      * intros Hok. specialize (Hok (rec_content file_chunk) state).
        destruct (embeddings_embed_query (rec_content file_chunk) state).1;
          done.
Qed.

(** X16.  The loop of [store_structured_repo] never raises; the vectors it
    prepares follow the chunks in order, each the storage form of a chunk
    as the loop leaves it, embedding recorded; when embedding never fails
    every chunk has its vector. *)
Theorem upserted_vectors_follow_the_chunks repo_data (st : Store) :
  ∃ vectors chunks st',
    prepare_chunks repo_data ([], []) (data_files repo_data) st
    = (Ok (vectors, chunks), st')
    ∧ vectors.*1.*1 `sublist_of` (rec_id <$> data_files repo_data)
    ∧ rec_id <$> chunks = rec_id <$> data_files repo_data
    ∧ rec_content <$> chunks = rec_content <$> data_files repo_data
    ∧ (∀ vector, vector ∈ vectors →
         ∃ file_chunk,
           file_chunk ∈ chunks
           ∧ rec_embedding file_chunk = Some vector.1.2
           ∧ vector = (rec_id file_chunk, vector.1.2,
                       metadata_for_storage repo_data file_chunk))
    ∧ ((∀ text state, is_ok (embeddings_embed_query text state).1 = true) →
       vectors.*1.*1 = rec_id <$> data_files repo_data).
Proof.
  destruct (prepare_chunks_run repo_data (data_files repo_data) [] [] st)
    as (outcomes & st' & Hall & Hrun & _).
  do 3 eexists. split; [exact Hrun|]. cbn [app].
  by apply batch_facts.
Qed.


(** X20.  Whatever fails between opening and closing the client comes back
    as the one entry [error]; [get_repository_overview] raises only when
    the client cannot be opened or closed. *)
Theorem overview_errors_are_entries collection_name (st : Store) :
  ∃ new,
    calls (get_repository_overview collection_name st).2
    = (calls st ++ new)%list
    ∧ ((new = [CreateClient false]
        ∧ is_ok (get_repository_overview collection_name st).1 = false)
       ∨ ∃ tail closed,
           new = (CreateClient true :: tail ++ [Disconnect closed])%list
           ∧ is_ok (get_repository_overview collection_name st).1 = closed
           ∧ (tail = [GetCollection collection_name false]
              ∨ ∃ queried,
                  tail = [GetCollection collection_name true;
                          QuerySample 100 queried])
           ∧ (last tail ≠ Some (QuerySample 100 true) →
              ∀ overview,
                (get_repository_overview collection_name st).1 = Ok overview →
                ∃ e, overview = OverviewError e)).
Proof. apply get_repository_overview_run. Qed.

(** X21.  When the client, the collection, the sample and the
    disconnect succeed, [get_repository_overview] returns a mapping: the
    error [No data found in collection] for an empty sample; the error of
    the addition when a row of three fields has a count that is not a
    number; and otherwise the statistics.  These count every row in
    [total_chunks] and in the divisor of the averages, but analyse only
    the rows of three fields: the language counts and the file type
    counts each add up to their number, which bounds the chunked and the
    unique files; a sample without such rows gives an overview of
    zeros. *)
Theorem overview_counts_three_field_rows collection_name (st : Store)
  vx collection sample_results state1 state2 state3 state4 :
  vecs_create_client (backend st) = (Ok vx, state1) →
  vx_get_collection vx collection_name state1 = (Ok collection, state2) →
  collection_query_sample collection 100 state2
  = (Ok sample_results, state3) →
  vx_disconnect vx state3 = (Ok (), state4) →
  ∃ overview,
    (get_repository_overview collection_name st).1 = Ok overview
    ∧ (sample_results = [] →
       overview = OverviewError "No data found in collection")
    ∧ (sample_results ≠ [] →
       forallb Wording.counts_are_numbers sample_results = false →
       ∃ e, tally_rows empty_tally sample_results = Raise e
            ∧ overview = OverviewError e)
    ∧ (sample_results ≠ [] →
       forallb Wording.counts_are_numbers sample_results = true →
       ∃ stats,
         overview = OverviewOf stats
         ∧ let n := Wording.analysed sample_results in
           ov_collection_name stats = collection_name
           ∧ ov_total_chunks stats = length sample_results
           ∧ denominator (ov_avg_symbols_per_chunk stats)
             = length sample_results
           ∧ denominator (ov_avg_imports_per_chunk stats)
             = length sample_results
           ∧ numerator (ov_avg_symbols_per_chunk stats)
             = ov_total_symbols stats
           ∧ numerator (ov_avg_imports_per_chunk stats)
             = ov_total_imports stats
           ∧ Wording.total (ov_languages stats) = n
           ∧ Wording.total (ov_file_types stats) = n
           ∧ (ov_chunked_files stats ≤ n)%nat
           ∧ (ov_unique_files stats ≤ n)%nat
           ∧ (n = 0 →
              ov_languages stats = ∅ ∧ ov_file_types stats = ∅
              ∧ ov_total_symbols stats = 0%Z
              ∧ ov_total_imports stats = 0%Z)).
Proof.
  intros Hclient Hcollection Hquery Hdisconnect.
  unfold VectorUtils.get_repository_overview, create_client, disconnect,
    try_finallyB, try_exceptB, call, liftB, mbind, B_bind, mret, B_ret.
  cbn [backend calls]. rewrite Hclient. cbn [backend calls is_ok].
  rewrite Hcollection. cbn [backend calls is_ok].
  rewrite Hquery. cbn [backend calls is_ok].
  destruct sample_results as [|row rows] eqn:Hsample; cbn [truthy negb].
  - cbn [backend]. rewrite Hdisconnect. eexists. split; [reflexivity|].
    split; [done|]. split; intros Hrows; by destruct Hrows.
  - rewrite <- Hsample in *.
    pose proof (tally_rows_ok sample_results empty_tally) as Hok.
    destruct (tally_rows empty_tally sample_results) as [tally|e] eqn:Htally;
      cbn [backend]; rewrite Hdisconnect; cbn [fst is_ok] in *;
      (eexists; split; [reflexivity|]).
    + split; [intros Hnil; by rewrite Hsample in Hnil|].
      split; [intros _ Hbad; by rewrite Hbad in Hok|].
      intros _ _. eexists. split; [reflexivity|].
      apply tally_rows_counts in Htally. cbn zeta in Htally.
      destruct Htally as (Hl & Hf & Hc & Hu & Hsame).
      cbn. change (map_fold _ 0 ∅) with 0 in *.
      repeat split; try done; try lia.
      all: by rewrite Hsame.
    + split; [intros Hnil; by rewrite Hsample in Hnil|].
      split; [intros _ _; by exists e|].
      intros _ Hgood. by rewrite Hgood in Hok.
Qed.

(** X14.  [create_collection] opens a client, deletes the collection
    first only when asked to, goes on to create it whether or not the
    deletion worked, and disconnects in every case; it returns exactly
    when creating and disconnecting both succeed. *)
Theorem dropping_first_is_best_effort collection_name drop_if_exists
    (st : Store) :
  ∃ new,
    calls (create_collection collection_name drop_if_exists st).2
    = (calls st ++ new)%list
    ∧ ((new = [CreateClient false]
        ∧ is_ok (create_collection collection_name drop_if_exists st).1
          = false)
       ∨ ∃ deleted created closed,
           new = ([CreateClient true]
                  ++ (if drop_if_exists
                      then [DeleteCollection collection_name deleted]
                      else [])
                  ++ [GetOrCreateCollection collection_name dimension created;
                      Disconnect closed])%list
           ∧ is_ok (create_collection collection_name drop_if_exists st).1
             = created && closed).
Proof. apply create_collection_run. Qed.

(** X15.  [delete_collection] answers with whether the deletion worked:
    [True] when the backend deleted the collection, [False] when it
    raised; it raises itself only when the client cannot be opened or
    closed, and it always closes a client it opened. *)
Theorem delete_collection_reports_the_deletion collection_name (st : Store) :
  ∃ new,
    calls (delete_collection collection_name st).2 = (calls st ++ new)%list
    ∧ ((new = [CreateClient false]
        ∧ is_ok (delete_collection collection_name st).1 = false)
       ∨ ∃ deleted closed,
           new = [CreateClient true;
                  DeleteCollection collection_name deleted;
                  Disconnect closed]
           ∧ is_ok (delete_collection collection_name st).1 = closed
           ∧ ∀ answer, (delete_collection collection_name st).1 = Ok answer →
                       answer = deleted).
Proof. apply delete_collection_run. Qed.

(** X17.  [store_structured_repo] stops at once when the collection
    cannot be made ready.  Otherwise it asks for one embedding per chunk,
    in order, and upserts at most once: exactly the vectors of the chunks
    whose embedding succeeded, through a second client.  When no chunk
    could be embedded it makes no further call and still returns.  What
    it returns is the name of the repository, and the caller's chunks are
    left as the loop changed them. *)
Theorem store_upserts_the_embedded_chunks repo_data refresh (st : Store) :
  let collection_name := data_repo_name repo_data in
  let file_chunks := data_files repo_data in
  let created := create_collection collection_name refresh st in
  let stored := store_structured_repo repo_data refresh st in
  match created.1 with
  | Raise e => stored = (Raise e, created.2)
  | Ok _ =>
      ∃ outcomes tail,
        Forall2 (λ file_chunk outcome,
                   ∃ state, outcome
                            = Wording.outcome_of
                                (embeddings_embed_query
                                   (rec_content file_chunk) state).1)
          file_chunks outcomes
        ∧ calls stored.2
          = (calls created.2
             ++ zip_with Wording.embed_call file_chunks outcomes
             ++ tail)%list
        ∧ let vectors := vectors_of repo_data file_chunks outcomes in
          let chunks :=
            zip_with (Wording.after_embedding repo_data) file_chunks
              outcomes in
          (∀ answer, stored.1 = Ok answer → answer = (collection_name, chunks))
          ∧ (vectors = [] → tail = [] ∧ is_ok stored.1 = true)
          ∧ (vectors ≠ [] →
             (tail = [CreateClient false] ∧ is_ok stored.1 = false)
             ∨ (∃ closed,
                  tail = [CreateClient true;
                          GetCollection collection_name false;
                          Disconnect closed]
                  ∧ is_ok stored.1 = false)
             ∨ (∃ upserted closed,
                  tail = [CreateClient true;
                          GetCollection collection_name true;
                          Upsert vectors upserted;
                          Disconnect closed]
                  ∧ is_ok stored.1 = upserted && closed))
  end.
Proof. apply store_structured_repo_run. Qed.

End BackendFacts.



Section RoundTrip.
Context {unicode : Py.Unicode}.
Import Py SymbolExtractor GitUtils VectorUtils.


Context (dumps_symbols : Symbols → string).
Context (dumps_imports : list string → string).
Context (dumps_metadata : gmap string MetaValue → string).
Context (loads_symbols : string → result Symbols).
Context (loads_imports : string → result (list string)).
Context (loads_metadata : string → result (gmap string MetaValue)).

#[local] Abbreviation metadata_for_storage :=
  (metadata_for_storage dumps_symbols dumps_imports dumps_metadata).
#[local] Abbreviation structure_results :=
  (structure_results loads_symbols loads_imports loads_metadata).

(** X18.  A chunk stored and found again comes back with its id, repository,
    chunk number, content, symbols and imports, without its embedding, and
    with the metadata the storing loop left in the chunk, the source of
    the repository included. *)
Theorem stored_chunk_reads_back repo_data embedding file_chunk distance :
  let stored := embedded repo_data embedding file_chunk in
  loads_symbols (dumps_symbols (rec_symbols stored))
  = Ok (rec_symbols stored) →
  loads_imports (dumps_imports (rec_imports stored))
  = Ok (rec_imports stored) →
  loads_metadata (dumps_metadata (rec_metadata stored))
  = Ok (rec_metadata stored) →
  structure_results
    [Row3 (rec_id stored) distance (metadata_for_storage repo_data stored)]
  = Ok [ {| res_id := rec_id file_chunk;
            res_repo_id := AStr (rec_repo_id file_chunk);
            res_chunk_id := chunk_id_attribute (rec_chunk_id file_chunk);
            res_content := AStr (rec_content file_chunk);
            res_embedding := None;
            res_symbols := rec_symbols file_chunk;
            res_imports := rec_imports file_chunk;
            res_metadata :=
              source_metadata repo_data (rec_metadata file_chunk);
            res_similarity_score := (1 - distance)%float;
            res_match_type := None |} ].
Proof.
  intros stored Hsymbols Himports Hmetadata.
  cbn [VectorUtils.structure_results].
  unfold get_text, VectorUtils.metadata_for_storage.
  repeat first [ rewrite lookup_insert_eq
               | rewrite lookup_singleton_eq
               | rewrite lookup_insert_ne by done ].
  cbn [mbind result_bind].
  rewrite Hsymbols. cbn [mbind result_bind].
  rewrite Himports. cbn [mbind result_bind].
  rewrite Hmetadata. cbn [mbind result_bind default].
  reflexivity.
Qed.

End RoundTrip.

(** ** The tools of the agents *)

Section ToolFacts.
Context {unicode : Py.Unicode}.
Import Py SymbolExtractor GitUtils VectorUtils Tools.

Context {Client Collection Filters : Type}.
Context (new_vector_store : result unit).
Context (create_client : result Client).
Context (get_collection : Client → string → result Collection).
Context (disconnect : Client → result unit).
Context (embed_query : string → result (list float)).
Context (collection_query :
  Collection → list float → Z → option Filters → result (list Row)).
Context (loads_symbols : string → result Symbols).
Context (loads_imports : string → result (list string)).
Context (loads_metadata : string → result (gmap string MetaValue)).

#[local] Abbreviation search_structured_repo :=
  (search_structured_repo create_client get_collection disconnect embed_query
     collection_query loads_symbols loads_imports loads_metadata).
#[local] Abbreviation structure_results :=
  (structure_results loads_symbols loads_imports loads_metadata).
#[local] Abbreviation list_directories :=
  (list_directories new_vector_store create_client get_collection disconnect
     embed_query collection_query loads_symbols loads_imports loads_metadata).
#[local] Abbreviation get_content_by_id :=
  (get_content_by_id new_vector_store create_client get_collection disconnect
     embed_query collection_query loads_symbols loads_imports loads_metadata).

Lemma collect_ids_elem results :
  ∀ (start : gset string) id,
    id ∈ foldl (λ (chunk_ids : gset string) result,
                  let chunk_id := res_id result in
                  if negb (String.eqb chunk_id "")
                  then {[chunk_id]} ∪ chunk_ids else chunk_ids)
           start results
    ↔ id ∈ start ∨ (id ≠ "" ∧ ∃ result, result ∈ results ∧ res_id result = id).
Proof.
  induction results as [|result results IH]; intros start id; cbn [foldl].
  - split; [by left|]. intros [|(_ & r & Hr & _)]; [done|].
    by apply elem_of_nil in Hr.
  - rewrite IH. cbn zeta.
    destruct (String.eqb (res_id result) "") eqn:Hid; cbn [negb].
    + apply String.eqb_eq in Hid. split.
      * intros [|(Hne & r & Hr & Heq)]; [by left|].
        right. split; [done|]. exists r. split; [by right|done].
      * intros [|(Hne & r & Hr & Heq)]; [by left|].
        apply elem_of_cons in Hr as [->|Hr]; [congruence|].
        right. split; [done|]. by exists r.
    + apply String.eqb_neq in Hid. rewrite elem_of_union, elem_of_singleton.
      split.
      * intros [[->|]|(Hne & r & Hr & Heq)]; [|by left|].
        -- right. split; [done|]. exists result. split; [by left|done].
        -- right. split; [done|]. exists r. split; [by right|done].
      * intros [|(Hne & r & Hr & Heq)]; [by left; right|].
        apply elem_of_cons in Hr as [->|Hr]; [by left; left|].
        right. split; [done|]. by exists r.
Qed.

Lemma str_le_total : Total str_le.
Proof.
  intros s1 s2. unfold str_le.
  destruct (String.leb_total s1 s2) as [H|H]; rewrite H; [by left|by right].
Qed.

(** X22.  [list_directories] lists each non-empty id of the results once, in
    ascending order; a search that fails inside the store gives the empty
    list, and only a store that cannot be built, opened or closed gives
    the one error entry. *)
Theorem directories_are_sorted_and_distinct collection_name :
  (∃ results,
     (new_vector_store
      ≫= λ _, search_structured_repo collection_name "code" 1000 None)
     = Ok results
     ∧ Sorted str_le (list_directories collection_name)
     ∧ NoDup (list_directories collection_name)
     ∧ ∀ id, id ∈ list_directories collection_name
             ↔ id ≠ "" ∧ ∃ result, result ∈ results ∧ res_id result = id)
  ∨ (∃ e,
       (new_vector_store
        ≫= λ _, search_structured_repo collection_name "code" 1000 None)
       = Raise e
       ∧ list_directories collection_name
         = ["Error listing directories: " +:+ e]).
Proof.
  unfold Tools.list_directories.
  destruct new_vector_store as [[]|e]; cbn [mbind result_bind];
    [|right; by exists e].
  destruct (search_structured_repo collection_name "code" 1000 None)
    as [results|e]; cbn [mbind result_bind]; [|right; by exists e].
  left. exists results. split; [done|].
  split; [apply (@Sorted_merge_sort _ str_le _ str_le_total)|].
  split.
  - rewrite merge_sort_Permutation. apply NoDup_elements.
  - intros id. rewrite merge_sort_Permutation, elem_of_elements.
    unfold collect_ids. rewrite collect_ids_elem.
    split; [intros [Hin|]; [by apply not_elem_of_empty in Hin|done]|by right].
Qed.


(** X23.  A collection that cannot be opened is not reported as a failure:
    the search gives no results, so the directory listing is empty and
    asking for a chunk answers that the chunk was not found. *)
Theorem missing_collection_reads_as_not_found collection_name vx e :
  new_vector_store = Ok () →
  create_client = Ok vx →
  disconnect vx = Ok () →
  get_collection vx collection_name = Raise e →
  list_directories collection_name = []
  ∧ ∀ chunk_id,
      get_content_by_id collection_name chunk_id
      = ContentError ("Chunk ID " +:+ chunk_id +:+ " not found")
          "get_content_by_id".
Proof.
  intros Hstore Hclient Hdisconnect Hcollection.
  assert (∀ query limit,
            search_structured_repo collection_name query limit None = Ok [])
    as Hsearch.
  { intros query limit. unfold VectorUtils.search_structured_repo.
    rewrite Hclient. cbn [mbind result_bind].
    unfold try_finally, try_except. rewrite Hdisconnect, Hcollection.
    reflexivity. }
  unfold Tools.list_directories, Tools.get_content_by_id.
  rewrite Hstore. cbn [mbind result_bind].
  split.
  - rewrite Hsearch. cbn [mbind result_bind]. reflexivity.
  - intros chunk_id. rewrite Hsearch. reflexivity.
Qed.

End ToolFacts.

(** ** The properties with a precondition, on the small scenario *)

Section MoreExamples.
#[local] Existing Instance Scenario.ascii.
Import Py SymbolExtractor GitUtils VectorUtils Tools.

Lemma display_items_bounded_witness :
  (0 ≤ 2)%Z
  ∧ (length (display_items ["a"; "b"; "c"] 2) ≤ Z.to_nat 2 + 1)%nat.
Proof.
  split; [lia|].
  destruct (display_items_bounded ["a"; "b"; "c"] 2 ltac:(lia))
    as (Hlength & _ & _).
  exact Hlength.
Defined.

Lemma snapshot_statistics_are_consistent_witness :
  ∃ info w',
    Scenario.walk "/work/repo" = (Ok (Some info), w')
    ∧ total_chunks (chunking_info info) = length (files info)
    ∧ files_chunked (chunking_info info)
      + files_not_chunked (chunking_info info)
      = 2.
Proof.
  pose (info := match (Scenario.walk "/work/repo").1 with
                | Ok (Some info) => info
                | _ => Scenario.no_snapshot
                end).
  pose (w' := (Scenario.walk "/work/repo").2).
  assert (Scenario.walk "/work/repo" = (Ok (Some info), w')) as Hwalk
    by (vm_compute; reflexivity).
  destruct (snapshot_statistics_are_consistent true Scenario.parsers
              Scenario.re_findall Scenario.from_language
              Scenario.create_documents Scenario.isoformat Scenario.open_repo
              "/work/repo" 4000 200 Scenario.world0 info w' Hwalk)
    as (repo & items & Hopen & Htree & _ & _ & Htotal & Hfiles & _).
  exists info, w'. split; [exact Hwalk|]. split; [exact Htotal|].
  rewrite Hfiles. injection Hopen as <-. injection Htree as <-.
  vm_compute. reflexivity.
Defined.

Lemma overview_counts_three_field_rows_witness :
  ∃ stats,
    (Scenario.overview "repo").1 = Ok (OverviewOf stats)
    ∧ ov_total_chunks stats = 3
    ∧ Wording.total (ov_languages stats) = 1.
Proof.
  destruct (overview_counts_three_field_rows (Scenario.served ())
              (λ _, Scenario.served ()) (λ _ name, Scenario.served name)
              (λ _ _, Scenario.served Scenario.sample) "repo"
              {| backend := 0; calls := [] |} () "repo" Scenario.sample
              1 2 3 4 eq_refl eq_refl eq_refl eq_refl)
    as (overview & Hoverview & _ & _ & Hstats).
  destruct (Hstats ltac:(discriminate) ltac:(vm_compute; reflexivity))
    as (stats & -> & _ & Htotal & _ & _ & _ & _ & Hlanguages & _).
  exists stats. split; [exact Hoverview|]. split; [exact Htotal|].
  exact Hlanguages.
Defined.

Lemma stored_chunk_reads_back_witness :
  ∃ r,
    structure_results Scenario.loads_symbols Scenario.loads_imports
      Scenario.loads_metadata
      [Row3 "main.py" 0.25
         (metadata_for_storage Scenario.dumps_symbols Scenario.dumps_imports
            Scenario.dumps_metadata Scenario.local_repo
            (embedded Scenario.local_repo [0.5%float] Scenario.main_chunk))]
    = Ok [r]
    ∧ res_symbols r = {[ "functions" := ["main"] ]}
    ∧ res_embedding r = None.
Proof.
  eexists. split.
  - apply (stored_chunk_reads_back Scenario.dumps_symbols
             Scenario.dumps_imports Scenario.dumps_metadata
             Scenario.loads_symbols Scenario.loads_imports
             Scenario.loads_metadata Scenario.local_repo [0.5%float]
             Scenario.main_chunk 0.25);
      vm_compute; reflexivity.
  - split; reflexivity.
Defined.

Lemma missing_collection_reads_as_not_found_witness :
  list_directories (Ok ()) (Ok ()) Scenario.get_collection (λ _, Ok ())
    (λ _, Ok [0.5%float]) Scenario.collection_query Scenario.loads_symbols
    Scenario.loads_imports Scenario.loads_metadata "other"
  = []
  ∧ get_content_by_id (Ok ()) (Ok ()) Scenario.get_collection (λ _, Ok ())
      (λ _, Ok [0.5%float]) Scenario.collection_query Scenario.loads_symbols
      Scenario.loads_imports Scenario.loads_metadata "other" "main.py"
    = ContentError "Chunk ID main.py not found" "get_content_by_id".
Proof.
  destruct (missing_collection_reads_as_not_found (Ok ()) (Ok ())
              Scenario.get_collection (λ _, Ok ()) (λ _, Ok [0.5%float])
              Scenario.collection_query Scenario.loads_symbols
              Scenario.loads_imports Scenario.loads_metadata "other" ()
              "collection not found" eq_refl eq_refl eq_refl eq_refl)
    as [Hlist Hcontent].
  split; [exact Hlist|exact (Hcontent "main.py")].
Defined.

(** Text outside ASCII: three accented letters are six bytes and three
    characters, so with a chunk size of four the file is stored whole,
    with size three. *)
Example len_counts_code_points :
  String.length "ééé" = 6 ∧ Py.len "ééé" = 3.
Proof. split; reflexivity. Qed.

Example accented_file_is_stored_whole :
  ∃ r, (Scenario.process_file true "a.py" "ééé" 4 0).1 = Ok [r]
       ∧ rec_id r = "a.py"
       ∧ rec_chunk_id r = None
       ∧ rec_metadata r !! "size" = Some (MInt 3).
Proof. eexists. repeat split; vm_compute; reflexivity. Qed.

Example strip_drops_unicode_whitespace :
  Py.strip (" import os" +:+ String "194" (String "160" "")) = "import os".
Proof. reflexivity. Qed.

End MoreExamples.
